(** * Samsung Health extractor: name cleaning, source catalog and merge engine

    A shallow embedding of [samsung_health_extractor.py] (the polars
    program) and of the parts of [reedit.py] (the earlier pandas script)
    that differ from it, together with the properties of the
    specification that were checked against them.

    Conventions.
    - File names are ASCII strings ([string] is a list of bytes); the
      Python [str] operations used by the code are transcribed in
      [Module Py].  The character classes of [\d] and of [str.strip]
      are transcribed for ASCII text; a property that depends on one of
      them is stated for ASCII strings ([Text.is_ascii]).
    - A [dict] read with [.get(key, default)] is a record whose optional
      fields are [option]s; [rename_columns] is a [gmap string string];
      the ignore and enabled sets are [gset string].
    - What the code obtains from the file system or from the data-frame
      library is a parameter of the section it is used in: reading a
      CSV file, parsing one timestamp string, the outer join, and the
      output steps that follow the emptiness test.  An exception is
      [None]. *)

From Stdlib Require Import ZArith String Ascii List Lia Bool Sorting.Sorted Sorting.Permutation.
From stdpp Require Import gmap strings list fin_maps.

Open Scope string_scope.

(* ===================================================================== *)
(** ** Python string operations used by the code *)
(* ===================================================================== *)

Module Py.

(** [s[n:]] *)
Fixpoint drop (n : nat) (s : string) : string :=
  match n, s with
  | O, _ => s
  | S _, EmptyString => EmptyString
  | S k, String _ s' => drop k s'
  end.

(** [s[:n]] *)
Fixpoint take (n : nat) (s : string) : string :=
  match n, s with
  | O, _ => EmptyString
  | S _, EmptyString => EmptyString
  | S k, String c s' => String c (take k s')
  end.

(** [s.find(sub)]: the index of the first occurrence, [None] for [-1]. *)
Fixpoint find (sub s : string) : option nat :=
  if String.prefix sub s then Some 0
  else match s with
       | EmptyString => None
       | String _ s' => option_map S (find sub s')
       end.

(** [s.replace(old, new)] for a non-empty [old]: the string is scanned
    from the left; at every position where [old] starts, [new] is
    emitted and the scan resumes after the occurrence.  [skip] counts the
    characters of the current occurrence still to be passed over. *)
Fixpoint replace_from (old new : string) (skip : nat) (s : string) : string :=
  match s with
  | EmptyString => EmptyString
  | String c s' =>
      match skip with
      | S k => replace_from old new k s'
      | O =>
          if String.prefix old s
          then new ++ replace_from old new (String.length old - 1) s'
          else String c (replace_from old new 0 s')
      end
  end.

Definition replace (old new s : string) : string := replace_from old new 0 s.

(** Removal of the longest suffix whose characters all satisfy [P];
    [s.rstrip(chars)] is [rstrip_while (fun c => c in chars) s]. *)
Fixpoint rstrip_while (P : ascii -> bool) (s : string) : string :=
  match s with
  | EmptyString => EmptyString
  | String c s' =>
      match rstrip_while P s' with
      | EmptyString => if P c then EmptyString else String c EmptyString
      | t => String c t
      end
  end.

(** [\d] on an ASCII character.  On a [str] the class also holds the
    decimal digits of other scripts, which an ASCII name does not
    contain. *)
Definition is_digit (c : ascii) : bool :=
  let n := nat_of_ascii c in (48 <=? n)%nat && (n <=? 57)%nat.

Definition newline : ascii := "010"%char.

(** [Some body] when [s = body ++ "\n"]. *)
Fixpoint chop_newline (s : string) : option string :=
  match s with
  | EmptyString => None
  | String c EmptyString =>
      if Ascii.eqb c newline then Some EmptyString else None
  | String c s' => option_map (String c) (chop_newline s')
  end.

(** [re.sub(r"\d+$", "", s)].  Without [re.MULTILINE], [$] matches at
    the end of the string and just before a newline that ends it, so the
    digits removed are the run that ends the string or, when the string
    ends with a newline, the run just before that newline. *)
Definition re_sub_trailing_digits (s : string) : string :=
  match chop_newline s with
  | Some body => rstrip_while is_digit body ++ String newline EmptyString
  | None => rstrip_while is_digit s
  end.

(** [s.split(sep)] for a one-character separator: never the empty list. *)
Fixpoint split (sep : ascii) (s : string) : list string :=
  match s with
  | EmptyString => [EmptyString]
  | String c s' =>
      if Ascii.eqb c sep then EmptyString :: split sep s'
      else match split sep s' with
           | p :: ps => String c p :: ps
           | [] => [String c EmptyString]
           end
  end.

(** [sep.join(parts)] *)
Definition join (sep : string) (parts : list string) : string :=
  String.concat sep parts.

(** Number of occurrences of the character [c] in [s]. *)
Fixpoint count_char (c : ascii) (s : string) : nat :=
  match s with
  | EmptyString => 0
  | String d s' => (if Ascii.eqb d c then 1 else 0) + count_char c s'
  end.

End Py.

(* ===================================================================== *)
(** ** NameNormalizer: [clean_csv_name] *)
(* ===================================================================== *)

(** [clean_csv_name] of samsung_health_extractor.py (lines 129-155);
    [_clean_csv_name] of reedit.py (lines 201-222) is the same text. *)
Definition clean_csv_name (name : string) : string :=
  (* name.replace(".csv", "") *)
  let name_without_ext := Py.replace ".csv" "" name in
  (* health_index = name_without_ext.find("health") *)
  let name_without_ext :=
    match Py.find "health" name_without_ext with
    | Some health_index => Py.drop (health_index + 6) name_without_ext
    | None => name_without_ext
    end in
  (* re.sub(r"\d+$", "", name_without_ext) *)
  let cleaned_name := Py.re_sub_trailing_digits name_without_ext in
  (* cleaned_name.rstrip("._") *)
  Py.rstrip_while (fun c => Ascii.eqb c "."%char || Ascii.eqb c "_"%char) cleaned_name.

(** The first step as the specification words it: only the first
    occurrence of [old] is removed. *)
Definition remove_first_occurrence (old s : string) : string :=
  match Py.find old s with
  | Some i => Py.take i s ++ Py.drop (i + String.length old) s
  | None => s
  end.

(* ===================================================================== *)
(** ** Data frames *)
(* ===================================================================== *)

(** The column types the code distinguishes.  [Datetime] carries its
    time unit: [from_epoch(..., time_unit="ms")] yields milliseconds,
    [str.to_datetime()] microseconds, pandas nanoseconds. *)
Inductive TimeUnit := Ms | Us | Ns.

Inductive DType :=
  | Int64 | Int32 | Float64 | Float32
  | Utf8 | Boolean | Date | Datetime (u : TimeUnit).

(** A cell value.  A numeric cell is represented by the integer the
    epoch conversion reads from it; [VDate] counts days and [VDatetime]
    counts time units since 1970-01-01. *)
Inductive Value :=
  | VNum (z : Z)
  | VStr (s : string)
  | VBool (b : bool)
  | VDate (days : Z)
  | VDatetime (t : Z).

(** A null cell is [None]. *)
Record Series := mkSeries { dtype : DType; cells : list (option Value) }.

(** Ordered columns; the library keeps the names distinct. *)
Definition DataFrame := list (string * Series).

#[global] Instance TimeUnit_eq_dec : EqDecision TimeUnit.
Proof. solve_decision. Defined.
#[global] Instance DType_eq_dec : EqDecision DType.
Proof. solve_decision. Defined.
#[global] Instance Value_eq_dec : EqDecision Value.
Proof. solve_decision. Defined.
#[global] Instance Series_eq_dec : EqDecision Series.
Proof. solve_decision. Defined.

Module Frame.

(** [df.columns] *)
Definition columns (df : DataFrame) : list string := map fst df.

(** [df.height], [len(df)] *)
Definition height (df : DataFrame) : nat :=
  match df with
  | [] => 0
  | (_, s) :: _ => length (cells s)
  end.

(** [df.width] *)
Definition width (df : DataFrame) : nat := length df.

(** polars [df.is_empty()]: no rows. *)
Definition is_empty (df : DataFrame) : bool := Nat.eqb (height df) 0.

(** pandas [df.empty]: some axis has length 0. *)
Definition pandas_empty (df : DataFrame) : bool :=
  Nat.eqb (height df) 0 || Nat.eqb (width df) 0.

(** [col in df.columns] *)
Definition has_column (name : string) (df : DataFrame) : bool :=
  bool_decide (name ∈ columns df).

(** [df[name]]; [None] when there is no such column. *)
Fixpoint get_column (name : string) (df : DataFrame) : option Series :=
  match df with
  | [] => None
  | (n, s) :: df' => if String.eqb n name then Some s else get_column name df'
  end.

(** [df.select(names)]: the named columns in the order given; raises
    on an unknown or a repeated name. *)
Definition select (names : list string) (df : DataFrame) : option DataFrame :=
  if bool_decide (NoDup names)
  then mapM (fun n => pair n <$> get_column n df) names
  else None.

(** [df.with_columns(s.alias(name))]: replaces the column of that name
    in place, or appends a new last column. *)
Fixpoint with_column (name : string) (s : Series) (df : DataFrame) : DataFrame :=
  match df with
  | [] => [(name, s)]
  | (n, s0) :: df' =>
      if String.eqb n name then (n, s) :: df' else (n, s0) :: with_column name s df'
  end.

(** [df.rename(mapping)]: all names change at once; raises when a key
    of the mapping is not a column or when two columns end up with one
    name. *)
Definition rename (mapping : gmap string string) (df : DataFrame) : option DataFrame :=
  if bool_decide (dom mapping ⊆ list_to_set (columns df)) then
    let df' := map (fun '(n, s) => (default n (mapping !! n), s)) df in
    if bool_decide (NoDup (columns df')) then Some df' else None
  else None.

(** pandas [df.rename(columns=mapping)]: names that are not columns are
    ignored and repeated names are allowed. *)
Definition pandas_rename (mapping : gmap string string) (df : DataFrame) : DataFrame :=
  map (fun '(n, s) => (default n (mapping !! n), s)) df.

(** [dtype in [pl.Int64, pl.Int32, pl.Float64, pl.Float32]] *)
Definition is_numeric (t : DType) : bool :=
  match t with
  | Int64 | Int32 | Float64 | Float32 => true
  | _ => false
  end.

(** [pl.from_epoch(col, time_unit="ms")] on a numeric column. *)
Definition from_epoch_ms (s : Series) : Series :=
  mkSeries (Datetime Ms)
    (map (fun c => match c with
                   | Some (VNum z) => Some (VDatetime z)
                   | _ => None
                   end) (cells s)).

Definition units_per_day (u : TimeUnit) : Z :=
  match u with
  | Ms => 86400000
  | Us => 86400000000
  | Ns => 86400000000000
  end%Z.

(** [.dt.date()]: the calendar day of each instant; raises on a column
    that is not a [Datetime]. *)
Definition dt_date (s : Series) : option Series :=
  match dtype s with
  | Datetime u =>
      Some (mkSeries Date
              (map (fun c => match c with
                             | Some (VDatetime t) => Some (VDate (t / units_per_day u))
                             | _ => None
                             end) (cells s)))
  | _ => None
  end.

(** Row [i] holds only nulls. *)
Definition row_all_null (df : DataFrame) (i : nat) : bool :=
  forallb (fun '(_, s) => match cells s !! i with
                          | Some (Some _) => false
                          | _ => true
                          end) df.

(** [col.null_count()] *)
Definition null_count (s : Series) : nat :=
  length (filter (fun c => c = None) (cells s)).

(** [df.filter(~pl.all_horizontal(pl.all().is_null()))] *)
Definition drop_null_rows (df : DataFrame) : DataFrame :=
  let keep := map (fun i => negb (row_all_null df i)) (seq 0 (height df)) in
  map (fun '(n, s) =>
         (n, mkSeries (dtype s)
               (map fst (filter (fun cb => snd cb = true) (zip (cells s) keep)))))
      df.

End Frame.

(* ===================================================================== *)
(** ** Configuration and diagnostics *)
(* ===================================================================== *)

(** One entry of a combination's [sources] list.  A field read with
    [source.get(key, default)] whose default matters is an [option];
    [required] absent is [False], [columns_to_include] absent is the
    empty list, [rename_columns] absent is the empty mapping. *)
Record SourceSpec := mkSource {
  csv_name : string;
  priority : option Z;
  required : bool;
  columns_to_include : list string;
  rename_columns : gmap string string;
  merge_key : option string;
  merge_key_rename : option string
}.

(** [output_structure] *)
Record OutputSpec := mkOutput {
  primary_sort : option string;
  sort_ascending : option bool;
  final_columns : list string;
  fill_missing_values : option Value;
  interpolate_temperature : bool
}.

(** One value of the [data_combinations] mapping. *)
Record ComboConfig := mkCombo {
  output_file : option string;
  sources : list SourceSpec;
  output_structure : OutputSpec
}.

(** The mapping itself, in the order the loop visits it. *)
Definition CombinationConfig := list (string * ComboConfig).

(** A log entry: its [message_type] and the name it reports.  The log
    keeps the messages that tell an outcome; the [debug_*] messages that
    only report sizes, columns and samples are left out. *)
Definition LogMsg := (string * string)%type.

(** [source.get("merge_key", "day_time")] *)
Definition source_merge_key (source : SourceSpec) : string :=
  default "day_time" (merge_key source).

(** [source.get("merge_key_rename", source_merge_key)] *)
Definition source_merge_key_rename (source : SourceSpec) : string :=
  default (source_merge_key source) (merge_key_rename source).

(** The sort key [lambda x: x.get("priority", 999)]. *)
Definition sort_key (source : SourceSpec) : Z := default 999%Z (priority source).

(** [list.sort(key=...)] is stable: a source is placed before the
    sources of the already sorted tail whose key is not smaller. *)
Fixpoint insert_by_priority (x : SourceSpec) (l : list SourceSpec) : list SourceSpec :=
  match l with
  | [] => [x]
  | y :: l' =>
      if (sort_key x <=? sort_key y)%Z then x :: y :: l'
      else y :: insert_by_priority x l'
  end.

Fixpoint sort_by_priority (l : list SourceSpec) : list SourceSpec :=
  match l with
  | [] => []
  | x :: l' => insert_by_priority x (sort_by_priority l')
  end.

(** [file_path.name]: the last component of a path as the glob yields
    it. *)
Definition path_name (file_path : string) : string :=
  List.last (Py.split "/"%char file_path) EmptyString.

(** The search loop of lines 417-423: the first path whose cleaned name
    is [csv_name]. *)
Fixpoint find_csv_file (csv_paths : list string) (name : string) : option string :=
  match csv_paths with
  | [] => None
  | file_path :: rest =>
      if String.eqb (clean_csv_name (path_name file_path)) name
      then Some file_path
      else find_csv_file rest name
  end.

(* ===================================================================== *)
(** ** SourceCatalog: [csv_has_data] and [get_cleaned_csv_names] *)
(* ===================================================================== *)

(** One value of the hierarchical result:
    [{"subcategories": [...], "files": [...]}]. *)
Record Category := mkCategory {
  subcategories : list string;
  files : list string
}.

(** Where a cleaned name is recorded inside its category. *)
Inductive Placement :=
  | DirectFile
  | Subcategory (subcategory : string).

(** The [if len(parts) == 1 / elif len(parts) == 2 / else] of lines
    315-340: the category key of a cleaned name and what is recorded
    under it. *)
Definition classify (cleaned_name : string) : string * Placement :=
  let parts := Py.split "."%char cleaned_name in
  match parts with
  | [category] => (category, DirectFile)
  | [category; _] => (category, DirectFile)
  | _ => (Py.join "." (take 2 parts), Subcategory (Py.join "." (drop 2 parts)))
  end.

(** The body of the hierarchical loop after the three filters. *)
Definition add_to_categories (categories : gmap string Category)
    (cleaned_name : string) : gmap string Category :=
  let '(category, placement) := classify cleaned_name in
  (* if category not in categories: categories[category] = {...} *)
  let entry := default (mkCategory [] []) (categories !! category) in
  match placement with
  | DirectFile =>
      <[category := mkCategory (subcategories entry) (files entry ++ [cleaned_name])]>
        categories
  | Subcategory subcategory =>
      if bool_decide (subcategory ∈ subcategories entry)
      then <[category := entry]> categories
      else <[category := mkCategory (subcategories entry ++ [subcategory]) (files entry)]>
             categories
  end.

(** [list.sort()] on strings. *)
Fixpoint insert_string (x : string) (l : list string) : list string :=
  match l with
  | [] => [x]
  | y :: l' => if String.leb x y then x :: y :: l' else y :: insert_string x l'
  end.

Definition sort_strings (l : list string) : list string :=
  foldr insert_string [] l.

(** Lines 342-347. *)
Definition sort_categories (categories : gmap string Category) : gmap string Category :=
  (fun entry => mkCategory (sort_strings (subcategories entry))
                           (sort_strings (files entry))) <$> categories.

(** The value returned by [get_cleaned_csv_names]. *)
Inductive Catalog :=
  | FlatList (cleaned_names : list string)
  | Hierarchy (categories : gmap string Category).

Section Catalog.

(** [pl.read_csv(path, skip_rows=1, ...)]; [None] when it raises. *)
Variable read_csv : string -> option DataFrame.

(** [csv_has_data] (lines 158-217). *)
Definition csv_has_data (file_path : string) (min_rows : nat) : bool :=
  match read_csv file_path with
  | None => false
  | Some df =>
      if Frame.is_empty df then false
      else if Nat.eqb (list_sum (map (fun '(_, s) => Frame.null_count s) df))
                      (Frame.height df * Frame.width df) then false
      else
        let df_clean := Frame.drop_null_rows df in
        if Frame.is_empty df_clean then false
        else if (Frame.height df_clean <=? min_rows)%nat then false
        else existsb (fun '(_, s) =>
                        (Frame.null_count s <? Frame.height df_clean)%nat) df_clean
  end.

(** The two loops of [get_cleaned_csv_names], over the decision
    [reason] of the three filters ([None]: the file is kept). *)
Section Loops.
Variable reason : string -> option string.

Fixpoint flat_loop (csv_paths : list string) : list string * list LogMsg :=
  match csv_paths with
  | [] => ([], [])
  | file_path :: rest =>
      let cleaned_name := clean_csv_name (path_name file_path) in
      let '(names, msgs) := flat_loop rest in
      match reason file_path with
      | Some message_type => (names, (message_type, cleaned_name) :: msgs)
      | None => (cleaned_name :: names, msgs)
      end
  end.

Fixpoint hierarchical_loop (categories : gmap string Category)
    (csv_paths : list string) : gmap string Category * list LogMsg :=
  match csv_paths with
  | [] => (categories, [])
  | file_path :: rest =>
      let cleaned_name := clean_csv_name (path_name file_path) in
      match reason file_path with
      | Some message_type =>
          let '(result, msgs) := hierarchical_loop categories rest in
          (result, (message_type, cleaned_name) :: msgs)
      | None =>
          hierarchical_loop (add_to_categories categories cleaned_name) rest
      end
  end.

Definition build_catalog (hierarchical : bool) (csv_paths : list string)
    : Catalog * list LogMsg :=
  if hierarchical then
    let '(categories, msgs) := hierarchical_loop ∅ csv_paths in
    (Hierarchy (sort_categories categories), msgs)
  else
    let '(names, msgs) := flat_loop csv_paths in
    (FlatList names, msgs).
End Loops.

(** The three filters of samsung_health_extractor.py (lines 300-313
    and 274-287). *)
Definition filter_reason (filter_ignored filter_empty filter_config : bool)
    (ignore_set enabled_csvs : gset string) (file_path : string) : option string :=
  let cleaned_name := clean_csv_name (path_name file_path) in
  if filter_ignored && bool_decide (cleaned_name ∈ ignore_set)
  then Some "filtered_ignored"
  else if filter_empty && negb (csv_has_data file_path 10)
  then Some "filtered_empty"
  else if filter_config && negb (bool_decide (enabled_csvs = ∅))
          && negb (bool_decide (cleaned_name ∈ enabled_csvs))
  then Some "filtered_not_in_config"
  else None.

(** The message logged once the enabled set is known (lines 258-265
    of samsung_health_extractor.py, 109-116 of reedit.py). *)
Definition enabled_message (filter_config : bool) (enabled_csvs : gset string)
    : list LogMsg :=
  if filter_config then
    if bool_decide (enabled_csvs = ∅)
    then [("info",
           "No enabled CSV files found in configuration. All files will be processed.")]
    else [("filtering_enabled", "")]
  else [].

(** [get_cleaned_csv_names] of samsung_health_extractor.py (lines
    220-347).  [ignore_list] is what [read_ignore_list] returns and
    [configured_csvs] the [enabled_csvs] of the configuration file;
    each is read only when its filter is on.  The log holds the entries
    that the function writes itself (lines 263, 265, 276-286 and
    302-312); what [read_ignore_list], [read_combination_config] and
    [csv_has_data] write to the same log while they are called is left
    out. *)
Definition get_cleaned_csv_names (csv_paths : list string)
    (filter_ignored : bool) (ignore_list : gset string) (hierarchical : bool)
    (filter_empty filter_config : bool) (configured_csvs : gset string)
    : Catalog * list LogMsg :=
  let ignore_set := if filter_ignored then ignore_list else ∅ in
  let enabled_csvs := if filter_config then configured_csvs else ∅ in
  let '(catalog, msgs) :=
    build_catalog
      (filter_reason filter_ignored filter_empty filter_config ignore_set enabled_csvs)
      hierarchical csv_paths in
  (catalog, (enabled_message filter_config enabled_csvs ++ msgs)%list).

End Catalog.

(* ===================================================================== *)
(** ** MergeKeyResolver and CombinationEngine: [process_data_combinations] *)
(* ===================================================================== *)

(** What the [for] loop does after one source. *)
Inductive Outcome := Continue | Break.

(** The local variables of the loop that outlive one source, and the
    log. *)
Record EngineState := mkState {
  st_combined_df : option DataFrame;
  st_merge_key : option string;
  st_log : list LogMsg
}.

Definition add_log (st : EngineState) (msgs : list LogMsg) : EngineState :=
  mkState (st_combined_df st) (st_merge_key st) (st_log st ++ msgs).

Definition set_combined_df (st : EngineState) (df : DataFrame) : EngineState :=
  mkState (Some df) (st_merge_key st) (st_log st).

(** The result of the column selection of lines 475-509. *)
Inductive Selection :=
  | Selected (df : DataFrame)
  | NoRequiredColumns
  | SelectRaised.

(** The table of one source once it is selected, renamed and
    converted, with what the conversion logged. *)
Inductive Prepared :=
  | Ready (df : DataFrame) (msgs : list LogMsg)
  | Unusable
  | PrepareRaised.

(** What [process_data_combinations] leaves behind: the configuration
    object as the caller sees it afterwards, the files written, in
    order, and the log. *)
Record Run := mkRun {
  config : CombinationConfig;
  written : list (string * DataFrame);
  events : list LogMsg
}.

Section Engine.

(** [pl.read_csv(path, skip_rows=1, ...)]; [None] when it raises. *)
Variable read_csv : string -> option DataFrame.
(** The instant, in microseconds, that [str.to_datetime()] reads from
    one string; [None] when the string is not a timestamp. *)
Variable parse_timestamp : string -> option Z.
(** [left.join(right, on=key, how="full", coalesce=True)]; [None] when
    it raises. *)
Variable outer_join : DataFrame -> DataFrame -> string -> option DataFrame.
(** Lines 667-781: sorting, formatting of the key, final columns,
    filling, interpolation, marker flattening, removal of empty rows
    and [write_csv].  The result is the table written; [None] when one
    of the steps raises. *)
Variable output_pipeline : OutputSpec -> option string -> DataFrame -> option DataFrame.

(** [pl.col(key).str.to_datetime()] with its default [strict=True]:
    the column must hold strings, and one string that is not a
    timestamp makes the whole conversion raise. *)
Definition str_to_datetime (s : Series) : option Series :=
  match dtype s with
  | Utf8 =>
      mkSeries (Datetime Us) <$>
        mapM (fun c => match c with
                       | None => Some None
                       | Some (VStr x) => Some <$> (VDatetime <$> parse_timestamp x)
                       | Some _ => None
                       end) (cells s)
  | _ => None
  end.

(** The expression that replaces the key column (lines 567-585 and
    616-633). *)
Definition to_temporal (use_datetime : bool) (s : Series) : option Series :=
  if Frame.is_numeric (dtype s) then
    if use_datetime then Some (Frame.from_epoch_ms s)
    else Frame.dt_date (Frame.from_epoch_ms s)
  else
    if use_datetime then str_to_datetime s
    else str_to_datetime s ≫= Frame.dt_date.

(** [if key in df.columns: try: ... except: log] (lines 563-587 and
    613-635): a conversion that raises leaves the table as it was. *)
Definition normalize_key (key : string) (use_datetime : bool) (df : DataFrame)
    : DataFrame * list LogMsg :=
  match Frame.get_column key df with
  | None => (df, [])
  | Some s =>
      match to_temporal use_datetime s with
      | Some s' => (Frame.with_column key s' df, [])
      | None => (df, [("datetime_conversion_error", key)])
      end
  end.

(** Lines 476-478. *)
Definition columns_to_include_with_key (source : SourceSpec) (df : DataFrame)
    : list string :=
  let key := source_merge_key source in
  if negb (bool_decide (key ∈ columns_to_include source)) && Frame.has_column key df
  then columns_to_include source ++ [key]
  else columns_to_include source.

(** Lines 480-509. *)
Definition select_columns (source : SourceSpec) (df : DataFrame) : Selection :=
  match columns_to_include_with_key source df with
  | [] => Selected df
  | wanted =>
      match List.filter (fun col => Frame.has_column col df) wanted with
      | [] => NoRequiredColumns
      | available_columns =>
          match Frame.select available_columns df with
          | Some df' => Selected df'
          | None => SelectRaised
          end
      end
  end.

(** Lines 514-527: when the merge key is itself a key of
    [rename_columns], the column is first copied under the new name. *)
Definition duplicate_merge_key (source : SourceSpec) (df : DataFrame)
    : option DataFrame :=
  match rename_columns source !! source_merge_key source with
  | Some target_name =>
      s ← Frame.get_column (source_merge_key source) df;
      Some (Frame.with_column target_name s df)
  | None => Some df
  end.

(** Lines 529-537. *)
Definition rename_merge_key (source : SourceSpec) (df : DataFrame)
    : option DataFrame :=
  if Frame.has_column (source_merge_key source) df
     && negb (String.eqb (source_merge_key_rename source) (source_merge_key source))
  then Frame.rename {[ source_merge_key source := source_merge_key_rename source ]} df
  else Some df.

(** Lines 539-559: the other renames, the original merge key left
    out. *)
Definition rename_other_columns (source : SourceSpec) (df : DataFrame)
    : option DataFrame :=
  let filtered_rename_columns :=
    delete (source_merge_key source) (rename_columns source) in
  if bool_decide (filtered_rename_columns = ∅) then Some df
  else Frame.rename filtered_rename_columns df.

(** Lines 511-559. *)
Definition rename_stage (source : SourceSpec) (df : DataFrame) : option DataFrame :=
  df ← duplicate_merge_key source df;
  df ← rename_merge_key source df;
  rename_other_columns source df.

(** The handler of lines 649-654. *)
Definition source_failed (source : SourceSpec) (st : EngineState)
    : Outcome * EngineState :=
  (if required source then Break else Continue,
   add_log st [("processing_error", csv_name source)]).

(** Lines 591-647: the first table becomes the merged table; a later
    one is joined to it after the merged table's key has been
    converted again. *)
Definition combine (source : SourceSpec) (key : string) (st : EngineState)
    (df : DataFrame) : Outcome * EngineState :=
  match st_combined_df st with
  | None => (Continue, set_combined_df st df)
  | Some combined_df =>
      let '(combined_df, msgs) :=
        normalize_key key (String.eqb key "datetime") combined_df in
      let st := add_log (set_combined_df st combined_df) msgs in
      match outer_join combined_df df key with
      | Some joined => (Continue, set_combined_df st joined)
      | None => source_failed source st
      end
  end.

(** Lines 475-587: the table of one source as it is handed to the
    merge: selection, renames, conversion of the column named by the
    combination's key [key]. *)
Definition prepare_source (source : SourceSpec) (key : string) (df : DataFrame)
    : Prepared :=
  match select_columns source df with
  | NoRequiredColumns => Unusable
  | SelectRaised => PrepareRaised
  | Selected df =>
      match rename_stage source df with
      | None => PrepareRaised
      | Some df =>
          (* use_datetime = (merge_key_rename == "datetime") *)
          let '(df, msgs) :=
            normalize_key key
              (String.eqb (source_merge_key_rename source) "datetime") df in
          Ready df msgs
      end
  end.

(** Lines 467-647, the body of the inner [try] once the file is
    read. *)
Definition process_loaded (source : SourceSpec) (st : EngineState)
    (df : DataFrame) : Outcome * EngineState :=
  (* if merge_key is None: merge_key = merge_key_rename *)
  let key := default (source_merge_key_rename source) (st_merge_key st) in
  let st := mkState (st_combined_df st) (Some key) (st_log st) in
  match prepare_source source key df with
  | Unusable =>
      (if required source then Break else Continue,
       add_log st [("no_required_columns", csv_name source)])
  | PrepareRaised => source_failed source st
  | Ready df msgs =>
      combine source key
        (add_log st (msgs ++ [("loaded_data", csv_name source)])) df
  end.

(** One iteration of the loop over the sources (lines 398-654). *)
Definition process_source (csv_paths : list string) (st : EngineState)
    (source : SourceSpec) : Outcome * EngineState :=
  match find_csv_file csv_paths (csv_name source) with
  | None =>
      if required source
      then (Break, add_log st [("debug_file_not_found", csv_name source);
                               ("required_source_not_found", csv_name source)])
      else (Continue, add_log st [("debug_file_not_found", csv_name source);
                                  ("optional_source_not_found", csv_name source)])
  | Some csv_file_path =>
      let st := add_log st [("debug_file_found", csv_name source)] in
      match read_csv csv_file_path with
      | None => source_failed source st
      | Some df => process_loaded source st df
      end
  end.

(** The loop itself: [break] leaves it with the state reached. *)
Fixpoint process_sources (csv_paths : list string) (st : EngineState)
    (srcs : list SourceSpec) : EngineState :=
  match srcs with
  | [] => st
  | source :: rest =>
      match process_source csv_paths st source with
      | (Break, st') => st'
      | (Continue, st') => process_sources csv_paths st' rest
      end
  end.

(** The state in which the loop over the sorted sources of a
    combination ends (lines 392-654). *)
Definition merge_sources (csv_paths : list string) (combo_config : ComboConfig)
    : EngineState :=
  process_sources csv_paths (mkState None None [])
    (sort_by_priority (sources combo_config)).

(** Lines 656-805: the test on the merged table, the output steps and
    the handler of the outer [try]. *)
Definition output_step (combo_name : string) (combo_config : ComboConfig)
    (st : EngineState) : list (string * DataFrame) * list LogMsg :=
  let output_file := default "unknown.csv" (output_file combo_config) in
  match st_combined_df st with
  | Some combined_df =>
      if negb (Frame.is_empty combined_df) then
        match output_pipeline (output_structure combo_config) (st_merge_key st)
                combined_df with
        | Some table => ([(output_file, table)], [("output_created", output_file)])
        | None => ([], [("combination_processing_error", combo_name)])
        end
      else ([], [("debug_no_data_to_output", combo_name)])
  | None => ([], [("debug_no_data_to_output", combo_name)])
  end.

(** One iteration of the loop over the combinations (lines 381-805):
    the combination as it is left in the configuration, the files
    written and the log.  [sources.sort(...)] sorts the list held by
    the configuration itself. *)
Definition process_combination (csv_paths : list string) (combo_name : string)
    (combo_config : ComboConfig)
    : ComboConfig * list (string * DataFrame) * list LogMsg :=
  match sources combo_config with
  | [] =>
      (combo_config, [],
       [("processing_combination", combo_name); ("no_sources", combo_name)])
  | _ =>
      let st := merge_sources csv_paths combo_config in
      let '(files_written, msgs) := output_step combo_name combo_config st in
      (mkCombo (output_file combo_config)
               (sort_by_priority (sources combo_config))
               (output_structure combo_config),
       files_written,
       (("processing_combination", combo_name) :: st_log st ++ msgs)%list)
  end.

(** [process_data_combinations] (lines 350-805). *)
Fixpoint process_data_combinations (combination_config : CombinationConfig)
    (csv_paths : list string) : Run :=
  match combination_config with
  | [] => mkRun [] [] []
  | (combo_name, combo_config) :: rest =>
      let '(combo_config', files_written, msgs) :=
        process_combination csv_paths combo_name combo_config in
      let run := process_data_combinations rest csv_paths in
      mkRun ((combo_name, combo_config') :: config run)
            (files_written ++ written run)
            (msgs ++ events run)
  end.

End Engine.

(* ===================================================================== *)
(** ** reedit.py: the places where the pandas script differs *)
(* ===================================================================== *)

Module Reedit.

Section Catalog.

(** [_csv_has_data(file_path)] (lines 225-273), of which the loop
    uses the result only. *)
Variable csv_has_data : string -> bool.

(** The three filters of reedit.py (lines 151-164 and 125-138): the
    last one does not look at whether the enabled set is empty. *)
Definition filter_reason (filter_ignored filter_empty filter_config : bool)
    (ignore_set enabled_csvs : gset string) (file_path : string) : option string :=
  let cleaned_name := clean_csv_name (path_name file_path) in
  if filter_ignored && bool_decide (cleaned_name ∈ ignore_set)
  then Some "filtered_ignored"
  else if filter_empty && negb (csv_has_data file_path)
  then Some "filtered_empty"
  else if filter_config && negb (bool_decide (cleaned_name ∈ enabled_csvs))
  then Some "filtered_not_in_config"
  else None.

(** [get_cleaned_csv_names] of reedit.py (lines 78-198) over the
    global [samsung_csv_paths]; what it prints is kept as the log. *)
Definition get_cleaned_csv_names (samsung_csv_paths : list string)
    (filter_ignored : bool) (ignore_list : gset string) (hierarchical : bool)
    (filter_empty filter_config : bool) (configured_csvs : gset string)
    : Catalog * list LogMsg :=
  let ignore_set := if filter_ignored then ignore_list else ∅ in
  let enabled_csvs := if filter_config then configured_csvs else ∅ in
  let '(catalog, msgs) :=
    build_catalog
      (filter_reason filter_ignored filter_empty filter_config ignore_set enabled_csvs)
      hierarchical samsung_csv_paths in
  (catalog, (enabled_message filter_config enabled_csvs ++ msgs)%list).

End Catalog.

Section Source.

(** The instant, in microseconds, that [pd.to_datetime] reads from one
    string; [None] when the string is not a timestamp. *)
Variable parse_timestamp : string -> option Z.

(** Lines 355-363: the merge key is renamed to [merge_key_rename],
    then [rename_columns] is applied whole. *)
Definition rename_stage (source : SourceSpec) (df : DataFrame) : DataFrame :=
  let df :=
    if Frame.has_column (source_merge_key source) df
       && negb (String.eqb (source_merge_key_rename source) (source_merge_key source))
    then Frame.pandas_rename
           {[ source_merge_key source := source_merge_key_rename source ]} df
    else df in
  if bool_decide (rename_columns source = ∅) then df
  else Frame.pandas_rename (rename_columns source) df.


(** [pd.to_datetime(col, unit='ms')] for a column whose values are
    [in_datetime_range]; on a value outside the call raises. *)
Definition to_datetime_ms (s : Series) : Series :=
  mkSeries (Datetime Ns)
    (map (fun c => match c with
                   | Some (VNum z) => Some (VDatetime (z * 1000000))
                   | _ => None
                   end) (cells s)).

(** [pd.to_datetime(col, errors='coerce')]: a value that is not a
    timestamp becomes [NaT]. *)
Definition to_datetime_coerce (s : Series) : Series :=
  mkSeries (Datetime Ns)
    (map (fun c => match c with
                   | Some (VStr x) => (fun t => VDatetime (t * 1000)) <$> parse_timestamp x
                   | Some (VDatetime t) => Some (VDatetime t)
                   | _ => None
                   end) (cells s)).

(** [col.dt.date] *)
Definition dt_date (s : Series) : Series :=
  mkSeries Date
    (map (fun c => match c with
                   | Some (VDatetime t) => Some (VDate (t / Frame.units_per_day Ns))
                   | _ => None
                   end) (cells s)).

(** Lines 365-377: the key column of a source is converted and always
    reduced to its date.  The handler of lines 376-377 is taken for a
    column of booleans; the one other way into it, a number outside
    [in_datetime_range], is left out, and a property of the numeric
    branch is stated for columns within the range. *)
Definition normalize_key (key : string) (df : DataFrame) : DataFrame * list LogMsg :=
  match Frame.get_column key df with
  | None => (df, [])
  | Some s =>
      if Frame.is_numeric (dtype s)
      then (Frame.with_column key (dt_date (to_datetime_ms s)) df, [])
      else match dtype s with
           | Boolean => (df, [("datetime_conversion_error", key)])
           | _ => (Frame.with_column key (dt_date (to_datetime_coerce s)) df, [])
           end
  end.

End Source.

End Reedit.

(* ===================================================================== *)
(** ** Sample data for the examples *)
(* ===================================================================== *)

Module Sample.

(** A dump directory with a sleep export only. *)
Definition csv_paths : list string :=
  ["Samsung Health/dump/com.samsung.health.sleep.20230101.csv"].

(** Two nights; [day_time] is in epoch milliseconds. *)
Definition sleep_table : DataFrame :=
  [("day_time", mkSeries Int64 [Some (VNum 1672561800000); Some (VNum 1672648200000)]);
   ("sleep_score", mkSeries Int64 [Some (VNum 81); Some (VNum 74)])].

(** A header and no data row. *)
Definition header_only : DataFrame :=
  [("day_time", mkSeries Int64 []); ("sleep_score", mkSeries Int64 [])].

Definition read_csv (file_path : string) : option DataFrame :=
  if String.eqb file_path "Samsung Health/dump/com.samsung.health.sleep.20230101.csv"
  then Some sleep_table else None.

Definition read_header_only (file_path : string) : option DataFrame :=
  if String.eqb file_path "Samsung Health/dump/com.samsung.health.sleep.20230101.csv"
  then Some header_only else None.

(** A reader of timestamps that knows two strings. *)
Definition parse_timestamp (x : string) : option Z :=
  if String.eqb x "2023-01-01 08:30:00" then Some 1672561800000000%Z
  else if String.eqb x "2023-01-02 08:30:00" then Some 1672648200000000%Z
  else None.

(** A join for two tables whose key columns are equal: the other
    columns of the right table follow those of the left one.  The
    examples need no other case; it is treated as a failure. *)
Definition outer_join (left right : DataFrame) (key : string) : option DataFrame :=
  match Frame.get_column key left, Frame.get_column key right with
  | Some a, Some b =>
      if bool_decide (a = b)
      then Some (left ++ List.filter (fun c => negb (String.eqb c.1 key)) right)%list
      else None
  | _, _ => None
  end.

(** Output steps that change nothing. *)

Definition output_pipeline (spec : OutputSpec) (key : option string) (df : DataFrame)
    : option DataFrame := Some df.

Definition no_output_options : OutputSpec := mkOutput None None [] None false.

Definition sleep_source : SourceSpec :=
  mkSource ".sleep" (Some 1%Z) true [] ∅ None None.

Definition exercise_source : SourceSpec :=
  mkSource ".exercise" (Some 2%Z) true [] ∅ None None.

(** [sleep] is there, the required [exercise] is not. *)
Definition sleep_then_exercise : CombinationConfig :=
  [("daily", mkCombo (Some "daily.csv") [sleep_source; exercise_source] no_output_options)].

(** The same sources listed with the later priority first. *)
Definition exercise_listed_first : CombinationConfig :=
  [("daily", mkCombo (Some "daily.csv") [exercise_source; sleep_source] no_output_options)].

(** The configuration of the specification's example:
    [rename_columns = {"day_time": "timestamp"}], the merge key left
    under its own name. *)
Definition keep_timestamp_source : SourceSpec :=
  mkSource ".sleep" (Some 1%Z) true [] {[ "day_time" := "timestamp" ]} None None.

(** The same with the copy itself renamed:
    [{"day_time": "timestamp", "timestamp": "ts"}]. *)
Definition chained_rename_source : SourceSpec :=
  mkSource ".sleep" (Some 1%Z) true []
    (<[ "timestamp" := "ts" ]> {[ "day_time" := "timestamp" ]}) None None.

(** A second export with the nights of [sleep_table], and a dump that
    holds both. *)
Definition stage_table : DataFrame :=
  [("day_time", mkSeries Int64 [Some (VNum 1672561800000); Some (VNum 1672648200000)]);
   ("stage", mkSeries Int64 [Some (VNum 3); Some (VNum 4)])].

Definition both_paths : list string :=
  ["Samsung Health/dump/com.samsung.health.sleep.20230101.csv";
   "Samsung Health/dump/com.samsung.health.sleep_stage.20230101.csv"].

Definition read_both (file_path : string) : option DataFrame :=
  if String.eqb file_path "Samsung Health/dump/com.samsung.health.sleep.20230101.csv"
  then Some sleep_table
  else if String.eqb file_path
            "Samsung Health/dump/com.samsung.health.sleep_stage.20230101.csv"
  then Some stage_table
  else None.

Definition sleep_and_stage : CombinationConfig :=
  [("nights",
    mkCombo (Some "nights.csv")
      [mkSource ".sleep_stage" (Some 2%Z) false ["stage"] ∅ None None;
       mkSource ".sleep" (Some 1%Z) true ["sleep_score"] ∅ None None]
      no_output_options)].

(** A source of a combination whose key is ["datetime"]: its own merge
    key keeps its name and [start_time] is renamed to [datetime]. *)
Definition renamed_to_datetime_source : SourceSpec :=
  mkSource ".exercise" (Some 2%Z) false ["start_time"]
    {[ "start_time" := "datetime" ]} None None.

Definition exercise_table : DataFrame :=
  [("day_time", mkSeries Int64 [Some (VNum 1672561800000)]);
   ("start_time", mkSeries Int64 [Some (VNum 1672561800000)])].

(** A key column of strings, the second of which is no timestamp. *)
Definition one_bad_timestamp : DataFrame :=
  [("day_time", mkSeries Utf8 [Some (VStr "2023-01-01 08:30:00"); Some (VStr "unknown")])].

End Sample.

(* ===================================================================== *)
(** ** The ignore list, the output steps and the summary *)
(* ===================================================================== *)

Module Text.

(** [s.isascii()] *)
Definition is_ascii (s : string) : bool :=
  forallb (fun c => (nat_of_ascii c <? 128)%nat) (list_ascii_of_string s).

(** [c.isspace()] for an ASCII character.  On a [str] the class also
    holds U+0085, U+00A0 and the other Unicode spaces, which an ASCII
    line does not contain. *)
Definition is_space (c : ascii) : bool :=
  let n := nat_of_ascii c in
  ((9 <=? n)%nat && (n <=? 13)%nat) || ((28 <=? n)%nat && (n <=? 32)%nat).

(** Removal of the longest prefix whose characters all satisfy [P]. *)
Fixpoint lstrip_while (P : ascii -> bool) (s : string) : string :=
  match s with
  | EmptyString => EmptyString
  | String c s' => if P c then lstrip_while P s' else s
  end.

(** [s.strip()] *)
Definition strip (s : string) : string :=
  lstrip_while is_space (Py.rstrip_while is_space s).

End Text.

(** The test of one line in [read_ignore_list]:
    [line and not line.startswith("#")]. *)
Definition is_ignore_entry (line : string) : bool :=
  negb (String.eqb line EmptyString) && negb (String.prefix "#" line).

(** [read_ignore_list] (samsung_health_extractor.py lines 61-89,
    reedit.py lines 16-43) over the lines of the file, [None] when the
    file does not exist; what it logs is left out. *)
Definition read_ignore_list (file : option (list string)) : gset string :=
  match file with
  | None => ∅
  | Some lines =>
      foldl (fun ignore_set line =>
               let line := Text.strip line in
               if is_ignore_entry line then ignore_set ∪ {[ line ]} else ignore_set)
            ∅ lines
  end.

(** The entries that the two loops of [get_cleaned_csv_names] write
    (lines 276, 281, 286 and 302, 307, 312), by their [message_type]. *)
Definition is_filter_entry (msg : LogMsg) : bool :=
  bool_decide (msg.1 ∈ ["filtered_ignored"; "filtered_empty"; "filtered_not_in_config"]).



(** Lines 714-726: the final columns that exist are selected, in the
    order asked for; when none exists the table is kept whole. *)
Definition select_final_columns (final_columns : list string) (combined_df : DataFrame)
    : option DataFrame :=
  match final_columns with
  | [] => Some combined_df
  | _ =>
      match List.filter (fun col => Frame.has_column col combined_df) final_columns with
      | [] => Some combined_df
      | available_final_columns => Frame.select available_final_columns combined_df
      end
  end.

(** Lines 757-764: [sexual_activity] becomes a marker, the literal 1
    where there is a value. *)
Definition flatten_sexual_activity (combined_df : DataFrame) : DataFrame :=
  match Frame.get_column "sexual_activity" combined_df with
  | Some s =>
      Frame.with_column "sexual_activity"
        (mkSeries Int32
           (map (fun c => match c with
                          | Some _ => Some (VNum 1)
                          | None => None
                          end) (cells s)))
        combined_df
  | None => combined_df
  end.

(** The summary of [extract_data] (lines 857-899):
    [category_total = len(subcategories) + len(files)], summed over the
    categories. *)
Definition category_total (data : Category) : nat :=
  length (subcategories data) + length (files data).

Definition total_files (categories : gmap string Category) : nat :=
  map_fold (fun _ data total => total + category_total data) 0 categories.

(** The invariant of the hierarchical catalog, over the names [kept]
    that the filters let through: a file is recorded under the category
    of its own name, a subcategory under the category of a kept name
    that has it, and no subcategory twice. *)
Definition catalog_sound (kept : string -> Prop) (categories : gmap string Category)
    : Prop :=
  forall category entry,
    categories !! category = Some entry ->
    (forall name, name ∈ files entry -> kept name /\ classify name = (category, DirectFile)) /\
    (forall subcategory,
       subcategory ∈ subcategories entry ->
       exists name, kept name /\ classify name = (category, Subcategory subcategory)) /\
    NoDup (subcategories entry).

(** Further sample data. *)
Module Cases.

Definition ignore_file : list string :=
  ["# exports to skip" ++ String Py.newline EmptyString;
   String Py.newline EmptyString;
   "  .sleep_stage  " ++ String Py.newline EmptyString;
   ".badge"].

Definition optional_exercise : SourceSpec :=
  mkSource ".exercise" (Some 2%Z) false [] ∅ None None.

Definition standardized_source : SourceSpec :=
  mkSource ".sleep" (Some 1%Z) true ["sleep_score"] ∅ (Some "day_time") (Some "date").


Definition sparse_table : DataFrame :=
  [("day_time", mkSeries Int64 [Some (VNum 1672561800000); None; Some (VNum 1672648200000)]);
   ("sleep_score", mkSeries Int64 [Some (VNum 81); None; None])].

Definition dump_paths : list string :=
  ["Samsung Health/dump/com.samsung.health.sleep.20230101.csv";
   "Samsung Health/dump/com.samsung.shealth.tracker.heart_rate.20230101.csv";
   "Samsung Health/dump/com.samsung.shealth.badge.20230101.csv"].

(** A dump with a sleep and an exercise export. *)
Definition sleep_and_exercise_paths : list string :=
  ["Samsung Health/dump/com.samsung.health.sleep.20230101.csv";
   "Samsung Health/dump/com.samsung.health.exercise.20230101.csv"].

Definition read_sleep_and_exercise (file_path : string) : option DataFrame :=
  if String.eqb file_path "Samsung Health/dump/com.samsung.health.sleep.20230101.csv"
  then Some Sample.sleep_table
  else if String.eqb file_path
            "Samsung Health/dump/com.samsung.health.exercise.20230101.csv"
  then Some Sample.exercise_table
  else None.

(** An optional source that standardises its key to "datetime" and asks
    for columns that the sleep export does not have. *)
Definition heart_rate_of_sleep : SourceSpec :=
  mkSource ".sleep" (Some 1%Z) false ["heart_rate"] ∅ (Some "start_time") (Some "datetime").

End Cases.

(* ===================================================================== *)
(** ** Properties of the string operations *)
(* ===================================================================== *)

Section PyFacts.

Lemma drop_empty n : Py.drop n EmptyString = EmptyString.
Proof. destruct n; reflexivity. Qed.

(** Passing over [skip] characters is dropping them. *)
Lemma replace_from_skip old new s :
  forall skip, Py.replace_from old new skip s = Py.replace old new (Py.drop skip s).
Proof.
  unfold Py.replace.
  induction s as [|c s IH]; intros skip.
  - rewrite drop_empty. reflexivity.
  - destruct skip as [|k]; [reflexivity|].
    cbn [Py.replace_from Py.drop]. apply IH.
Qed.

Lemma prefix_of_empty old : old <> EmptyString -> String.prefix old EmptyString = false.
Proof. destruct old; [congruence | reflexivity]. Qed.

(** [replace] in terms of [find]: the text before the first
    occurrence is kept, the occurrence is replaced, and what follows
    it is processed in the same way. *)
Lemma replace_unfold old new s :
  old <> EmptyString ->
  Py.replace old new s =
  match Py.find old s with
  | Some i => Py.take i s ++ new ++ Py.replace old new (Py.drop (i + String.length old) s)
  | None => s
  end.
Proof.
  intros Hold.
  induction s as [|c s IH].
  - cbn [Py.find]. rewrite prefix_of_empty by assumption. reflexivity.
  - cbn [Py.find]. unfold Py.replace at 1. cbn [Py.replace_from].
    destruct (String.prefix old (String c s)) eqn:Hp.
    + rewrite replace_from_skip.
      destruct old as [|a old']; [congruence|].
      cbn [String.length Py.take Nat.add Py.drop Nat.sub].
      rewrite Nat.sub_0_r. reflexivity.
    + fold (Py.replace old new s). rewrite IH.
      destruct (Py.find old s) as [i|]; reflexivity.
Qed.

Lemma split_not_nil sep s : Py.split sep s <> [].
Proof.
  destruct s as [|c s]; cbn; [discriminate|].
  destruct (Ascii.eqb c sep); [discriminate|].
  destruct (Py.split sep s); discriminate.
Qed.

Lemma split_without_separator sep s :
  Py.count_char sep s = 0 -> Py.split sep s = [s].
Proof.
  induction s as [|c s IH]; cbn; [reflexivity|].
  destruct (Ascii.eqb c sep); [discriminate|].
  intros H. rewrite IH by exact H. reflexivity.
Qed.

(** A string with a separator splits at the first one. *)
Lemma split_at_first_separator sep s :
  Py.count_char sep s <> 0 ->
  exists a t,
    s = a ++ String sep t /\ Py.count_char sep a = 0 /\
    S (Py.count_char sep t) = Py.count_char sep s /\
    Py.split sep s = a :: Py.split sep t.
Proof.
  induction s as [|c s IH]; cbn; [congruence|].
  destruct (Ascii.eqb c sep) eqn:Hc.
  - intros _. apply Ascii.eqb_eq in Hc. subst c.
    exists EmptyString, s. repeat split.
  - intros H. destruct (IH H) as (a & t & Hs & Ha & Ht & Hsplit).
    exists (String c a), t. cbn. rewrite Hc, Hsplit, Ha.
    repeat split; [rewrite Hs at 1; reflexivity | exact Ht].
Qed.

Lemma join_split sep s : Py.join (String sep EmptyString) (Py.split sep s) = s.
Proof.
  unfold Py.join.
  induction s as [|c s IH]; [reflexivity|].
  cbn [Py.split].
  destruct (Ascii.eqb c sep) eqn:Hc.
  - apply Ascii.eqb_eq in Hc. subst c.
    pose proof (split_not_nil sep s) as Hne.
    destruct (Py.split sep s) as [|p ps]; [congruence|].
    cbn [String.concat] in *. rewrite <- IH at 1. reflexivity.
  - pose proof (split_not_nil sep s) as Hne.
    destruct (Py.split sep s) as [|p ps]; [congruence|].
    destruct ps as [|q ps].
    + cbn in *. congruence.
    + cbn [String.concat] in *. rewrite <- IH. reflexivity.
Qed.

End PyFacts.

(* ===================================================================== *)
(** ** NameNormalizer *)
(* ===================================================================== *)

(** C6, as stated, fails: the cleaned name of
    "com.samsung.health.sleep.20230101.csv" is not "sleep".  Everything
    up to and including "health" is cut, so the dot that follows it
    stays at the head of the result. *)
Lemma clean_sleep_is_not_bare_sleep :
  clean_csv_name "com.samsung.health.sleep.20230101.csv" <> "sleep".
Proof. vm_compute. discriminate. Qed.

(** C6, amended: the two names of the specification are cleaned to
    ".sleep" and ".exercise", each with the leading dot left by the cut
    after "health". *)
Theorem clean_csv_name_examples :
  clean_csv_name "com.samsung.health.sleep.20230101.csv" = ".sleep" /\
  clean_csv_name "com.samsung.health.exercise20230101123045.csv" = ".exercise".
Proof. split; vm_compute; reflexivity. Qed.

(** C7, as stated, fails: on "sleep.csv.csv" the first step of the
    cleaning yields "sleep", whereas removing the first occurrence of
    ".csv" only would leave "sleep.csv". *)
Lemma replace_removes_later_occurrences :
  Py.replace ".csv" "" "sleep.csv.csv" = "sleep" /\
  Py.replace ".csv" "" "sleep.csv.csv" <> remove_first_occurrence ".csv" "sleep.csv.csv".
Proof. split; vm_compute; [reflexivity | discriminate]. Qed.

(** C7, amended: the first step of [clean_csv_name],
    [name.replace(".csv", "")], removes every occurrence of ".csv" met
    in one scan from the left: the text before the first occurrence is
    kept, the occurrence is dropped, and the rest of the name is treated
    in the same way; a name without ".csv" is unchanged. *)
Theorem replace_csv_removes_every_occurrence (name : string) :
  Py.replace ".csv" "" name =
  match Py.find ".csv" name with
  | Some i => Py.take i name ++ Py.replace ".csv" "" (Py.drop (i + 4) name)
  | None => name
  end.
Proof.
  rewrite (replace_unfold ".csv" "" name) at 1 by discriminate.
  destruct (Py.find ".csv" name); reflexivity.
Qed.

(* ===================================================================== *)
(** ** SourceCatalog: classification *)
(* ===================================================================== *)

Lemma classify_no_dot name :
  Py.count_char "." name = 0 -> classify name = (name, DirectFile).
Proof.
  intros H. unfold classify. rewrite split_without_separator by exact H. reflexivity.
Qed.

Lemma classify_one_dot name :
  Py.count_char "." name = 1 ->
  exists first second,
    name = first ++ "." ++ second /\ Py.count_char "." first = 0 /\
    classify name = (first, DirectFile).
Proof.
  intros H.
  destruct (split_at_first_separator "."%char name) as (a & t & Hs & Ha & Ht & Hsplit);
    [lia|].
  exists a, t. repeat split; [exact Hs | exact Ha |].
  unfold classify. rewrite Hsplit, split_without_separator by lia. reflexivity.
Qed.

Lemma classify_two_dots name :
  2 <= Py.count_char "." name ->
  exists first second remaining,
    name = first ++ "." ++ second ++ "." ++ remaining /\
    Py.count_char "." first = 0 /\ Py.count_char "." second = 0 /\
    classify name = (first ++ "." ++ second, Subcategory remaining).
Proof.
  intros H.
  destruct (split_at_first_separator "."%char name) as (a & t & Hs & Ha & Ht & Hsplit);
    [lia|].
  destruct (split_at_first_separator "."%char t) as (b & r & Hs' & Hb & Hr & Hsplit');
    [lia|].
  exists a, b, r. repeat split; [subst t; exact Hs | exact Ha | exact Hb |].
  unfold classify. rewrite Hsplit, Hsplit'.
  pose proof (split_not_nil "."%char r) as Hne.
  pose proof (join_split "."%char r) as Hjoin.
  destruct (Py.split "."%char r) as [|p ps]; [congruence|].
  cbn [take drop]. rewrite Hjoin. reflexivity.
Qed.

(** What [add_to_categories] records for a name. *)
Lemma add_to_categories_records (categories : gmap string Category) name :
  exists entry,
    add_to_categories categories name !! (classify name).1 = Some entry /\
    match (classify name).2 with
    | DirectFile =>
        name ∈ files entry /\
        subcategories entry =
          subcategories (default (mkCategory [] []) (categories !! (classify name).1))
    | Subcategory subcategory =>
        subcategory ∈ subcategories entry /\
        files entry = files (default (mkCategory [] []) (categories !! (classify name).1))
    end.
Proof.
  unfold add_to_categories.
  destruct (classify name) as [category [|subcategory]]; cbn [fst snd].
  - eexists. rewrite lookup_insert_eq. split; [reflexivity|].
    cbn. split; [set_solver | reflexivity].
  - case_bool_decide as Hin.
    + eexists. rewrite lookup_insert_eq. split; [reflexivity|]. split; [exact Hin | reflexivity].
    + eexists. rewrite lookup_insert_eq. split; [reflexivity|].
      cbn. split; [set_solver | reflexivity].
Qed.

(** C8, as stated, fails on a name with exactly one dot: ".sleep" is
    filed under the category "" (the segment before the dot), not under
    the whole name. *)
Lemma one_dot_category_is_first_segment :
  Py.count_char "." ".sleep" = 1 /\ (classify ".sleep").1 <> ".sleep".
Proof. split; vm_compute; [reflexivity | discriminate]. Qed.

(** C8, amended: a cleaned name without a dot is its own category; a
    name with exactly one dot is filed under the segment before the dot;
    in both cases the whole name is recorded as a direct file and no
    subcategory is recorded.  A name with two or more dots is filed
    under its first two segments joined by a dot, and what follows the
    second dot is recorded as a subcategory of that category. *)
Theorem classify_by_dot_count (cleaned_name : string) :
  match Py.count_char "." cleaned_name with
  | 0 => classify cleaned_name = (cleaned_name, DirectFile)
  | 1 =>
      exists first second,
        cleaned_name = first ++ "." ++ second /\ Py.count_char "." first = 0 /\
        classify cleaned_name = (first, DirectFile)
  | _ =>
      exists first second remaining,
        cleaned_name = first ++ "." ++ second ++ "." ++ remaining /\
        Py.count_char "." first = 0 /\ Py.count_char "." second = 0 /\
        classify cleaned_name = (first ++ "." ++ second, Subcategory remaining)
  end /\
  forall categories : gmap string Category,
    exists entry,
      add_to_categories categories cleaned_name !! (classify cleaned_name).1 = Some entry /\
      match (classify cleaned_name).2 with
      | DirectFile =>
          cleaned_name ∈ files entry /\
          subcategories entry =
            subcategories
              (default (mkCategory [] []) (categories !! (classify cleaned_name).1))
      | Subcategory subcategory =>
          subcategory ∈ subcategories entry /\
          files entry =
            files (default (mkCategory [] []) (categories !! (classify cleaned_name).1))
      end.
Proof.
  split.
  - destruct (Py.count_char "." cleaned_name) as [|[|n]] eqn:Hn.
    + apply classify_no_dot, Hn.
    + apply classify_one_dot, Hn.
    + apply classify_two_dots. lia.
  - intros categories. apply add_to_categories_records.
Qed.

(* ===================================================================== *)
(** ** SourceCatalog: the configuration filter *)
(* ===================================================================== *)

Section CatalogFacts.

Variable reason reason' : string -> option string.

Lemma flat_loop_ext csv_paths :
  (forall file_path, reason file_path = reason' file_path) ->
  flat_loop reason csv_paths = flat_loop reason' csv_paths.
Proof.
  intros Hext. induction csv_paths as [|file_path rest IH]; [reflexivity|].
  cbn [flat_loop]. rewrite IH, Hext. reflexivity.
Qed.

Lemma hierarchical_loop_ext csv_paths :
  (forall file_path, reason file_path = reason' file_path) ->
  forall categories,
    hierarchical_loop reason categories csv_paths =
    hierarchical_loop reason' categories csv_paths.
Proof.
  intros Hext. induction csv_paths as [|file_path rest IH]; intros categories;
    [reflexivity|].
  cbn [hierarchical_loop]. rewrite Hext.
  destruct (reason' file_path); rewrite IH; reflexivity.
Qed.

Lemma build_catalog_ext hierarchical csv_paths :
  (forall file_path, reason file_path = reason' file_path) ->
  build_catalog reason hierarchical csv_paths =
  build_catalog reason' hierarchical csv_paths.
Proof.
  intros Hext. unfold build_catalog.
  rewrite (flat_loop_ext csv_paths Hext), (hierarchical_loop_ext csv_paths Hext).
  reflexivity.
Qed.

(** Every message of the loops carries a reason some file was given. *)
Lemma flat_loop_messages csv_paths message_type name :
  (message_type, name) ∈ (flat_loop reason csv_paths).2 ->
  exists file_path, file_path ∈ csv_paths /\ reason file_path = Some message_type.
Proof.
  induction csv_paths as [|file_path rest IH]; cbn [flat_loop].
  - cbn. intros H. inversion H.
  - destruct (flat_loop reason rest) as [names msgs] eqn:Hloop.
    destruct (reason file_path) as [t|] eqn:Hr; cbn [snd] in *.
    + intros [Heq | Hin]%elem_of_cons.
      * exists file_path. split; [left | congruence].
      * destruct (IH Hin) as (q & Hq & Hrq). exists q. split; [right; exact Hq | exact Hrq].
    + intros Hin. destruct (IH Hin) as (q & Hq & Hrq).
      exists q. split; [right; exact Hq | exact Hrq].
Qed.

Lemma hierarchical_loop_messages csv_paths message_type name :
  forall categories,
    (message_type, name) ∈ (hierarchical_loop reason categories csv_paths).2 ->
    exists file_path, file_path ∈ csv_paths /\ reason file_path = Some message_type.
Proof.
  induction csv_paths as [|file_path rest IH]; intros categories; cbn [hierarchical_loop].
  - cbn. intros H. inversion H.
  - destruct (reason file_path) as [t|] eqn:Hr.
    + destruct (hierarchical_loop reason categories rest) as [result msgs] eqn:Hloop.
      cbn [snd]. intros [Heq | Hin]%elem_of_cons.
      * exists file_path. split; [left | congruence].
      * specialize (IH categories). rewrite Hloop in IH.
        destruct (IH Hin) as (q & Hq & Hrq). exists q. split; [right; exact Hq | exact Hrq].
    + intros Hin. destruct (IH _ Hin) as (q & Hq & Hrq).
      exists q. split; [right; exact Hq | exact Hrq].
Qed.

(** A file that is given no reason is in the flat list. *)
Lemma flat_loop_keeps csv_paths file_path :
  file_path ∈ csv_paths -> reason file_path = None ->
  clean_csv_name (path_name file_path) ∈ (flat_loop reason csv_paths).1.
Proof.
  induction csv_paths as [|q rest IH]; [intros H; inversion H|].
  intros Hin Hr. cbn [flat_loop].
  destruct (flat_loop reason rest) as [names msgs] eqn:Hloop. cbn [fst] in IH.
  apply elem_of_cons in Hin as [-> | Hin].
  - rewrite Hr. left.
  - destruct (reason q); cbn [fst]; [|right]; apply IH; assumption.
Qed.

(** When every file is given a reason, nothing is catalogued. *)
Lemma flat_loop_all_filtered csv_paths :
  (forall file_path, reason file_path <> None) ->
  (flat_loop reason csv_paths).1 = [].
Proof.
  intros Hall. induction csv_paths as [|q rest IH]; [reflexivity|].
  cbn [flat_loop]. destruct (flat_loop reason rest) as [names msgs].
  destruct (reason q) eqn:Hr; [exact IH | destruct (Hall q Hr)].
Qed.

Lemma hierarchical_loop_all_filtered csv_paths categories :
  (forall file_path, reason file_path <> None) ->
  (hierarchical_loop reason categories csv_paths).1 = categories.
Proof.
  intros Hall. induction csv_paths as [|q rest IH]; [reflexivity|].
  cbn [hierarchical_loop].
  destruct (reason q) eqn:Hr; [|destruct (Hall q Hr)].
  destruct (hierarchical_loop reason categories rest). exact IH.
Qed.

End CatalogFacts.

Lemma build_catalog_messages reason hierarchical csv_paths message_type name :
  (message_type, name) ∈ (build_catalog reason hierarchical csv_paths).2 ->
  exists file_path, file_path ∈ csv_paths /\ reason file_path = Some message_type.
Proof.
  unfold build_catalog. destruct hierarchical.
  - pose proof (hierarchical_loop_messages reason csv_paths message_type name ∅) as H.
    destruct (hierarchical_loop reason ∅ csv_paths). exact H.
  - pose proof (flat_loop_messages reason csv_paths message_type name) as H.
    destruct (flat_loop reason csv_paths). exact H.
Qed.

(** In samsung_health_extractor.py an empty enabled set switches the
    configuration filter off: the catalog is the one built with
    [filter_config=False], and no file is reported as
    filtered-not-in-config. *)
Lemma empty_enabled_set_filters_nothing read_csv csv_paths filter_ignored ignore_list
    hierarchical filter_empty :
  (get_cleaned_csv_names read_csv csv_paths filter_ignored ignore_list hierarchical
     filter_empty true ∅).1 =
  (get_cleaned_csv_names read_csv csv_paths filter_ignored ignore_list hierarchical
     filter_empty false ∅).1 /\
  forall name,
    ("filtered_not_in_config", name) ∉
    (get_cleaned_csv_names read_csv csv_paths filter_ignored ignore_list hierarchical
       filter_empty true ∅).2.
Proof.
  unfold get_cleaned_csv_names. split.
  - rewrite (build_catalog_ext _
               (filter_reason read_csv filter_ignored filter_empty false
                  (if filter_ignored then ignore_list else ∅) ∅)).
    + destruct (build_catalog _ hierarchical csv_paths). reflexivity.
    + intros file_path. unfold filter_reason.
      rewrite (bool_decide_eq_true_2 ((∅ : gset string) = ∅)) by reflexivity.
      reflexivity.
  - intros name Hin.
    destruct (build_catalog _ hierarchical csv_paths) as [catalog msgs] eqn:Hb.
    cbn [snd] in Hin. apply elem_of_app in Hin as [Hin | Hin].
    + unfold enabled_message in Hin.
      rewrite (bool_decide_eq_true_2 ((∅ : gset string) = ∅)) in Hin by reflexivity.
      apply list_elem_of_singleton in Hin. discriminate.
    + pose proof (build_catalog_messages
                    (filter_reason read_csv filter_ignored filter_empty true
                       (if filter_ignored then ignore_list else ∅) ∅)
                    hierarchical csv_paths "filtered_not_in_config" name) as Hmsg.
      rewrite Hb in Hmsg. destruct (Hmsg Hin) as (file_path & _ & Hr).
      unfold filter_reason in Hr.
      rewrite (bool_decide_eq_true_2 ((∅ : gset string) = ∅)) in Hr by reflexivity.
      destruct (filter_ignored && _) in Hr; [discriminate|].
      destruct (filter_empty && _) in Hr; [discriminate|].
      cbn in Hr. discriminate.
Qed.

(** C4: in reedit.py the test of the enabled set is missing.  With
    configuration filtering on and an empty enabled set, the script
    announces that all files will be processed and then catalogues none:
    every file that passes the ignore and empty filters is dropped as
    not in the configuration. *)
Theorem reedit_empty_enabled_set_filters_everything (csv_has_data : string -> bool)
    (samsung_csv_paths : list string) (filter_ignored : bool) (ignore_list : gset string)
    (hierarchical filter_empty : bool) :
  (Reedit.get_cleaned_csv_names csv_has_data samsung_csv_paths filter_ignored
     ignore_list hierarchical filter_empty true ∅).1 =
  (if hierarchical then Hierarchy ∅ else FlatList []) /\
  ("info", "No enabled CSV files found in configuration. All files will be processed.") ∈
  (Reedit.get_cleaned_csv_names csv_has_data samsung_csv_paths filter_ignored
     ignore_list hierarchical filter_empty true ∅).2 /\
  Reedit.get_cleaned_csv_names (fun _ => true) Sample.csv_paths true ∅ true true true ∅ =
  (Hierarchy ∅,
   [("info", "No enabled CSV files found in configuration. All files will be processed.");
    ("filtered_not_in_config", ".sleep")]).
Proof.
  assert (Hall : forall file_path,
             Reedit.filter_reason csv_has_data filter_ignored filter_empty true
               (if filter_ignored then ignore_list else ∅) ∅ file_path <> None).
  { intros file_path. unfold Reedit.filter_reason.
    destruct (_ && bool_decide (_ ∈ (if filter_ignored then _ else _))); [discriminate|].
    destruct (filter_empty && _); [discriminate|].
    rewrite bool_decide_eq_false_2 by set_solver. discriminate. }
  split; [|split].
  - unfold Reedit.get_cleaned_csv_names, build_catalog.
    destruct hierarchical.
    + pose proof (hierarchical_loop_all_filtered _ samsung_csv_paths ∅ Hall) as H.
      destruct (hierarchical_loop _ ∅ samsung_csv_paths) as [categories msgs].
      cbn [fst] in *. subst categories. unfold sort_categories. rewrite fmap_empty.
      reflexivity.
    + pose proof (flat_loop_all_filtered _ samsung_csv_paths Hall) as H.
      destruct (flat_loop _ samsung_csv_paths) as [names msgs].
      cbn [fst] in *. subst names. reflexivity.
  - unfold Reedit.get_cleaned_csv_names.
    destruct (build_catalog _ hierarchical samsung_csv_paths) as [catalog msgs].
    cbn [snd]. apply elem_of_app. left. unfold enabled_message.
    rewrite (bool_decide_eq_true_2 ((∅ : gset string) = ∅)) by reflexivity. left.
  - vm_compute. reflexivity.
Qed.

(* ===================================================================== *)
(** ** CombinationEngine: the order of the sources *)
(* ===================================================================== *)

Section Sorting.

Lemma insert_by_priority_perm x l : Permutation (x :: l) (insert_by_priority x l).
Proof.
  induction l as [|y l IH]; cbn [insert_by_priority]; [reflexivity|].
  destruct (sort_key x <=? sort_key y)%Z; [reflexivity|].
  rewrite perm_swap. apply perm_skip, IH.
Qed.

Lemma sort_by_priority_perm l : Permutation l (sort_by_priority l).
Proof.
  induction l as [|x l IH]; cbn [sort_by_priority]; [reflexivity|].
  rewrite <- insert_by_priority_perm. apply perm_skip, IH.
Qed.

Lemma insert_by_priority_sorted x l :
  StronglySorted (fun a b => (sort_key a <= sort_key b)%Z) l ->
  StronglySorted (fun a b => (sort_key a <= sort_key b)%Z) (insert_by_priority x l).
Proof.
  induction 1 as [|y l Hsorted IH Hy]; cbn [insert_by_priority].
  - repeat constructor.
  - destruct (sort_key x <=? sort_key y)%Z eqn:Hle.
    + apply Z.leb_le in Hle. constructor; [constructor; assumption|].
      constructor; [exact Hle|].
      eapply Forall_impl; [exact Hy|]. cbn. intros z Hz. lia.
    + apply Z.leb_gt in Hle. constructor; [exact IH|].
      rewrite <- insert_by_priority_perm. constructor; [lia | exact Hy].
Qed.

Lemma sort_by_priority_sorted l :
  StronglySorted (fun a b => (sort_key a <= sort_key b)%Z) (sort_by_priority l).
Proof.
  induction l as [|x l IH]; cbn [sort_by_priority]; [constructor|].
  apply insert_by_priority_sorted, IH.
Qed.

(** Stability: the sources of one priority keep their order. *)
Lemma insert_by_priority_stable k x l :
  List.filter (fun s => (sort_key s =? k)%Z) (insert_by_priority x l) =
  List.filter (fun s => (sort_key s =? k)%Z) (x :: l).
Proof.
  induction l as [|y l IH]; cbn [insert_by_priority]; [reflexivity|].
  destruct (sort_key x <=? sort_key y)%Z eqn:Hle; [reflexivity|].
  apply Z.leb_gt in Hle.
  cbn [List.filter] in *. rewrite IH.
  destruct (sort_key x =? k)%Z eqn:Hx, (sort_key y =? k)%Z eqn:Hy; try reflexivity.
  apply Z.eqb_eq in Hx, Hy. lia.
Qed.

Lemma sort_by_priority_stable k l :
  List.filter (fun s => (sort_key s =? k)%Z) (sort_by_priority l) =
  List.filter (fun s => (sort_key s =? k)%Z) l.
Proof.
  induction l as [|x l IH]; cbn [sort_by_priority]; [reflexivity|].
  rewrite insert_by_priority_stable. cbn [List.filter]. rewrite IH. reflexivity.
Qed.

(** A list already in priority order is left as it is. *)
Lemma sort_by_priority_sorted_id l :
  StronglySorted (fun a b => (sort_key a <= sort_key b)%Z) l ->
  sort_by_priority l = l.
Proof.
  induction 1 as [|x l Hsorted IH Hx]; cbn [sort_by_priority]; [reflexivity|].
  rewrite IH. destruct l as [|y l]; [reflexivity|].
  cbn [insert_by_priority]. apply Forall_cons in Hx as [Hxy _].
  apply Z.leb_le in Hxy. rewrite Hxy. reflexivity.
Qed.

End Sorting.

Section EngineFacts.

Variable read_csv : string -> option DataFrame.
Variable parse_timestamp : string -> option Z.
Variable outer_join : DataFrame -> DataFrame -> string -> option DataFrame.
Variable output_pipeline : OutputSpec -> option string -> DataFrame -> option DataFrame.

Lemma process_combination_config csv_paths combo_name combo_config :
  (process_combination read_csv parse_timestamp outer_join output_pipeline
     csv_paths combo_name combo_config).1.1 =
  mkCombo (output_file combo_config) (sort_by_priority (sources combo_config))
    (output_structure combo_config).
Proof.
  unfold process_combination.
  destruct combo_config as [file srcs out]. cbn [sources output_file output_structure].
  destruct srcs as [|s srcs]; [reflexivity|].
  destruct (output_step _ _ _ _). reflexivity.
Qed.

Lemma run_config combination_config csv_paths :
  config (process_data_combinations read_csv parse_timestamp outer_join output_pipeline
            combination_config csv_paths) =
  map (fun entry =>
         (entry.1, mkCombo (output_file entry.2) (sort_by_priority (sources entry.2))
                     (output_structure entry.2)))
      combination_config.
Proof.
  induction combination_config as [|[combo_name combo_config] rest IH]; [reflexivity|].
  cbn [process_data_combinations map fst snd].
  pose proof (process_combination_config csv_paths combo_name combo_config) as Hc.
  destruct (process_combination _ _ _ _ csv_paths combo_name combo_config) as [[c w] l].
  cbn [fst config] in *. rewrite IH, Hc. reflexivity.
Qed.

End EngineFacts.

(** C9, as stated, fails: a combination whose sources are listed with
    the later priority first is handed back with the two sources
    exchanged. *)
Lemma run_reorders_sources :
  map (fun entry => sources entry.2)
    (config (process_data_combinations Sample.read_csv Sample.parse_timestamp
               Sample.outer_join Sample.output_pipeline
               Sample.exercise_listed_first Sample.csv_paths))
  <> map (fun entry => sources entry.2) Sample.exercise_listed_first.
Proof.
  intros H. apply (f_equal (map (map csv_name))) in H. vm_compute in H. discriminate.
Qed.

(** C9, amended: processing the data combinations sorts the [sources]
    list of every combination in place.  After a run each combination
    holds the stable sort of its sources by priority (999 for a source
    without one): the same sources, in non-decreasing priority, those of
    equal priority in their original order; nothing else of the
    configuration changes. *)
Theorem run_sorts_sources_in_place
    (read_csv : string -> option DataFrame) (parse_timestamp : string -> option Z)
    (outer_join : DataFrame -> DataFrame -> string -> option DataFrame)
    (output_pipeline : OutputSpec -> option string -> DataFrame -> option DataFrame)
    (combination_config : CombinationConfig) (csv_paths : list string) :
  config (process_data_combinations read_csv parse_timestamp outer_join output_pipeline
            combination_config csv_paths) =
  map (fun entry =>
         (entry.1, mkCombo (output_file entry.2) (sort_by_priority (sources entry.2))
                     (output_structure entry.2)))
      combination_config /\
  forall srcs : list SourceSpec,
    Permutation srcs (sort_by_priority srcs) /\
    StronglySorted (fun a b => (sort_key a <= sort_key b)%Z) (sort_by_priority srcs) /\
    forall k, List.filter (fun s => (sort_key s =? k)%Z) (sort_by_priority srcs) =
              List.filter (fun s => (sort_key s =? k)%Z) srcs.
Proof.
  split; [apply run_config|].
  intros srcs. split; [apply sort_by_priority_perm|].
  split; [apply sort_by_priority_sorted|].
  intros k. apply sort_by_priority_stable.
Qed.

(* ===================================================================== *)
(** ** CombinationEngine: a required source that cannot be used *)
(* ===================================================================== *)

Section LoopFacts.

Variable read_csv : string -> option DataFrame.
Variable parse_timestamp : string -> option Z.
Variable outer_join : DataFrame -> DataFrame -> string -> option DataFrame.
Variable output_pipeline : OutputSpec -> option string -> DataFrame -> option DataFrame.

Lemma add_log_nil st : add_log st [] = st.
Proof. destruct st. unfold add_log. cbn. rewrite app_nil_r. reflexivity. Qed.

Lemma add_log_add_log st l1 l2 : add_log (add_log st l1) l2 = add_log st (l1 ++ l2).
Proof. unfold add_log. cbn. rewrite app_assoc. reflexivity. Qed.

(** A required source without a file, or whose file cannot be read,
    ends the loop and changes nothing but the log. *)
Lemma process_source_unavailable csv_paths st source :
  required source = true ->
  match find_csv_file csv_paths (csv_name source) with
  | Some file_path => read_csv file_path = None
  | None => True
  end ->
  exists msgs,
    process_source read_csv parse_timestamp outer_join csv_paths st source =
    (Break, add_log st msgs).
Proof.
  intros Hreq Hun. unfold process_source.
  destruct (find_csv_file csv_paths (csv_name source)) as [file_path|].
  - rewrite Hun. unfold source_failed. rewrite Hreq, add_log_add_log. eauto.
  - rewrite Hreq. eauto.
Qed.

(** The sources after it are not visited. *)
Lemma process_sources_stops_at csv_paths source rest :
  required source = true ->
  match find_csv_file csv_paths (csv_name source) with
  | Some file_path => read_csv file_path = None
  | None => True
  end ->
  forall pre st,
  exists msgs,
    process_sources read_csv parse_timestamp outer_join csv_paths st
      (pre ++ source :: rest) =
    add_log (process_sources read_csv parse_timestamp outer_join csv_paths st pre) msgs.
Proof.
  intros Hreq Hun. induction pre as [|x pre IH]; intros st.
  - destruct (process_source_unavailable csv_paths st source Hreq Hun) as [msgs Hs].
    exists msgs. cbn [app process_sources]. rewrite Hs. reflexivity.
  - cbn [app process_sources].
    destruct (process_source _ _ _ csv_paths st x) as [[|] st'].
    + apply IH.
    + exists []. rewrite add_log_nil. reflexivity.
Qed.

(** The files written depend on the merged table and the key only. *)
Lemma output_step_add_log combo_name combo_config st msgs :
  (output_step output_pipeline combo_name combo_config (add_log st msgs)).1 =
  (output_step output_pipeline combo_name combo_config st).1.
Proof. reflexivity. Qed.

Lemma process_combination_written csv_paths combo_name combo_config :
  (process_combination read_csv parse_timestamp outer_join output_pipeline
     csv_paths combo_name combo_config).1.2 =
  match sources combo_config with
  | [] => []
  | _ => (output_step output_pipeline combo_name combo_config
            (merge_sources read_csv parse_timestamp outer_join csv_paths combo_config)).1
  end.
Proof.
  unfold process_combination.
  destruct (sources combo_config); [reflexivity|].
  destruct (output_step _ _ _ _). reflexivity.
Qed.

Lemma process_combination_log csv_paths combo_name combo_config :
  forall msg,
    msg ∈ (output_step output_pipeline combo_name combo_config
             (merge_sources read_csv parse_timestamp outer_join csv_paths combo_config)).2 ->
    sources combo_config <> [] ->
    msg ∈ (process_combination read_csv parse_timestamp outer_join output_pipeline
             csv_paths combo_name combo_config).2.
Proof.
  intros msg Hin Hne. unfold process_combination.
  destruct (sources combo_config) as [|s srcs] eqn:Hs; [congruence|].
  destruct (output_step _ _ _ _) as [w l]. cbn [snd] in *.
  right. apply elem_of_app. right. exact Hin.
Qed.

Lemma run_written combo_name combo_config others csv_paths :
  written (process_data_combinations read_csv parse_timestamp outer_join output_pipeline
             ((combo_name, combo_config) :: others) csv_paths) =
  ((process_combination read_csv parse_timestamp outer_join output_pipeline
      csv_paths combo_name combo_config).1.2 ++
   written (process_data_combinations read_csv parse_timestamp outer_join output_pipeline
              others csv_paths))%list.
Proof.
  cbn [process_data_combinations].
  destruct (process_combination _ _ _ _ csv_paths combo_name combo_config) as [[c w] l].
  reflexivity.
Qed.

Lemma merge_sources_without_sources csv_paths combo_config :
  sources combo_config = [] ->
  st_combined_df (merge_sources read_csv parse_timestamp outer_join csv_paths combo_config)
  = None.
Proof. intros H. unfold merge_sources. rewrite H. reflexivity. Qed.

End LoopFacts.

(** A run over two exports of the same nights: the sources are taken in
    priority order and joined on the date. *)
Lemma two_sources_are_joined :
  written (process_data_combinations Sample.read_both Sample.parse_timestamp
             Sample.outer_join Sample.output_pipeline
             Sample.sleep_and_stage Sample.both_paths) =
  [("nights.csv",
    [("sleep_score", mkSeries Int64 [Some (VNum 81); Some (VNum 74)]);
     ("day_time", mkSeries Date [Some (VDate 19358); Some (VDate 19359)]);
     ("stage", mkSeries Int64 [Some (VNum 3); Some (VNum 4)])])].
Proof. vm_compute. reflexivity. Qed.

(** C1, as stated, fails: with the sleep export present and the
    required exercise export missing, the combination is not discarded;
    the table loaded from sleep is written to the output file. *)
Lemma required_source_missing_output_written :
  find_csv_file Sample.csv_paths (csv_name Sample.exercise_source) = None /\
  required Sample.exercise_source = true /\
  written (process_data_combinations Sample.read_csv Sample.parse_timestamp
             Sample.outer_join Sample.output_pipeline
             Sample.sleep_then_exercise Sample.csv_paths) =
  [("daily.csv",
    [("day_time", mkSeries Date [Some (VDate 19358); Some (VDate 19359)])])].
Proof. repeat split; vm_compute; reflexivity. Qed.

(** C1, amended: when a required source of a combination has no file or
    its file cannot be read, the loop over the sources ends there: the
    sources after it are not processed, and the merged table and merge
    key are those left by the sources before it.  That table is kept:
    the output file is written from it when it exists and has a row (and
    the output steps do not fail), and is not written otherwise.  The
    run then goes on with the next combination. *)
Theorem required_source_failure_keeps_merged_table
    (read_csv : string -> option DataFrame) (parse_timestamp : string -> option Z)
    (outer_join : DataFrame -> DataFrame -> string -> option DataFrame)
    (output_pipeline : OutputSpec -> option string -> DataFrame -> option DataFrame)
    (csv_paths : list string) (combo_name : string) (combo_config : ComboConfig)
    (pre rest : list SourceSpec) (source : SourceSpec) (others : CombinationConfig) :
  sort_by_priority (sources combo_config) = (pre ++ source :: rest)%list ->
  required source = true ->
  match find_csv_file csv_paths (csv_name source) with
  | Some file_path => read_csv file_path = None
  | None => True
  end ->
  let kept :=
    process_sources read_csv parse_timestamp outer_join csv_paths
      (mkState None None []) pre in
  let files_written :=
    match st_combined_df kept with
    | Some table =>
        if Frame.is_empty table then []
        else match output_pipeline (output_structure combo_config) (st_merge_key kept)
                     table with
             | Some out => [(default "unknown.csv" (output_file combo_config), out)]
             | None => []
             end
    | None => []
    end in
  (exists msgs,
     merge_sources read_csv parse_timestamp outer_join csv_paths combo_config =
     add_log kept msgs) /\
  written (process_data_combinations read_csv parse_timestamp outer_join output_pipeline
             ((combo_name, combo_config) :: others) csv_paths) =
  (files_written ++
   written (process_data_combinations read_csv parse_timestamp outer_join output_pipeline
              others csv_paths))%list.
Proof.
  intros Hsorted Hreq Hun kept files_written.
  destruct (process_sources_stops_at read_csv parse_timestamp outer_join csv_paths
              source rest Hreq Hun pre (mkState None None [])) as [msgs Hstop].
  assert (Hmerged : merge_sources read_csv parse_timestamp outer_join csv_paths
                      combo_config = add_log kept msgs).
  { unfold merge_sources. rewrite Hsorted. exact Hstop. }
  split; [exists msgs; exact Hmerged|].
  rewrite run_written, process_combination_written. f_equal.
  destruct (sources combo_config) as [|s srcs] eqn:Hs.
  { cbn in Hsorted. destruct pre; discriminate. }
  rewrite Hmerged, output_step_add_log.
  unfold output_step, files_written.
  destruct (st_combined_df kept) as [table|]; [|reflexivity].
  destruct (Frame.is_empty table); [reflexivity|]. cbn [negb].
  destruct (output_pipeline _ _ table); reflexivity.
Qed.

(** The amended C1 at the missing required exercise export. *)
Lemma required_source_failure_keeps_merged_table_witness :
  (exists msgs,
     merge_sources Sample.read_csv Sample.parse_timestamp Sample.outer_join
       Sample.csv_paths
       (mkCombo (Some "daily.csv") [Sample.sleep_source; Sample.exercise_source]
          Sample.no_output_options) =
     add_log
       (process_sources Sample.read_csv Sample.parse_timestamp Sample.outer_join
          Sample.csv_paths (mkState None None []) [Sample.sleep_source]) msgs) /\
  written (process_data_combinations Sample.read_csv Sample.parse_timestamp
             Sample.outer_join Sample.output_pipeline
             Sample.sleep_then_exercise Sample.csv_paths) =
  [("daily.csv",
    [("day_time", mkSeries Date [Some (VDate 19358); Some (VDate 19359)])])].
Proof.
  apply (required_source_failure_keeps_merged_table
           Sample.read_csv Sample.parse_timestamp Sample.outer_join Sample.output_pipeline
           Sample.csv_paths "daily"
           (mkCombo (Some "daily.csv") [Sample.sleep_source; Sample.exercise_source]
              Sample.no_output_options)
           [Sample.sleep_source] [] Sample.exercise_source []).
  - vm_compute. reflexivity.
  - reflexivity.
  - vm_compute. exact I.
Defined.

(* ===================================================================== *)
(** ** CombinationEngine: when an output file is written *)
(* ===================================================================== *)

(** reedit.py tests [combined_df.empty] instead: a table that passes has
    a row as well. *)
Lemma pandas_not_empty_has_rows df :
  Frame.pandas_empty df = false -> 0 < Frame.height df.
Proof.
  unfold Frame.pandas_empty. intros H. apply orb_false_iff in H as [H _].
  apply Nat.eqb_neq in H. lia.
Qed.

(** C10: a combination's output file is written only when its merged
    table exists and has at least one row.  When the merged table has no
    row, nothing is written for the combination, the log records
    [debug_no_data_to_output] for it, and the run goes on with the
    combinations that follow. *)
Theorem output_written_only_for_table_with_rows
    (read_csv : string -> option DataFrame) (parse_timestamp : string -> option Z)
    (outer_join : DataFrame -> DataFrame -> string -> option DataFrame)
    (output_pipeline : OutputSpec -> option string -> DataFrame -> option DataFrame)
    (csv_paths : list string) (combo_name : string) (combo_config : ComboConfig) :
  let merged := merge_sources read_csv parse_timestamp outer_join csv_paths combo_config in
  let result :=
    process_combination read_csv parse_timestamp outer_join output_pipeline
      csv_paths combo_name combo_config in
  (result.1.2 <> [] ->
   exists table, st_combined_df merged = Some table /\ 0 < Frame.height table) /\
  (forall table,
     st_combined_df merged = Some table -> Frame.height table = 0 ->
     result.1.2 = [] /\
     ("debug_no_data_to_output", combo_name) ∈ result.2 /\
     forall others,
       written (process_data_combinations read_csv parse_timestamp outer_join
                  output_pipeline ((combo_name, combo_config) :: others) csv_paths) =
       written (process_data_combinations read_csv parse_timestamp outer_join
                  output_pipeline others csv_paths)).
Proof.
  intros merged result. subst result.
  split.
  - rewrite process_combination_written.
    destruct (sources combo_config) as [|s srcs]; [congruence|].
    fold merged. unfold output_step.
    destruct (st_combined_df merged) as [table|];
      [|intros Hw; exfalso; apply Hw; reflexivity].
    unfold Frame.is_empty.
    destruct (Frame.height table) as [|n] eqn:Hh;
      [intros Hw; exfalso; apply Hw; reflexivity|].
    intros _. exists table. split; [reflexivity | lia].
  - intros table Htable Hempty.
    assert (Hne : sources combo_config <> []).
    { intros Hnil. subst merged.
      rewrite merge_sources_without_sources in Htable by exact Hnil. discriminate. }
    assert (Hstep : output_step output_pipeline combo_name combo_config merged =
                    ([], [("debug_no_data_to_output", combo_name)])).
    { unfold output_step. rewrite Htable. unfold Frame.is_empty. rewrite Hempty.
      reflexivity. }
    assert (Hw : (process_combination read_csv parse_timestamp outer_join output_pipeline
                    csv_paths combo_name combo_config).1.2 = []).
    { rewrite process_combination_written.
      destruct (sources combo_config); [reflexivity|]. fold merged. rewrite Hstep.
      reflexivity. }
    split; [exact Hw|]. split.
    + apply process_combination_log; [|exact Hne]. fold merged. rewrite Hstep. left.
    + intros others. rewrite run_written, Hw. reflexivity.
Qed.

(** C10 at a sleep export that has a header and no data row: the source
    loads, the merged table has no row, no file is written. *)
Lemma output_written_only_for_table_with_rows_witness :
  st_combined_df
    (merge_sources Sample.read_header_only Sample.parse_timestamp Sample.outer_join
       Sample.csv_paths
       (mkCombo (Some "daily.csv") [Sample.sleep_source] Sample.no_output_options)) =
  Some [("day_time", mkSeries Date [])] /\
  (process_combination Sample.read_header_only Sample.parse_timestamp Sample.outer_join
     Sample.output_pipeline Sample.csv_paths "daily"
     (mkCombo (Some "daily.csv") [Sample.sleep_source] Sample.no_output_options)).1.2 = [] /\
  ("debug_no_data_to_output", "daily") ∈
  (process_combination Sample.read_header_only Sample.parse_timestamp Sample.outer_join
     Sample.output_pipeline Sample.csv_paths "daily"
     (mkCombo (Some "daily.csv") [Sample.sleep_source] Sample.no_output_options)).2.
Proof.
  split; [vm_compute; reflexivity|].
  destruct (output_written_only_for_table_with_rows
              Sample.read_header_only Sample.parse_timestamp Sample.outer_join
              Sample.output_pipeline Sample.csv_paths "daily"
              (mkCombo (Some "daily.csv") [Sample.sleep_source] Sample.no_output_options))
    as [_ Hzero].
  destruct (Hzero [("day_time", mkSeries Date [])]) as (Hw & Hlog & _).
  - vm_compute. reflexivity.
  - reflexivity.
  - split; [exact Hw | exact Hlog].
Defined.

(* ===================================================================== *)
(** ** Columns under [with_columns], [rename] and the key conversion *)
(* ===================================================================== *)

Section FrameFacts.

Lemma get_column_with_column_eq name s df :
  Frame.get_column name (Frame.with_column name s df) = Some s.
Proof.
  induction df as [|[n s0] df IH]; cbn.
  - rewrite String.eqb_refl. reflexivity.
  - destruct (String.eqb n name) eqn:Hn; cbn; rewrite Hn; [reflexivity | exact IH].
Qed.

Lemma get_column_with_column_ne name other s df :
  name <> other ->
  Frame.get_column name (Frame.with_column other s df) = Frame.get_column name df.
Proof.
  intros Hne. induction df as [|[n s0] df IH]; cbn.
  - destruct (String.eqb other name) eqn:Ho; [|reflexivity].
    apply String.eqb_eq in Ho. congruence.
  - destruct (String.eqb n other) eqn:Hn; cbn.
    + apply String.eqb_eq in Hn. subst n.
      destruct (String.eqb other name) eqn:Ho; [|reflexivity].
      apply String.eqb_eq in Ho. congruence.
    + destruct (String.eqb n name); [reflexivity | exact IH].
Qed.

Lemma get_column_Some_in name s df :
  Frame.get_column name df = Some s -> name ∈ Frame.columns df.
Proof.
  induction df as [|[n s0] df IH]; cbn; [discriminate|].
  destruct (String.eqb n name) eqn:Hn.
  - apply String.eqb_eq in Hn. subst n. intros _. left.
  - intros H. right. apply IH, H.
Qed.

(** Renaming all columns by [f] keeps a column findable under its new
    name, provided the new names are distinct. *)
Lemma get_column_renamed (f : string -> string) name s df :
  NoDup (Frame.columns (map (fun '(n, c) => (f n, c)) df)) ->
  Frame.get_column name df = Some s ->
  Frame.get_column (f name) (map (fun '(n, c) => (f n, c)) df) = Some s.
Proof.
  induction df as [|[n s0] df IH]; cbn; [discriminate|].
  intros Hnodup Hget. apply NoDup_cons in Hnodup as [Hfresh Hnodup].
  destruct (String.eqb n name) eqn:Hn.
  - apply String.eqb_eq in Hn. subst n. rewrite String.eqb_refl. exact Hget.
  - destruct (String.eqb (f n) (f name)) eqn:Hf; [|apply IH; assumption].
    apply String.eqb_eq in Hf. exfalso. apply Hfresh. rewrite Hf.
    apply get_column_Some_in in Hget. clear -Hget.
    induction df as [|[k c] df IH]; [inversion Hget|].
    cbn in *. apply elem_of_cons in Hget as [-> | Hget]; [left | right; apply IH, Hget].
Qed.

(** A successful [rename] leaves alone a column that is no key of the
    mapping. *)
Lemma rename_keeps_column mapping name s df df' :
  Frame.rename mapping df = Some df' ->
  mapping !! name = None ->
  Frame.get_column name df = Some s ->
  Frame.get_column name df' = Some s.
Proof.
  unfold Frame.rename. intros Hren Hname Hget.
  case_bool_decide; [|discriminate].
  case_bool_decide as Hnodup; [|discriminate].
  injection Hren as <-.
  pose proof (get_column_renamed (fun n => default n (mapping !! n)) name s df
                Hnodup Hget) as Hcol.
  cbn beta in Hcol. rewrite Hname in Hcol. exact Hcol.
Qed.

Variable parse_timestamp : string -> option Z.

Lemma normalize_key_other_column key use_datetime df name :
  name <> key ->
  Frame.get_column name (normalize_key parse_timestamp key use_datetime df).1 =
  Frame.get_column name df.
Proof.
  intros Hne. unfold normalize_key.
  destruct (Frame.get_column key df) as [s|]; [|reflexivity].
  destruct (to_temporal parse_timestamp use_datetime s); [|reflexivity].
  cbn [fst]. apply get_column_with_column_ne, Hne.
Qed.

Lemma str_to_datetime_dtype s s' :
  str_to_datetime parse_timestamp s = Some s' -> dtype s' = Datetime Us.
Proof.
  unfold str_to_datetime. destruct (dtype s); try discriminate.
  destruct (mapM _ (cells s)); cbn; [|discriminate].
  intros [= <-]. reflexivity.
Qed.

(** What a successful conversion yields: instants when [use_datetime]
    is set, dates otherwise. *)
Lemma to_temporal_dtype use_datetime s s' :
  to_temporal parse_timestamp use_datetime s = Some s' ->
  if use_datetime then exists u, dtype s' = Datetime u else dtype s' = Date.
Proof.
  unfold to_temporal.
  destruct (Frame.is_numeric (dtype s)), use_datetime.
  - intros [= <-]. exists Ms. reflexivity.
  - cbn. intros [= <-]. reflexivity.
  - intros H. exists Us. eapply str_to_datetime_dtype, H.
  - destruct (str_to_datetime parse_timestamp s) as [d|] eqn:Hd; cbn; [|discriminate].
    apply str_to_datetime_dtype in Hd. unfold Frame.dt_date. rewrite Hd.
    intros [= <-]. reflexivity.
Qed.

Lemma get_column_None_with_column key name s df :
  Frame.get_column key df = None -> key <> name ->
  Frame.get_column key (Frame.with_column name s df) = None.
Proof. intros H Hne. rewrite get_column_with_column_ne by exact Hne. exact H. Qed.

(** The key column of a table whose conversion logged nothing. *)
Lemma normalize_key_dtype key use_datetime df df' s :
  normalize_key parse_timestamp key use_datetime df = (df', []) ->
  Frame.get_column key df' = Some s ->
  if use_datetime then exists u, dtype s = Datetime u else dtype s = Date.
Proof.
  unfold normalize_key.
  destruct (Frame.get_column key df) as [s0|] eqn:Hget.
  - destruct (to_temporal parse_timestamp use_datetime s0) as [s1|] eqn:Hconv;
      [|discriminate].
    intros [= <-]. rewrite get_column_with_column_eq. intros [= <-].
    eapply to_temporal_dtype, Hconv.
  - intros [= <-]. congruence.
Qed.

(** One string that is no timestamp makes the strict conversion
    raise. *)
Lemma str_to_datetime_bad_value s x :
  Some (VStr x) ∈ cells s -> parse_timestamp x = None ->
  str_to_datetime parse_timestamp s = None.
Proof.
  intros Hin Hbad. unfold str_to_datetime. destruct (dtype s); try reflexivity.
  rewrite (mapM_None_2 _ (cells s)); [reflexivity|].
  apply Exists_exists. exists (Some (VStr x)). split; [exact Hin|].
  cbn. rewrite Hbad. reflexivity.
Qed.

(** ... and the key column of such a table is left as it was read. *)
Lemma normalize_key_bad_value key use_datetime df s x :
  Frame.get_column key df = Some s ->
  Frame.is_numeric (dtype s) = false ->
  Some (VStr x) ∈ cells s -> parse_timestamp x = None ->
  normalize_key parse_timestamp key use_datetime df =
  (df, [("datetime_conversion_error", key)]).
Proof.
  intros Hget Hnum Hin Hbad. unfold normalize_key, to_temporal.
  rewrite Hget, Hnum, (str_to_datetime_bad_value s x Hin Hbad).
  destruct use_datetime; reflexivity.
Qed.

Lemma lookup_map {A B} (f : A -> B) (l : list A) i :
  map f l !! i = f <$> (l !! i).
Proof.
  revert i. induction l as [|a l IH]; intros [|i]; cbn; try reflexivity. apply IH.
Qed.

(** In reedit.py each string is converted on its own: the column
    becomes a column of dates of the same length, with a null where the
    string is no timestamp. *)
Lemma reedit_normalize_key_coerces key df s :
  Frame.get_column key df = Some s -> dtype s = Utf8 ->
  exists s',
    Frame.get_column key (Reedit.normalize_key parse_timestamp key df).1 = Some s' /\
    dtype s' = Date /\
    length (cells s') = length (cells s) /\
    forall i x,
      cells s !! i = Some (Some (VStr x)) ->
      cells s' !! i =
      Some ((fun t => VDate (t * 1000 / 86400000000000)) <$> parse_timestamp x).
Proof.
  intros Hget Hty. unfold Reedit.normalize_key. rewrite Hget, Hty. cbn [Frame.is_numeric fst].
  eexists. rewrite get_column_with_column_eq. split; [reflexivity|].
  split; [reflexivity|]. split.
  - cbn. rewrite !length_map. reflexivity.
  - intros i x Hi. cbn. rewrite !lookup_map, Hi. cbn.
    destruct (parse_timestamp x); reflexivity.
Qed.

End FrameFacts.

(* ===================================================================== *)
(** ** CombinationEngine: the duplicate of the merge key *)
(* ===================================================================== *)

(** With [rename_columns] holding the merge key alone, the renames of a
    source whose table has the key column succeed, and add the copy. *)
Lemma rename_stage_single_rename source df target s :
  rename_columns source = {[ source_merge_key source := target ]} ->
  source_merge_key_rename source = source_merge_key source ->
  Frame.get_column (source_merge_key source) df = Some s ->
  rename_stage source df = Some (Frame.with_column target s df).
Proof.
  intros Hmap Hkeep Hget. unfold rename_stage, duplicate_merge_key.
  rewrite Hmap, lookup_singleton_eq, Hget. cbn.
  unfold rename_merge_key. rewrite Hkeep, String.eqb_refl, andb_false_r.
  cbn. unfold rename_other_columns. rewrite Hmap, delete_singleton_eq.
  rewrite bool_decide_eq_true_2 by reflexivity. reflexivity.
Qed.

(** When the new name is itself renamed, the copy moves on and no
    column is left under the name the merge key was mapped to. *)
Lemma chained_rename_moves_the_copy :
  rename_stage Sample.chained_rename_source
    [("day_time", mkSeries Int64 [Some (VNum 1672561800000)])] =
  Some [("day_time", mkSeries Int64 [Some (VNum 1672561800000)]);
        ("ts", mkSeries Int64 [Some (VNum 1672561800000)])].
Proof. vm_compute. reflexivity. Qed.

(** C2, as stated, fails: for the sleep export with
    [rename_columns = {"day_time": "timestamp"}] the table handed to the
    merge holds the dates of the nights under [day_time] and the epoch
    milliseconds as read under [timestamp]. *)
Lemma duplicate_differs_from_converted_key :
  prepare_source Sample.parse_timestamp Sample.keep_timestamp_source "day_time"
    Sample.sleep_table =
  Ready
    [("day_time", mkSeries Date [Some (VDate 19358); Some (VDate 19359)]);
     ("timestamp", mkSeries Int64 [Some (VNum 1672561800000); Some (VNum 1672648200000)])]
    [] /\
  mkSeries Date [Some (VDate 19358); Some (VDate 19359)] <>
  mkSeries Int64 [Some (VNum 1672561800000); Some (VNum 1672648200000)].
Proof. split; [vm_compute; reflexivity | discriminate]. Qed.

(** A conversion that succeeds changes the type of the column. *)
Lemma to_temporal_changes_dtype parse_timestamp use_datetime s s' :
  to_temporal parse_timestamp use_datetime s = Some s' -> s' <> s.
Proof.
  intros Hconv ->.
  pose proof (to_temporal_dtype parse_timestamp use_datetime s s Hconv) as Hty.
  unfold to_temporal, str_to_datetime in Hconv.
  destruct use_datetime.
  - destruct Hty as [u Hty]. rewrite Hty in Hconv. discriminate.
  - rewrite Hty in Hconv. discriminate.
Qed.

(** The table handed to the merge is the renamed table with the column
    named by the combination's key converted. *)
Lemma prepare_source_renamed parse_timestamp source key df selected renamed :
  select_columns source df = Selected selected ->
  rename_stage source selected = Some renamed ->
  prepare_source parse_timestamp source key df =
  Ready
    (normalize_key parse_timestamp key
       (String.eqb (source_merge_key_rename source) "datetime") renamed).1
    (normalize_key parse_timestamp key
       (String.eqb (source_merge_key_rename source) "datetime") renamed).2.
Proof.
  intros Hsel Hstage. unfold prepare_source. rewrite Hsel, Hstage.
  destruct (normalize_key _ _ _ renamed). reflexivity.
Qed.

Lemma normalize_key_converts parse_timestamp key use_datetime df s s' :
  Frame.get_column key df = Some s ->
  to_temporal parse_timestamp use_datetime s = Some s' ->
  (normalize_key parse_timestamp key use_datetime df).1 = Frame.with_column key s' df.
Proof. intros Hget Hconv. unfold normalize_key. rewrite Hget, Hconv. reflexivity. Qed.

Lemma normalize_key_failure parse_timestamp key use_datetime df s :
  Frame.get_column key df = Some s ->
  to_temporal parse_timestamp use_datetime s = None ->
  (normalize_key parse_timestamp key use_datetime df).1 = df.
Proof. intros Hget Hconv. unfold normalize_key. rewrite Hget, Hconv. reflexivity. Qed.

(** In a combination whose key is the new name, it is the copy that
    is converted, and the merge-key column that stays as read. *)
Lemma copy_is_converted_when_it_is_the_key :
  prepare_source Sample.parse_timestamp Sample.keep_timestamp_source "timestamp"
    Sample.sleep_table =
  Ready
    [("day_time", mkSeries Int64 [Some (VNum 1672561800000); Some (VNum 1672648200000)]);
     ("timestamp", mkSeries Date [Some (VDate 19358); Some (VDate 19359)])]
    [].
Proof. vm_compute. reflexivity. Qed.

(** C2, amended (samsung_health_extractor.py): for a source whose
    [rename_columns] maps its merge key to another name, itself not
    renamed further, while [merge_key_rename] leaves the key's name
    unchanged, and whose selected table has the merge-key column, the
    table that comes out of the renames contains the merge-key column
    under its original name and a column under the new name, both
    holding the values read from the file.  The source is handed to the
    merge whatever the combination's key, after the conversion of the
    one column that the combination's key names.  When the conversion
    of the values read succeeds, its result is a column of another
    type, and
    - if the combination's key is the source's merge key, the merge-key
      column holds the converted dates (timestamps for a key called
      "datetime") and the copy the values as read;
    - if the combination's key is the new name, the copy is the column
      converted and the merge-key column holds the values as read.
    When the combination's key is neither name, or the conversion
    fails, both columns hold the values as read. *)
Theorem merge_key_copy_holds_values_as_read
    (parse_timestamp : string -> option Z) (source : SourceSpec)
    (df selected renamed : DataFrame) (target_name : string) (s : Series) :
  rename_columns source !! source_merge_key source = Some target_name ->
  target_name <> source_merge_key source ->
  source_merge_key_rename source = source_merge_key source ->
  rename_columns source !! target_name = None ->
  select_columns source df = Selected selected ->
  Frame.get_column (source_merge_key source) selected = Some s ->
  rename_stage source selected = Some renamed ->
  (Frame.get_column (source_merge_key source) renamed = Some s /\
   Frame.get_column target_name renamed = Some s) /\
  (forall key, exists prepared msgs,
     prepare_source parse_timestamp source key df = Ready prepared msgs) /\
  (forall key prepared msgs s',
     prepare_source parse_timestamp source key df = Ready prepared msgs ->
     to_temporal parse_timestamp
       (String.eqb (source_merge_key_rename source) "datetime") s = Some s' ->
     s' <> s /\
     (if String.eqb (source_merge_key_rename source) "datetime"
      then exists u, dtype s' = Datetime u
      else dtype s' = Date) /\
     (key = source_merge_key source ->
      Frame.get_column (source_merge_key source) prepared = Some s' /\
      Frame.get_column target_name prepared = Some s) /\
     (key = target_name ->
      Frame.get_column (source_merge_key source) prepared = Some s /\
      Frame.get_column target_name prepared = Some s')) /\
  (forall key prepared msgs,
     prepare_source parse_timestamp source key df = Ready prepared msgs ->
     (key <> source_merge_key source /\ key <> target_name) \/
     to_temporal parse_timestamp
       (String.eqb (source_merge_key_rename source) "datetime") s = None ->
     Frame.get_column (source_merge_key source) prepared = Some s /\
     Frame.get_column target_name prepared = Some s).
Proof.
  intros Hmap Hne Hkeep Hfree Hsel Hget Hstage.
  assert (Hboth : Frame.get_column (source_merge_key source) renamed = Some s /\
                  Frame.get_column target_name renamed = Some s).
  { unfold rename_stage, duplicate_merge_key in Hstage.
    rewrite Hmap, Hget in Hstage. cbn in Hstage.
    unfold rename_merge_key in Hstage.
    rewrite Hkeep, String.eqb_refl, andb_false_r in Hstage. cbn in Hstage.
    unfold rename_other_columns in Hstage.
    pose proof (get_column_with_column_eq target_name s selected) as Hcopy.
    pose proof (get_column_with_column_ne (source_merge_key source) target_name s selected
                  (not_eq_sym Hne)) as Hkey.
    rewrite Hget in Hkey.
    case_bool_decide.
    - injection Hstage as <-. split; assumption.
    - split.
      + eapply rename_keeps_column; [exact Hstage | apply lookup_delete_eq | exact Hkey].
      + eapply rename_keeps_column; [exact Hstage | | exact Hcopy].
        rewrite lookup_delete_ne by (apply not_eq_sym, Hne). exact Hfree. }
  destruct Hboth as [Hkey Hcopy].
  pose proof (fun key => prepare_source_renamed parse_timestamp source key df selected
                           renamed Hsel Hstage) as Hprep.
  split; [split; assumption|]. split; [|split].
  - intros key. eexists _, _. apply Hprep.
  - intros key prepared msgs s' Hready Hconv.
    rewrite Hprep in Hready. injection Hready as <- _.
    split; [eapply to_temporal_changes_dtype, Hconv|].
    split; [eapply to_temporal_dtype, Hconv|]. split.
    + intros ->.
      rewrite (normalize_key_converts _ _ _ _ s s' Hkey Hconv).
      rewrite get_column_with_column_eq.
      rewrite get_column_with_column_ne by exact Hne.
      split; [reflexivity | exact Hcopy].
    + intros ->.
      rewrite (normalize_key_converts _ _ _ _ s s' Hcopy Hconv).
      rewrite get_column_with_column_eq.
      rewrite get_column_with_column_ne by (apply not_eq_sym, Hne).
      split; [exact Hkey | reflexivity].
  - intros key prepared msgs Hready Hcase.
    rewrite Hprep in Hready. injection Hready as <- _.
    destruct (decide (key = source_merge_key source)) as [-> | Hother].
    + destruct Hcase as [[Hcontra _] | Hfail]; [congruence|].
      rewrite (normalize_key_failure _ _ _ _ s Hkey Hfail). split; assumption.
    + destruct (decide (key = target_name)) as [-> | Hother'].
      * destruct Hcase as [[_ Hcontra] | Hfail]; [congruence|].
        rewrite (normalize_key_failure _ _ _ _ s Hcopy Hfail). split; assumption.
      * rewrite !normalize_key_other_column by (apply not_eq_sym; assumption).
        split; assumption.
Qed.

(** The amended C2 at the sleep export and the specification's
    [rename_columns = {"day_time": "timestamp"}], in a combination
    whose key is [day_time]: the key column holds the dates of the two
    nights, the copy the epoch milliseconds. *)
Lemma merge_key_copy_holds_values_as_read_witness :
  exists prepared msgs,
    prepare_source Sample.parse_timestamp Sample.keep_timestamp_source "day_time"
      Sample.sleep_table = Ready prepared msgs /\
    Frame.get_column "day_time" prepared =
    Some (mkSeries Date [Some (VDate 19358); Some (VDate 19359)]) /\
    Frame.get_column "timestamp" prepared =
    Some (mkSeries Int64 [Some (VNum 1672561800000); Some (VNum 1672648200000)]).
Proof.
  destruct (merge_key_copy_holds_values_as_read Sample.parse_timestamp
              Sample.keep_timestamp_source Sample.sleep_table
              [("day_time",
                mkSeries Int64 [Some (VNum 1672561800000); Some (VNum 1672648200000)])]
              [("day_time",
                mkSeries Int64 [Some (VNum 1672561800000); Some (VNum 1672648200000)]);
               ("timestamp",
                mkSeries Int64 [Some (VNum 1672561800000); Some (VNum 1672648200000)])]
              "timestamp"
              (mkSeries Int64 [Some (VNum 1672561800000); Some (VNum 1672648200000)]))
    as (_ & Hready & Hconverted & _).
  - vm_compute. reflexivity.
  - discriminate.
  - reflexivity.
  - vm_compute. reflexivity.
  - vm_compute. reflexivity.
  - reflexivity.
  - vm_compute. reflexivity.
  - destruct (Hready "day_time") as (prepared & msgs & Hprepared).
    exists prepared, msgs. split; [exact Hprepared|].
    destruct (Hconverted "day_time" prepared msgs
                (mkSeries Date [Some (VDate 19358); Some (VDate 19359)]) Hprepared)
      as (_ & _ & Hkey & _); [vm_compute; reflexivity|].
    apply Hkey. reflexivity.
Defined.

(* ===================================================================== *)
(** ** MergeKeyResolver: granularity of the key *)
(* ===================================================================== *)

Section KeyFacts.

Variable read_csv : string -> option DataFrame.
Variable parse_timestamp : string -> option Z.
Variable outer_join : DataFrame -> DataFrame -> string -> option DataFrame.

Lemma prepare_source_key_dtype source key df df' s :
  prepare_source parse_timestamp source key df = Ready df' [] ->
  Frame.get_column key df' = Some s ->
  if String.eqb (source_merge_key_rename source) "datetime"
  then exists u, dtype s = Datetime u
  else dtype s = Date.
Proof.
  unfold prepare_source.
  destruct (select_columns source df) as [selected| |]; try discriminate.
  destruct (rename_stage source selected) as [renamed|]; [|discriminate].
  destruct (normalize_key parse_timestamp key _ renamed) as [converted msgs] eqn:Hn.
  intros [= -> ->]. eapply normalize_key_dtype, Hn.
Qed.

Lemma combine_merge_key source key st df :
  st_merge_key (combine parse_timestamp outer_join source key st df).2 = st_merge_key st.
Proof.
  unfold combine. destruct (st_combined_df st); [|reflexivity].
  destruct (normalize_key _ _ _ _). destruct (outer_join _ _ _); reflexivity.
Qed.

(** The source that meets no key yet makes its own [merge_key_rename]
    the key of the combination. *)
Lemma process_loaded_first_key source st df :
  st_merge_key st = None ->
  st_merge_key (process_loaded parse_timestamp outer_join source st df).2 =
  Some (source_merge_key_rename source).
Proof.
  intros Hnone. unfold process_loaded. rewrite Hnone. cbn [default].
  destruct (prepare_source _ _ _ _) as [prepared msgs| |].
  - rewrite combine_merge_key. reflexivity.
  - reflexivity.
  - reflexivity.
Qed.

End KeyFacts.

(** C3, as stated, fails: in a combination whose key is "datetime", a
    source that keeps its own merge key under its name and renames
    [start_time] to [datetime] has that column truncated to dates. *)
Lemma datetime_key_truncated_to_date :
  prepare_source Sample.parse_timestamp Sample.renamed_to_datetime_source "datetime"
    Sample.exercise_table =
  Ready
    [("datetime", mkSeries Date [Some (VDate 19358)]);
     ("day_time", mkSeries Int64 [Some (VNum 1672561800000)])]
    [].
Proof. vm_compute. reflexivity. Qed.

(** The source that fixes the key need not supply the merged table: an
    optional first source that standardises its key to "datetime" is
    read, fixes the key and is skipped for lack of columns; the table
    of the next source becomes the merged table, with its [datetime]
    column truncated to dates by that source's own [merge_key_rename]. *)
Lemma skipped_source_fixes_key_next_source_sets_granularity :
  process_sources Cases.read_sleep_and_exercise Sample.parse_timestamp Sample.outer_join
    Cases.sleep_and_exercise_paths (mkState None None [])
    (sort_by_priority [Cases.heart_rate_of_sleep; Sample.renamed_to_datetime_source]) =
  mkState
    (Some [("datetime", mkSeries Date [Some (VDate 19358)]);
           ("day_time", mkSeries Int64 [Some (VNum 1672561800000)])])
    (Some "datetime")
    [("debug_file_found", ".sleep"); ("no_required_columns", ".sleep");
     ("debug_file_found", ".exercise"); ("loaded_data", ".exercise")].
Proof. vm_compute. reflexivity. Qed.

(** A key column that already holds dates or timestamps makes the
    conversion raise, at either granularity: the table is left as it
    was and the error is logged. *)
Lemma normalize_key_converted_column parse_timestamp key use_datetime df s :
  Frame.get_column key df = Some s ->
  dtype s = Date \/ (exists u, dtype s = Datetime u) ->
  normalize_key parse_timestamp key use_datetime df =
  (df, [("datetime_conversion_error", key)]).
Proof.
  intros Hget Hty. unfold normalize_key, to_temporal, str_to_datetime. rewrite Hget.
  destruct Hty as [-> | [u ->]]; destruct use_datetime; reflexivity.
Qed.

(** The table of the first source that reaches the merge becomes the
    merged table as it is. *)
Lemma process_loaded_base_table parse_timestamp outer_join source st df prepared msgs :
  st_combined_df st = None ->
  prepare_source parse_timestamp source
    (default (source_merge_key_rename source) (st_merge_key st)) df =
  Ready prepared msgs ->
  st_combined_df (process_loaded parse_timestamp outer_join source st df).2 =
  Some prepared.
Proof.
  intros Hnone Hready. unfold process_loaded. rewrite Hready.
  unfold combine, add_log. cbn [st_combined_df]. rewrite Hnone. reflexivity.
Qed.

(** C3, amended (samsung_health_extractor.py): when the column named by
    the combination's key is present in a source's table and its
    conversion does not fail, the column is kept as full timestamps if
    that source's own [merge_key_rename] is "datetime" and truncated to
    dates otherwise.  The first source whose file is read makes its own
    [merge_key_rename] the key of the combination; the first source
    that reaches the merge supplies the merged table, converted as that
    source's [merge_key_rename] says.  The conversion of the merged
    table's key before a join, which tests the combination's key,
    changes nothing when the key column already holds dates or
    timestamps: it raises, the error is logged and the table stays as
    it was. *)
Theorem key_granularity_follows_merge_key_rename
    (parse_timestamp : string -> option Z)
    (outer_join : DataFrame -> DataFrame -> string -> option DataFrame) :
  (forall source key df df' s,
     prepare_source parse_timestamp source key df = Ready df' [] ->
     Frame.get_column key df' = Some s ->
     if String.eqb (source_merge_key_rename source) "datetime"
     then exists u, dtype s = Datetime u
     else dtype s = Date) /\
  (forall source st df,
     st_merge_key st = None ->
     st_merge_key (process_loaded parse_timestamp outer_join source st df).2 =
     Some (source_merge_key_rename source)) /\
  (forall source st df prepared msgs,
     st_combined_df st = None ->
     prepare_source parse_timestamp source
       (default (source_merge_key_rename source) (st_merge_key st)) df =
     Ready prepared msgs ->
     st_combined_df (process_loaded parse_timestamp outer_join source st df).2 =
     Some prepared) /\
  (forall key use_datetime combined_df s,
     Frame.get_column key combined_df = Some s ->
     dtype s = Date \/ (exists u, dtype s = Datetime u) ->
     normalize_key parse_timestamp key use_datetime combined_df =
     (combined_df, [("datetime_conversion_error", key)])).
Proof.
  split; [|split; [|split]].
  - intros source key df df' s. apply prepare_source_key_dtype.
  - intros source st df. apply process_loaded_first_key.
  - intros source st df prepared msgs. apply process_loaded_base_table.
  - intros key use_datetime combined_df s. apply normalize_key_converted_column.
Qed.

(** The amended C3 at the sleep export, whose key "day_time" is not
    "datetime": the prepared key column holds dates, at a first source
    the combination's key becomes "day_time" and the prepared table the
    merged table; and at the merged table of a combination whose key is
    "datetime" and whose key column holds dates: the conversion before
    a join leaves the dates. *)
Lemma key_granularity_follows_merge_key_rename_witness :
  dtype (mkSeries Date [Some (VDate 19358); Some (VDate 19359)]) = Date /\
  st_merge_key
    (process_loaded Sample.parse_timestamp Sample.outer_join Sample.sleep_source
       (mkState None None []) Sample.sleep_table).2 = Some "day_time" /\
  st_combined_df
    (process_loaded Sample.parse_timestamp Sample.outer_join Sample.sleep_source
       (mkState None None []) Sample.sleep_table).2 =
  Some [("day_time", mkSeries Date [Some (VDate 19358); Some (VDate 19359)])] /\
  normalize_key Sample.parse_timestamp "datetime" true
    [("datetime", mkSeries Date [Some (VDate 19358)]);
     ("day_time", mkSeries Int64 [Some (VNum 1672561800000)])] =
  ([("datetime", mkSeries Date [Some (VDate 19358)]);
    ("day_time", mkSeries Int64 [Some (VNum 1672561800000)])],
   [("datetime_conversion_error", "datetime")]).
Proof.
  destruct (key_granularity_follows_merge_key_rename
              Sample.parse_timestamp Sample.outer_join)
    as (Hsource & Hfirst & Hbase & Hmerged).
  split; [|split; [|split]].
  - apply (Hsource Sample.sleep_source "day_time" Sample.sleep_table
             [("day_time", mkSeries Date [Some (VDate 19358); Some (VDate 19359)])]).
    + vm_compute. reflexivity.
    + reflexivity.
  - apply (Hfirst Sample.sleep_source (mkState None None []) Sample.sleep_table).
    reflexivity.
  - apply (Hbase Sample.sleep_source (mkState None None []) Sample.sleep_table
             [("day_time", mkSeries Date [Some (VDate 19358); Some (VDate 19359)])] []).
    + reflexivity.
    + vm_compute. reflexivity.
  - apply (Hmerged "datetime" true
             [("datetime", mkSeries Date [Some (VDate 19358)]);
              ("day_time", mkSeries Int64 [Some (VNum 1672561800000)])]
             (mkSeries Date [Some (VDate 19358)])).
    + reflexivity.
    + left. reflexivity.
Defined.

(* ===================================================================== *)
(** ** MergeKeyResolver: a value that is no timestamp *)
(* ===================================================================== *)

(** C5: in samsung_health_extractor.py one string that is no timestamp
    makes [str.to_datetime()] raise; the handler logs the error and the
    whole key column stays as read, the good values unconverted with
    it.  reedit.py, which passes [errors='coerce'], converts the good
    value and puts a null in place of the bad one. *)
Theorem strict_conversion_abandons_column :
  normalize_key Sample.parse_timestamp "day_time" false Sample.one_bad_timestamp =
  (Sample.one_bad_timestamp, [("datetime_conversion_error", "day_time")]) /\
  prepare_source Sample.parse_timestamp Sample.sleep_source "day_time"
    Sample.one_bad_timestamp =
  Ready Sample.one_bad_timestamp [("datetime_conversion_error", "day_time")] /\
  Reedit.normalize_key Sample.parse_timestamp "day_time" Sample.one_bad_timestamp =
  ([("day_time", mkSeries Date [Some (VDate 19358); None])], []).
Proof. repeat split; vm_compute; reflexivity. Qed.

(* ===================================================================== *)
(** ** Further properties: names and the search for a file *)
(* ===================================================================== *)

Section NameFacts.

Lemma append_cons c a b : String c a ++ b = String c (a ++ b).
Proof. reflexivity. Qed.

Lemma append_empty b : EmptyString ++ b = b.
Proof. reflexivity. Qed.

(** The last character that [rstrip_while] leaves does not satisfy the
    test. *)
Lemma rstrip_while_last P s :
  forall body c, Py.rstrip_while P s = body ++ String c EmptyString -> P c = false.
Proof.
  induction s as [|a s IH]; intros body c; cbn [Py.rstrip_while].
  - destruct body; discriminate.
  - destruct (Py.rstrip_while P s) as [|b t] eqn:Hs.
    + destruct (P a) eqn:Ha.
      * destruct body; discriminate.
      * destruct body as [|a' body]; rewrite ?append_cons, ?append_empty.
        -- intros [= <-]. exact Ha.
        -- intros [= _ H]. destruct body; discriminate.
    + destruct body as [|a' body]; rewrite ?append_cons, ?append_empty.
      * discriminate.
      * intros [= _ H]. eapply IH. exact H.
Qed.

(** A string whose last character fails the test is left whole. *)
Lemma rstrip_while_keep P body c :
  P c = false ->
  Py.rstrip_while P (body ++ String c EmptyString) = body ++ String c EmptyString.
Proof.
  intros Hc. induction body as [|a body IH].
  - rewrite append_empty. cbn. rewrite Hc. reflexivity.
  - rewrite append_cons. cbn [Py.rstrip_while]. rewrite IH.
    destruct body; reflexivity.
Qed.

Lemma chop_newline_other body c :
  c <> Py.newline -> Py.chop_newline (body ++ String c EmptyString) = None.
Proof.
  intros Hc. induction body as [|a body IH].
  - rewrite append_empty. cbn. destruct (Ascii.eqb c Py.newline) eqn:He; [|reflexivity].
    apply Ascii.eqb_eq in He. congruence.
  - rewrite append_cons. cbn [Py.chop_newline].
    destruct body as [|b body].
    + rewrite append_empty in *. rewrite IH. reflexivity.
    + rewrite append_cons in *. rewrite IH. reflexivity.
Qed.

Lemma replace_absent old new s :
  old <> EmptyString -> Py.find old s = None -> Py.replace old new s = s.
Proof. intros Hold Hfind. rewrite replace_unfold by exact Hold. rewrite Hfind. reflexivity. Qed.

End NameFacts.

(** X1: a cleaned name never ends with a dot or an underscore. *)
Theorem clean_csv_name_has_no_trailing_separator (name body : string) (c : ascii) :
  clean_csv_name name = body ++ String c EmptyString ->
  c <> "."%char /\ c <> "_"%char.
Proof.
  unfold clean_csv_name. intros H. apply rstrip_while_last in H.
  apply orb_false_iff in H as [Hdot Hunderscore].
  split; intros ->; discriminate.
Qed.

(** X1 at the sleep export: ".sleep" ends with "p". *)
Lemma clean_csv_name_has_no_trailing_separator_witness :
  "p"%char <> "."%char /\ "p"%char <> "_"%char.
Proof.
  apply (clean_csv_name_has_no_trailing_separator
           "com.samsung.health.sleep.20230101.csv" ".slee" "p"%char).
  vm_compute. reflexivity.
Defined.

(** X2: an ASCII name that contains neither ".csv" nor "health" and
    whose last character is no digit, dot, underscore or newline is its
    own cleaned name; cleaning such a name again changes nothing. *)
Theorem clean_csv_name_fixes_clean_names (name body : string) (c : ascii) :
  Text.is_ascii name = true ->
  Py.find ".csv" name = None ->
  Py.find "health" name = None ->
  name = body ++ String c EmptyString ->
  Py.is_digit c = false ->
  c <> "."%char -> c <> "_"%char -> c <> Py.newline ->
  clean_csv_name name = name.
Proof.
  intros _ Hcsv Hhealth Hname Hdigit Hdot Hunderscore Hnewline.
  unfold clean_csv_name.
  rewrite replace_absent by (discriminate || exact Hcsv).
  rewrite Hhealth. unfold Py.re_sub_trailing_digits.
  rewrite Hname, chop_newline_other by exact Hnewline.
  rewrite rstrip_while_keep by exact Hdigit.
  apply rstrip_while_keep.
  apply orb_false_iff. split; apply Ascii.eqb_neq; assumption.
Qed.

(** X2 at the name ".sleep_stage". *)
Lemma clean_csv_name_fixes_clean_names_witness :
  clean_csv_name ".sleep_stage" = ".sleep_stage".
Proof.
  apply (clean_csv_name_fixes_clean_names ".sleep_stage" ".sleep_stag" "e"%char);
    try reflexivity; discriminate.
Defined.

(** X3: the search for a source's file returns the first path of the
    list whose cleaned name is the name asked for, and finds nothing
    exactly when no path has that cleaned name. *)
Theorem find_csv_file_first_match (csv_paths : list string) (name : string) :
  match find_csv_file csv_paths name with
  | Some file_path =>
      exists before after,
        csv_paths = (before ++ file_path :: after)%list /\
        clean_csv_name (path_name file_path) = name /\
        forall other, other ∈ before -> clean_csv_name (path_name other) <> name
  | None =>
      forall other, other ∈ csv_paths -> clean_csv_name (path_name other) <> name
  end.
Proof.
  induction csv_paths as [|file_path rest IH]; cbn [find_csv_file].
  - intros other Hin. inversion Hin.
  - destruct (String.eqb (clean_csv_name (path_name file_path)) name) eqn:Heq.
    + apply String.eqb_eq in Heq. exists [], rest. repeat split; [exact Heq|].
      intros other Hin. inversion Hin.
    + apply String.eqb_neq in Heq.
      destruct (find_csv_file rest name) as [found|].
      * destruct IH as (before & after & -> & Hclean & Hbefore).
        exists (file_path :: before), after. repeat split; [exact Hclean|].
        intros other [-> | Hin]%elem_of_cons; [exact Heq | apply Hbefore, Hin].
      * intros other [-> | Hin]%elem_of_cons; [exact Heq | apply IH, Hin].
Qed.

(* ===================================================================== *)
(** ** Further properties: the ignore list *)
(* ===================================================================== *)

Section IgnoreFacts.

Lemma append_assoc_string (a b c : string) : (a ++ b) ++ c = a ++ (b ++ c).
Proof.
  induction a as [|x a IH]; [reflexivity|].
  rewrite !append_cons, IH. reflexivity.
Qed.

(** [lstrip_while] cuts a prefix. *)
Lemma lstrip_while_suffix P s : exists cut, s = cut ++ Text.lstrip_while P s.
Proof.
  induction s as [|c s IHs]; cbn [Text.lstrip_while].
  - exists EmptyString. reflexivity.
  - destruct IHs as [cut IH]. destruct (P c).
    + exists (String c cut). rewrite append_cons, <- IH. reflexivity.
    + exists EmptyString. reflexivity.
Qed.

Lemma lstrip_while_first P s c rest :
  Text.lstrip_while P s = String c rest -> P c = false.
Proof.
  induction s as [|a s IH]; cbn [Text.lstrip_while]; [discriminate|].
  destruct (P a) eqn:Ha; [exact IH|]. intros [= <- _]. exact Ha.
Qed.

Lemma strip_first s c rest : Text.strip s = String c rest -> Text.is_space c = false.
Proof. apply lstrip_while_first. Qed.

Lemma strip_last s body c :
  Text.strip s = body ++ String c EmptyString -> Text.is_space c = false.
Proof.
  unfold Text.strip. intros H.
  destruct (lstrip_while_suffix Text.is_space (Py.rstrip_while Text.is_space s))
    as [cut Hcut].
  rewrite H, <- append_assoc_string in Hcut.
  eapply rstrip_while_last, Hcut.
Qed.

(** What the loop over the lines has collected. *)
Lemma ignore_loop_elem lines :
  forall (ignore_set : gset string) x,
    x ∈ foldl (fun ignore_set line =>
                 let line := Text.strip line in
                 if is_ignore_entry line then ignore_set ∪ {[ line ]} else ignore_set)
              ignore_set lines <->
    x ∈ ignore_set \/
    exists line, line ∈ lines /\ Text.strip line = x /\ is_ignore_entry x = true.
Proof.
  induction lines as [|line lines IH]; intros ignore_set x; cbn [foldl].
  - split; [auto|]. intros [H | (line & Hin & _)]; [exact H | inversion Hin].
  - rewrite IH. cbn zeta. split.
    + intros [Hin | (l & Hl & Hstrip & Hentry)].
      * destruct (is_ignore_entry (Text.strip line)) eqn:He; [|auto].
        apply elem_of_union in Hin as [Hin | Hin]; [auto|].
        apply elem_of_singleton in Hin. subst x.
        right. exists line. split; [left|auto].
      * right. exists l. split; [right; exact Hl | auto].
    + intros [Hin | (l & Hl & Hstrip & Hentry)].
      * left. destruct (is_ignore_entry (Text.strip line)); [|exact Hin].
        apply elem_of_union. left. exact Hin.
      * apply elem_of_cons in Hl as [-> | Hl].
        -- left. rewrite Hstrip, Hentry. apply elem_of_union. right.
           apply elem_of_singleton. reflexivity.
        -- right. exists l. auto.
Qed.

End IgnoreFacts.

(** X4: for a file of ASCII lines, the ignore list holds exactly the
    lines of the file, stripped of surrounding whitespace, that are
    neither blank nor comments; no entry begins or ends with a
    whitespace character; and a missing file gives the empty list. *)
Theorem read_ignore_list_entries (lines : list string) (x : string) :
  Forall (fun line => Text.is_ascii line = true) lines ->
  (x ∈ read_ignore_list (Some lines) <->
   exists line,
     line ∈ lines /\ Text.strip line = x /\
     x <> EmptyString /\ String.prefix "#" x = false) /\
  (x ∈ read_ignore_list (Some lines) ->
   (forall c rest, x = String c rest -> Text.is_space c = false) /\
   (forall body c, x = body ++ String c EmptyString -> Text.is_space c = false)) /\
  read_ignore_list None = ∅.
Proof.
  intros _.
  assert (Hentry : forall y, is_ignore_entry y = true <->
                             y <> EmptyString /\ String.prefix "#" y = false).
  { intros y. unfold is_ignore_entry.
    rewrite andb_true_iff, !negb_true_iff, String.eqb_neq. reflexivity. }
  assert (Hiff : x ∈ read_ignore_list (Some lines) <->
                 exists line, line ∈ lines /\ Text.strip line = x /\
                              x <> EmptyString /\ String.prefix "#" x = false).
  { unfold read_ignore_list. rewrite ignore_loop_elem. split.
    - intros [Hin | (line & Hin & Hstrip & He)]; [set_solver|].
      exists line. rewrite <- Hentry. auto.
    - intros (line & Hin & Hstrip & He). right. exists line. rewrite Hentry. auto. }
  split; [exact Hiff|]. split; [|reflexivity].
  intros Hin. apply Hiff in Hin as (line & _ & <- & _). split.
  - intros c rest Hx. eapply strip_first, Hx.
  - intros body c Hx. eapply strip_last, Hx.
Qed.

(** X4 at a file with a comment, a blank line and two entries, one of
    them indented: [.sleep_stage] is in the list. *)
Lemma read_ignore_list_entries_witness :
  ".sleep_stage" ∈ read_ignore_list (Some Cases.ignore_file).
Proof.
  destruct (read_ignore_list_entries Cases.ignore_file ".sleep_stage") as [Hiff _].
  - repeat (apply List.Forall_cons; [reflexivity|]). apply List.Forall_nil.
  - apply Hiff.
    exists ("  .sleep_stage  " ++ String Py.newline EmptyString).
    split; [|split; [vm_compute; reflexivity | split; [discriminate | reflexivity]]].
    right. right. left.
Defined.

(* ===================================================================== *)
(** ** Further properties: the flat catalog and the log of the filters *)
(* ===================================================================== *)

Section FlatFacts.

Variable reason : string -> option string.

Lemma flat_loop_names csv_paths :
  (flat_loop reason csv_paths).1 =
  (fun file_path => clean_csv_name (path_name file_path)) <$>
    filter (fun file_path => reason file_path = None) csv_paths.
Proof.
  induction csv_paths as [|file_path rest IH]; [reflexivity|].
  cbn [flat_loop]. destruct (flat_loop reason rest) as [names msgs]. cbn [fst] in IH.
  rewrite filter_cons. destruct (reason file_path) as [t|] eqn:Hr; cbn [fst].
  - rewrite decide_False by congruence. exact IH.
  - rewrite decide_True by reflexivity. rewrite fmap_cons, IH. reflexivity.
Qed.

Lemma flat_loop_log csv_paths :
  (flat_loop reason csv_paths).2 =
  omap (fun file_path =>
          (fun message_type => (message_type, clean_csv_name (path_name file_path)))
            <$> reason file_path) csv_paths.
Proof.
  induction csv_paths as [|file_path rest IH]; [reflexivity|].
  cbn [flat_loop omap list_omap]. destruct (flat_loop reason rest) as [names msgs].
  cbn [snd] in IH. destruct (reason file_path) as [t|]; cbn; rewrite IH; reflexivity.
Qed.

Lemma hierarchical_loop_log csv_paths :
  forall categories,
    (hierarchical_loop reason categories csv_paths).2 =
    omap (fun file_path =>
            (fun message_type => (message_type, clean_csv_name (path_name file_path)))
              <$> reason file_path) csv_paths.
Proof.
  induction csv_paths as [|file_path rest IH]; intros categories; [reflexivity|].
  cbn [hierarchical_loop omap list_omap].
  destruct (reason file_path) as [t|]; cbn.
  - specialize (IH categories).
    destruct (hierarchical_loop reason categories rest) as [result msgs].
    cbn [snd] in *. rewrite IH. reflexivity.
  - apply IH.
Qed.

End FlatFacts.

(** The flat result in terms of the decision of the filters. *)
Lemma get_cleaned_csv_names_flat
    (read_csv : string -> option DataFrame) (csv_paths : list string)
    (filter_ignored : bool) (ignore_list : gset string)
    (filter_empty filter_config : bool) (configured_csvs : gset string) :
  (get_cleaned_csv_names read_csv csv_paths filter_ignored ignore_list false
     filter_empty filter_config configured_csvs).1 =
  FlatList
    ((fun file_path => clean_csv_name (path_name file_path)) <$>
       filter (fun file_path =>
                 filter_reason read_csv filter_ignored filter_empty filter_config
                   (if filter_ignored then ignore_list else ∅)
                   (if filter_config then configured_csvs else ∅) file_path = None)
              csv_paths).
Proof.
  unfold get_cleaned_csv_names, build_catalog.
  rewrite <- flat_loop_names.
  destruct (flat_loop _ csv_paths) as [names msgs]. reflexivity.
Qed.

(** X5: with [hierarchical=False] the result is the list of the cleaned
    names of the files that none of the three filters rejects, in the
    order of the input, a name once for each file that has it. *)
Theorem flat_catalog_lists_unfiltered_files
    (read_csv : string -> option DataFrame) (csv_paths : list string)
    (filter_ignored : bool) (ignore_list : gset string)
    (filter_empty filter_config : bool) (configured_csvs : gset string) :
  (get_cleaned_csv_names read_csv csv_paths filter_ignored ignore_list false
     filter_empty filter_config configured_csvs).1 =
  FlatList
    ((fun file_path => clean_csv_name (path_name file_path)) <$>
       filter (fun file_path =>
                 filter_reason read_csv filter_ignored filter_empty filter_config
                   (if filter_ignored then ignore_list else ∅)
                   (if filter_config then configured_csvs else ∅) file_path = None)
              csv_paths).
Proof.
  unfold get_cleaned_csv_names, build_catalog.
  rewrite <- flat_loop_names.
  destruct (flat_loop _ csv_paths) as [names msgs]. reflexivity.
Qed.

Lemma filter_reason_is_filter_entry read_csv filter_ignored filter_empty filter_config
    ignore_set enabled_csvs file_path message_type name :
  filter_reason read_csv filter_ignored filter_empty filter_config ignore_set enabled_csvs
    file_path = Some message_type ->
  is_filter_entry (message_type, name) = true.
Proof.
  unfold filter_reason.
  destruct (filter_ignored && _); [intros [= <-]; reflexivity|].
  destruct (filter_empty && _); [intros [= <-]; reflexivity|].
  destruct (filter_config && _ && _); [intros [= <-]; reflexivity | discriminate].
Qed.

Lemma enabled_message_no_filter_entry filter_config enabled_csvs :
  List.filter is_filter_entry (enabled_message filter_config enabled_csvs) = [].
Proof.
  unfold enabled_message. destruct filter_config; [|reflexivity].
  case_bool_decide; reflexivity.
Qed.

Lemma filter_entries_of_rejected_files read_csv filter_ignored filter_empty filter_config
    ignore_set enabled_csvs csv_paths :
  List.filter is_filter_entry
    (omap (fun file_path =>
             (fun message_type => (message_type, clean_csv_name (path_name file_path)))
               <$> filter_reason read_csv filter_ignored filter_empty filter_config
                     ignore_set enabled_csvs file_path)
          csv_paths) =
  omap (fun file_path =>
          (fun message_type => (message_type, clean_csv_name (path_name file_path)))
            <$> filter_reason read_csv filter_ignored filter_empty filter_config
                  ignore_set enabled_csvs file_path)
       csv_paths.
Proof.
  induction csv_paths as [|file_path rest IH]; [reflexivity|].
  cbn [omap list_omap].
  destruct (filter_reason _ _ _ _ _ _ file_path) as [message_type|] eqn:Hreason;
    cbn [fmap option_fmap option_map]; [|exact IH].
  cbn [List.filter].
  rewrite (filter_reason_is_filter_entry _ _ _ _ _ _ _ _ _ Hreason).
  f_equal. exact IH.
Qed.

(** X6: in either mode the entries of the log whose type is
    [filtered_ignored], [filtered_empty] or [filtered_not_in_config]
    are, in the order of the input, one for each rejected file and none
    for the others: the reason of the first filter that rejects the
    file, with the file's cleaned name.  (Entries of other types, such
    as those that [csv_has_data] writes for each file it looks at, are
    not counted.) *)
Theorem catalog_log_names_each_rejected_file
    (read_csv : string -> option DataFrame) (csv_paths : list string)
    (filter_ignored : bool) (ignore_list : gset string) (hierarchical : bool)
    (filter_empty filter_config : bool) (configured_csvs : gset string) :
  List.filter is_filter_entry
    (get_cleaned_csv_names read_csv csv_paths filter_ignored ignore_list hierarchical
       filter_empty filter_config configured_csvs).2 =
  omap (fun file_path =>
          (fun message_type => (message_type, clean_csv_name (path_name file_path)))
            <$> filter_reason read_csv filter_ignored filter_empty filter_config
                  (if filter_ignored then ignore_list else ∅)
                  (if filter_config then configured_csvs else ∅) file_path)
       csv_paths.
Proof.
  assert (Hlog : (get_cleaned_csv_names read_csv csv_paths filter_ignored ignore_list
                    hierarchical filter_empty filter_config configured_csvs).2 =
                 (enabled_message filter_config
                    (if filter_config then configured_csvs else ∅) ++
                  omap (fun file_path =>
                          (fun message_type =>
                             (message_type, clean_csv_name (path_name file_path)))
                            <$> filter_reason read_csv filter_ignored filter_empty
                                  filter_config
                                  (if filter_ignored then ignore_list else ∅)
                                  (if filter_config then configured_csvs else ∅)
                                  file_path)
                       csv_paths)%list).
  { unfold get_cleaned_csv_names, build_catalog. destruct hierarchical.
    - rewrite <- (hierarchical_loop_log _ csv_paths ∅).
      destruct (hierarchical_loop _ ∅ csv_paths) as [categories msgs]. reflexivity.
    - rewrite <- flat_loop_log.
      destruct (flat_loop _ csv_paths) as [names msgs]. reflexivity. }
  rewrite Hlog, List.filter_app, enabled_message_no_filter_entry.
  apply filter_entries_of_rejected_files.
Qed.

(** X7: a name in the flat list is not in the ignore list when ignored
    names are filtered, belongs to a non-empty enabled set when the
    configuration filter is on, and is the cleaned name of a file of the
    input, one that has data when empty files are filtered. *)
Theorem flat_catalog_respects_filters
    (read_csv : string -> option DataFrame) (csv_paths : list string)
    (filter_ignored : bool) (ignore_list : gset string)
    (filter_empty filter_config : bool) (configured_csvs : gset string)
    (cleaned_names : list string) (name : string) :
  (get_cleaned_csv_names read_csv csv_paths filter_ignored ignore_list false
     filter_empty filter_config configured_csvs).1 = FlatList cleaned_names ->
  name ∈ cleaned_names ->
  (filter_ignored = true -> name ∉ ignore_list) /\
  (filter_config = true -> configured_csvs <> ∅ -> name ∈ configured_csvs) /\
  exists file_path,
    file_path ∈ csv_paths /\ clean_csv_name (path_name file_path) = name /\
    (filter_empty = true -> csv_has_data read_csv file_path 10 = true).
Proof.
  rewrite get_cleaned_csv_names_flat. intros [= <-] Hin.
  apply list_elem_of_fmap in Hin as (file_path & -> & Hin).
  apply list_elem_of_filter in Hin as [Hreason Hin].
  unfold filter_reason in Hreason.
  destruct (filter_ignored && _) eqn:Hignored; [discriminate|].
  destruct (filter_empty && _) eqn:Hempty; [discriminate|].
  destruct (filter_config && _ && _) eqn:Hconfig; [discriminate|].
  split; [|split].
  - intros ->. cbn in Hignored. apply bool_decide_eq_false in Hignored. exact Hignored.
  - intros -> Hne. cbn in Hconfig.
    rewrite (bool_decide_eq_false_2 (configured_csvs = ∅)) in Hconfig by exact Hne.
    cbn in Hconfig. apply negb_false_iff, bool_decide_eq_true in Hconfig. exact Hconfig.
  - exists file_path. split; [exact Hin|]. split; [reflexivity|].
    intros ->. cbn in Hempty. apply negb_false_iff in Hempty. exact Hempty.
Qed.

(* ===================================================================== *)
(** ** Further properties: the hierarchical catalog *)
(* ===================================================================== *)

Section HierarchyFacts.

Lemma insert_string_perm x l : Permutation (x :: l) (insert_string x l).
Proof.
  induction l as [|y l IH]; cbn [insert_string]; [reflexivity|].
  destruct (String.leb x y); [reflexivity|].
  rewrite perm_swap. apply perm_skip, IH.
Qed.

Lemma sort_strings_perm l : Permutation l (sort_strings l).
Proof.
  unfold sort_strings. induction l as [|x l IH]; [reflexivity|].
  cbn [foldr]. rewrite <- insert_string_perm. apply perm_skip, IH.
Qed.

Lemma insert_string_sorted x l :
  Sorted (fun a b => String.leb a b = true) l ->
  Sorted (fun a b => String.leb a b = true) (insert_string x l).
Proof.
  induction 1 as [|y l Hsorted IH Hhd]; cbn [insert_string].
  - repeat constructor.
  - destruct (String.leb x y) eqn:Hle.
    + constructor; [constructor; assumption|]. constructor. exact Hle.
    + constructor; [exact IH|].
      assert (Hyx : String.leb y x = true).
      { destruct (String.leb_total x y) as [H | H]; [congruence | exact H]. }
      destruct l as [|z l]; cbn [insert_string].
      * constructor. exact Hyx.
      * destruct (String.leb x z); constructor; [exact Hyx|].
        inversion Hhd. assumption.
Qed.

Lemma sort_strings_sorted l :
  Sorted (fun a b => String.leb a b = true) (sort_strings l).
Proof.
  unfold sort_strings. induction l as [|x l IH]; [constructor|].
  cbn [foldr]. apply insert_string_sorted, IH.
Qed.

Lemma elem_of_sort_strings x l : x ∈ sort_strings l <-> x ∈ l.
Proof. rewrite <- (sort_strings_perm l). reflexivity. Qed.

(** Adding a name touches the entry of its category only ... *)
Lemma add_to_categories_other (categories : gmap string Category) name category :
  category <> (classify name).1 ->
  add_to_categories categories name !! category = categories !! category.
Proof.
  intros Hne. unfold add_to_categories.
  destruct (classify name) as [c [|subcategory]]; cbn [fst] in Hne.
  - apply lookup_insert_ne. congruence.
  - case_bool_decide; apply lookup_insert_ne; congruence.
Qed.

(** ... and what it puts there: the old entry with, at most, the name or
    its subcategory appended. *)
Lemma add_to_categories_same (categories : gmap string Category) name :
  add_to_categories categories name !! (classify name).1 =
  Some
    (let entry := default (mkCategory [] []) (categories !! (classify name).1) in
     match (classify name).2 with
     | DirectFile => mkCategory (subcategories entry) (files entry ++ [name])
     | Subcategory subcategory =>
         if bool_decide (subcategory ∈ subcategories entry) then entry
         else mkCategory (subcategories entry ++ [subcategory]) (files entry)
     end).
Proof.
  unfold add_to_categories.
  destruct (classify name) as [c [|subcategory]]; cbn [fst snd].
  - apply lookup_insert_eq.
  - case_bool_decide; apply lookup_insert_eq.
Qed.

(** Nothing recorded is ever removed. *)
Lemma add_to_categories_grows (categories : gmap string Category) name category entry :
  categories !! category = Some entry ->
  exists entry',
    add_to_categories categories name !! category = Some entry' /\
    (forall x, x ∈ files entry -> x ∈ files entry') /\
    (forall x, x ∈ subcategories entry -> x ∈ subcategories entry').
Proof.
  intros Hentry.
  destruct (decide (category = (classify name).1)) as [-> | Hne].
  - rewrite add_to_categories_same, Hentry. cbn [default].
    eexists. split; [reflexivity|].
    destruct (classify name).2 as [|subcategory]; cbn.
    + split; [|auto]. intros x Hx. apply elem_of_app. auto.
    + case_bool_decide; cbn; split; auto.
      intros x Hx. apply elem_of_app. auto.
  - rewrite add_to_categories_other by exact Hne. eauto.
Qed.

Variable reason : string -> option string.

(** The loop keeps what the categories held when it started. *)
Lemma hierarchical_loop_grows csv_paths :
  forall (categories : gmap string Category) category entry,
    categories !! category = Some entry ->
    exists entry',
      (hierarchical_loop reason categories csv_paths).1 !! category = Some entry' /\
      (forall x, x ∈ files entry -> x ∈ files entry') /\
      (forall x, x ∈ subcategories entry -> x ∈ subcategories entry').
Proof.
  induction csv_paths as [|file_path rest IH]; intros categories category entry Hentry.
  - exists entry. cbn. auto.
  - cbn [hierarchical_loop]. destruct (reason file_path).
    + destruct (IH categories category entry Hentry) as (e' & He' & Hf & Hs).
      destruct (hierarchical_loop reason categories rest). eauto.
    + destruct (add_to_categories_grows categories
                  (clean_csv_name (path_name file_path)) category entry Hentry)
        as (e1 & He1 & Hf1 & Hs1).
      destruct (IH _ category e1 He1) as (e2 & He2 & Hf2 & Hs2).
      exists e2. split; [exact He2|]. split; auto.
Qed.

(** A file that no filter rejects is recorded. *)
Lemma hierarchical_loop_records csv_paths file_path :
  file_path ∈ csv_paths -> reason file_path = None ->
  forall categories : gmap string Category,
  exists entry,
    (hierarchical_loop reason categories csv_paths).1
      !! (classify (clean_csv_name (path_name file_path))).1 = Some entry /\
    match (classify (clean_csv_name (path_name file_path))).2 with
    | DirectFile => clean_csv_name (path_name file_path) ∈ files entry
    | Subcategory subcategory => subcategory ∈ subcategories entry
    end.
Proof.
  intros Hin Hkept.
  induction csv_paths as [|q rest IH]; [inversion Hin|]. intros categories.
  cbn [hierarchical_loop].
  apply elem_of_cons in Hin as [<- | Hin].
  - rewrite Hkept.
    pose proof (add_to_categories_same categories
                  (clean_csv_name (path_name file_path))) as Hsame.
    destruct (hierarchical_loop_grows rest _ _ _ Hsame) as (e' & He' & Hf & Hs).
    exists e'. split; [exact He'|].
    destruct (classify (clean_csv_name (path_name file_path))).2 as [|subcategory].
    + apply Hf. cbn. apply elem_of_app. right. left.
    + apply Hs. cbn. case_bool_decide as Hsub; [exact Hsub|].
      cbn. apply elem_of_app. right. left.
  - destruct (reason q).
    + destruct (IH Hin categories) as (e & He & Hrec).
      destruct (hierarchical_loop reason categories rest). eauto.
    + apply IH, Hin.
Qed.

End HierarchyFacts.

(** X8: with [hierarchical=True] every file that none of the three
    filters rejects is recorded in the result: under the category of its
    cleaned name there is an entry whose files hold the name, or whose
    subcategories hold the name's subcategory. *)
Theorem hierarchy_records_unfiltered_files
    (read_csv : string -> option DataFrame) (csv_paths : list string)
    (filter_ignored : bool) (ignore_list : gset string)
    (filter_empty filter_config : bool) (configured_csvs : gset string)
    (categories : gmap string Category) (file_path : string) :
  (get_cleaned_csv_names read_csv csv_paths filter_ignored ignore_list true
     filter_empty filter_config configured_csvs).1 = Hierarchy categories ->
  file_path ∈ csv_paths ->
  filter_reason read_csv filter_ignored filter_empty filter_config
    (if filter_ignored then ignore_list else ∅)
    (if filter_config then configured_csvs else ∅) file_path = None ->
  exists entry,
    categories !! (classify (clean_csv_name (path_name file_path))).1 = Some entry /\
    match (classify (clean_csv_name (path_name file_path))).2 with
    | DirectFile => clean_csv_name (path_name file_path) ∈ files entry
    | Subcategory subcategory => subcategory ∈ subcategories entry
    end.
Proof.
  unfold get_cleaned_csv_names, build_catalog. intros Hcat Hin Hkept.
  destruct (hierarchical_loop_records _ csv_paths file_path Hin Hkept ∅)
    as (entry & Hentry & Hrec).
  destruct (hierarchical_loop _ ∅ csv_paths) as [built msgs].
  cbn [fst] in *. injection Hcat as <-.
  exists (mkCategory (sort_strings (subcategories entry)) (sort_strings (files entry))).
  split.
  - unfold sort_categories. rewrite lookup_fmap, Hentry. reflexivity.
  - destruct (classify (clean_csv_name (path_name file_path))).2;
      cbn; apply elem_of_sort_strings, Hrec.
Qed.

Section HierarchyInvariant.

(** [kept name]: the name is the cleaned name of a file that is
    processed and not rejected. *)
Variable kept : string -> Prop.

Lemma sound_empty : catalog_sound kept ∅.
Proof. intros category entry H. rewrite lookup_empty in H. discriminate. Qed.

Lemma add_to_categories_sound (categories : gmap string Category) name :
  catalog_sound kept categories -> kept name ->
  catalog_sound kept (add_to_categories categories name).
Proof.
  intros Hsound Hkept category entry.
  destruct (decide (category = (classify name).1)) as [-> | Hne];
    [|rewrite add_to_categories_other by exact Hne; apply Hsound].
  rewrite add_to_categories_same. intros [= <-].
  assert (Hold : forall old,
             default (mkCategory [] []) (categories !! (classify name).1) = old ->
             (forall n, n ∈ files old ->
                        kept n /\ classify n = ((classify name).1, DirectFile)) /\
             (forall sub, sub ∈ subcategories old ->
                          exists n, kept n /\
                                    classify n = ((classify name).1, Subcategory sub)) /\
             NoDup (subcategories old)).
  { intros old <-. destruct (categories !! (classify name).1) as [e|] eqn:He.
    - apply (Hsound _ _ He).
    - cbn. split; [|split].
      + intros x Hx. inversion Hx.
      + intros x Hx. inversion Hx.
      + apply NoDup_nil_2. }
  destruct (Hold _ eq_refl) as (Hfiles & Hsubs & Hnodup).
  cbn zeta.
  destruct (classify name) as [c placement] eqn:Hclass. cbn [fst snd] in *.
  destruct placement as [|subcategory]; cbn.
  - split; [|split; assumption].
    intros n [Hn | Hn]%elem_of_app; [apply Hfiles, Hn|].
    apply list_elem_of_singleton in Hn. subst n. split; [exact Hkept | exact Hclass].
  - case_bool_decide as Hin; cbn; [split; [|split]; assumption|].
    split; [exact Hfiles|]. split.
    + intros sub [Hsub | Hsub]%elem_of_app; [apply Hsubs, Hsub|].
      apply list_elem_of_singleton in Hsub. subst sub. exists name. split; assumption.
    + apply NoDup_app. split; [exact Hnodup|]. split.
      * intros x Hx Hx'. apply list_elem_of_singleton in Hx'. subst x. contradiction.
      * apply NoDup_singleton.
Qed.

Lemma hierarchical_loop_sound reason csv_paths :
  (forall file_path,
     file_path ∈ csv_paths -> reason file_path = None ->
     kept (clean_csv_name (path_name file_path))) ->
  forall categories, catalog_sound kept categories ->
                     catalog_sound kept (hierarchical_loop reason categories csv_paths).1.
Proof.
  induction csv_paths as [|file_path rest IH]; intros Hkept categories Hsound;
    [exact Hsound|].
  cbn [hierarchical_loop].
  assert (Hrest : forall q, q ∈ rest -> reason q = None ->
                            kept (clean_csv_name (path_name q))).
  { intros q Hq. apply Hkept. right. exact Hq. }
  destruct (reason file_path) eqn:Hr.
  - specialize (IH Hrest categories Hsound).
    destruct (hierarchical_loop reason categories rest). exact IH.
  - apply (IH Hrest). apply add_to_categories_sound; [exact Hsound|].
    apply Hkept; [left | exact Hr].
Qed.

Lemma sort_categories_sound categories :
  catalog_sound kept categories -> catalog_sound kept (sort_categories categories).
Proof.
  intros Hsound category entry. unfold sort_categories. rewrite lookup_fmap.
  destruct (categories !! category) as [e|] eqn:He; [|discriminate].
  cbn. intros [= <-]. destruct (Hsound _ _ He) as (Hfiles & Hsubs & Hnodup). cbn.
  split; [|split].
  - intros n Hn. apply Hfiles, elem_of_sort_strings, Hn.
  - intros sub Hsub. apply Hsubs, elem_of_sort_strings, Hsub.
  - rewrite <- (sort_strings_perm (subcategories e)). exact Hnodup.
Qed.

Lemma sort_categories_sorted categories category entry :
  sort_categories categories !! category = Some entry ->
  Sorted (fun a b => String.leb a b = true) (files entry) /\
  Sorted (fun a b => String.leb a b = true) (subcategories entry).
Proof.
  unfold sort_categories. rewrite lookup_fmap.
  destruct (categories !! category) as [e|]; [|discriminate].
  cbn. intros [= <-]. cbn. split; apply sort_strings_sorted.
Qed.

(** The invariant at the end of the hierarchical mode. *)
Lemma build_catalog_sound reason csv_paths categories :
  (forall file_path,
     file_path ∈ csv_paths -> reason file_path = None ->
     kept (clean_csv_name (path_name file_path))) ->
  (build_catalog reason true csv_paths).1 = Hierarchy categories ->
  catalog_sound kept categories.
Proof.
  intros Hkept. unfold build_catalog.
  pose proof (hierarchical_loop_sound reason csv_paths Hkept ∅ sound_empty) as Hloop.
  destruct (hierarchical_loop reason ∅ csv_paths) as [built msgs].
  cbn [fst] in *. intros [= <-]. apply sort_categories_sound, Hloop.
Qed.

End HierarchyInvariant.

Lemma get_cleaned_csv_names_catalog read_csv csv_paths filter_ignored ignore_list
    hierarchical filter_empty filter_config configured_csvs :
  (get_cleaned_csv_names read_csv csv_paths filter_ignored ignore_list hierarchical
     filter_empty filter_config configured_csvs).1 =
  (build_catalog
     (filter_reason read_csv filter_ignored filter_empty filter_config
        (if filter_ignored then ignore_list else ∅)
        (if filter_config then configured_csvs else ∅))
     hierarchical csv_paths).1.
Proof.
  unfold get_cleaned_csv_names. destruct (build_catalog _ hierarchical csv_paths).
  reflexivity.
Qed.

(** X9: the hierarchical result records nothing else: a name among the
    files of a category is the cleaned name, with zero or one dot, of a
    file that no filter rejects, and that category is the one of the
    name; a subcategory of a category comes from such a file whose
    cleaned name has that category and that subcategory. *)
Theorem hierarchy_records_only_unfiltered_files
    (read_csv : string -> option DataFrame) (csv_paths : list string)
    (filter_ignored : bool) (ignore_list : gset string)
    (filter_empty filter_config : bool) (configured_csvs : gset string)
    (categories : gmap string Category) (category : string) (entry : Category) :
  (get_cleaned_csv_names read_csv csv_paths filter_ignored ignore_list true
     filter_empty filter_config configured_csvs).1 = Hierarchy categories ->
  categories !! category = Some entry ->
  (forall name,
     name ∈ files entry ->
     classify name = (category, DirectFile) /\
     exists file_path,
       file_path ∈ csv_paths /\
       filter_reason read_csv filter_ignored filter_empty filter_config
         (if filter_ignored then ignore_list else ∅)
         (if filter_config then configured_csvs else ∅) file_path = None /\
       clean_csv_name (path_name file_path) = name) /\
  (forall subcategory,
     subcategory ∈ subcategories entry ->
     exists file_path,
       file_path ∈ csv_paths /\
       filter_reason read_csv filter_ignored filter_empty filter_config
         (if filter_ignored then ignore_list else ∅)
         (if filter_config then configured_csvs else ∅) file_path = None /\
       classify (clean_csv_name (path_name file_path)) =
       (category, Subcategory subcategory)).
Proof.
  rewrite get_cleaned_csv_names_catalog.
  set (reason := filter_reason read_csv filter_ignored filter_empty filter_config
                   (if filter_ignored then ignore_list else ∅)
                   (if filter_config then configured_csvs else ∅)).
  intros Hcat Hentry.
  pose proof (build_catalog_sound
                (fun name =>
                   exists file_path,
                     file_path ∈ csv_paths /\ reason file_path = None /\
                     clean_csv_name (path_name file_path) = name)
                reason csv_paths categories) as Hsound.
  destruct (Hsound (fun file_path Hin Hr => ex_intro _ file_path
                                              (conj Hin (conj Hr eq_refl)))
              Hcat category entry Hentry) as (Hfiles & Hsubs & _).
  split.
  - intros name Hname. destruct (Hfiles name Hname) as [Hkept Hclass]. auto.
  - intros subcategory Hsub.
    destruct (Hsubs subcategory Hsub) as (name & (file_path & Hin & Hr & <-) & Hclass).
    eauto.
Qed.

(** X10: in the hierarchical result the files and the subcategories of
    every category are in ascending order, and no subcategory is listed
    twice. *)
Theorem hierarchy_entries_sorted_distinct
    (read_csv : string -> option DataFrame) (csv_paths : list string)
    (filter_ignored : bool) (ignore_list : gset string)
    (filter_empty filter_config : bool) (configured_csvs : gset string)
    (categories : gmap string Category) (category : string) (entry : Category) :
  (get_cleaned_csv_names read_csv csv_paths filter_ignored ignore_list true
     filter_empty filter_config configured_csvs).1 = Hierarchy categories ->
  categories !! category = Some entry ->
  Sorted (fun a b => String.leb a b = true) (files entry) /\
  Sorted (fun a b => String.leb a b = true) (subcategories entry) /\
  NoDup (subcategories entry).
Proof.
  rewrite get_cleaned_csv_names_catalog.
  set (reason := filter_reason read_csv filter_ignored filter_empty filter_config
                   (if filter_ignored then ignore_list else ∅)
                   (if filter_config then configured_csvs else ∅)).
  intros Hcat Hentry.
  pose proof (build_catalog_sound (fun _ => True) reason csv_paths categories
                (fun _ _ _ => I) Hcat category entry Hentry) as (_ & _ & Hnodup).
  unfold build_catalog in Hcat.
  destruct (hierarchical_loop reason ∅ csv_paths) as [built msgs].
  cbn [fst] in Hcat. injection Hcat as <-.
  destruct (sort_categories_sorted built category entry Hentry) as [Hf Hs].
  auto.
Qed.

(** A dump with a sleep, a heart-rate and a badge export, the badge
    ignored: the catalog of X8, X9 and X10. *)
Lemma hierarchy_records_unfiltered_files_witness :
  exists entry,
    (<[ ".tracker" := mkCategory ["heart_rate"] [] ]>
       {[ "" := mkCategory [] [".sleep"] ]} : gmap string Category)
      !! ".tracker" = Some entry /\
    "heart_rate" ∈ subcategories entry.
Proof.
  apply (hierarchy_records_unfiltered_files
           (fun _ => None) Cases.dump_paths true {[ ".badge" ]} false false ∅
           (<[ ".tracker" := mkCategory ["heart_rate"] [] ]>
              {[ "" := mkCategory [] [".sleep"] ]})
           "Samsung Health/dump/com.samsung.shealth.tracker.heart_rate.20230101.csv").
  - vm_compute. reflexivity.
  - right. left.
  - vm_compute. reflexivity.
Defined.

Lemma hierarchy_records_only_unfiltered_files_witness :
  (forall name,
     name ∈ [".sleep"] ->
     classify name = ("", DirectFile) /\
     exists file_path,
       file_path ∈ Cases.dump_paths /\
       filter_reason (fun _ => None) true false false {[ ".badge" ]} ∅ file_path = None /\
       clean_csv_name (path_name file_path) = name) /\
  (forall subcategory,
     subcategory ∈ [] ->
     exists file_path,
       file_path ∈ Cases.dump_paths /\
       filter_reason (fun _ => None) true false false {[ ".badge" ]} ∅ file_path = None /\
       classify (clean_csv_name (path_name file_path)) = ("", Subcategory subcategory)).
Proof.
  apply (hierarchy_records_only_unfiltered_files
           (fun _ => None) Cases.dump_paths true {[ ".badge" ]} false false ∅
           (<[ ".tracker" := mkCategory ["heart_rate"] [] ]>
              {[ "" := mkCategory [] [".sleep"] ]})
           "" (mkCategory [] [".sleep"])).
  - vm_compute. reflexivity.
  - vm_compute. reflexivity.
Defined.

Lemma hierarchy_entries_sorted_distinct_witness :
  Sorted (fun a b => String.leb a b = true) [".sleep"] /\
  Sorted (fun a b => String.leb a b = true) [] /\
  NoDup ([] : list string).
Proof.
  apply (hierarchy_entries_sorted_distinct
           (fun _ => None) Cases.dump_paths true {[ ".badge" ]} false false ∅
           (<[ ".tracker" := mkCategory ["heart_rate"] [] ]>
              {[ "" := mkCategory [] [".sleep"] ]})
           "" (mkCategory [] [".sleep"])).
  - vm_compute. reflexivity.
  - vm_compute. reflexivity.
Defined.

(** The flat list of the same dump with the sleep and heart-rate
    exports enabled: X7 at ".sleep". *)
Lemma flat_catalog_respects_filters_witness :
  (true = true -> ".sleep" ∉ ({[ ".badge" ]} : gset string)) /\
  (true = true ->
   ({[ ".sleep"; ".tracker.heart_rate" ]} : gset string) <> ∅ ->
   ".sleep" ∈ ({[ ".sleep"; ".tracker.heart_rate" ]} : gset string)) /\
  exists file_path,
    file_path ∈ Cases.dump_paths /\ clean_csv_name (path_name file_path) = ".sleep" /\
    (false = true -> csv_has_data (fun _ => None) file_path 10 = true).
Proof.
  apply (flat_catalog_respects_filters
           (fun _ => None) Cases.dump_paths true {[ ".badge" ]} false true
           {[ ".sleep"; ".tracker.heart_rate" ]} [".sleep"; ".tracker.heart_rate"]).
  - vm_compute. reflexivity.
  - left.
Defined.

(* ===================================================================== *)
(** ** Further properties: the summary of the catalog *)
(* ===================================================================== *)

Section TotalFacts.

Lemma total_files_insert (categories : gmap string Category) category entry :
  total_files (<[category := entry]> categories) +
  category_total (default (mkCategory [] []) (categories !! category)) =
  total_files categories + category_total entry.
Proof.
  unfold total_files.
  destruct (categories !! category) as [old|] eqn:Hold; cbn [default].
  - rewrite <- insert_delete_eq.
    rewrite map_fold_insert_L; [|intros; lia | apply lookup_delete_eq].
    rewrite (map_fold_delete_L _ _ category old categories);
      [unfold id; lia | intros; lia | exact Hold].
  - rewrite map_fold_insert_L; [cbn; lia | intros; lia | exact Hold].
Qed.

(** One name adds at most one to the total. *)
Lemma add_to_categories_total (categories : gmap string Category) name :
  total_files (add_to_categories categories name) <= S (total_files categories).
Proof.
  unfold add_to_categories.
  destruct (classify name) as [category [|subcategory]].
  - pose proof (total_files_insert categories category
                  (mkCategory
                     (subcategories (default (mkCategory [] []) (categories !! category)))
                     (files (default (mkCategory [] []) (categories !! category)) ++ [name])))
      as H.
    unfold category_total in H. cbn [subcategories files] in H.
    rewrite length_app in H. cbn [length] in H. lia.
  - case_bool_decide as Hdup.
    + pose proof (total_files_insert categories category
                    (default (mkCategory [] []) (categories !! category))) as Hsum.
      lia.
    + pose proof (total_files_insert categories category
                    (mkCategory
                       (subcategories (default (mkCategory [] []) (categories !! category))
                          ++ [subcategory])
                       (files (default (mkCategory [] []) (categories !! category)))))
        as Hsum.
      unfold category_total in Hsum. cbn [subcategories files] in Hsum.
      rewrite length_app in Hsum. cbn [length] in Hsum. lia.
Qed.

Lemma hierarchical_loop_total reason csv_paths :
  forall categories : gmap string Category,
    total_files (hierarchical_loop reason categories csv_paths).1 <=
    total_files categories +
    length (filter (fun file_path => reason file_path = None) csv_paths).
Proof.
  induction csv_paths as [|file_path rest IH]; intros categories; [cbn; lia|].
  cbn [hierarchical_loop]. rewrite filter_cons.
  destruct (reason file_path) eqn:Hr.
  - rewrite decide_False by congruence. specialize (IH categories).
    destruct (hierarchical_loop reason categories rest). exact IH.
  - rewrite decide_True by reflexivity. cbn [length].
    specialize (IH (add_to_categories categories (clean_csv_name (path_name file_path)))).
    pose proof (add_to_categories_total categories
                  (clean_csv_name (path_name file_path))).
    lia.
Qed.

Lemma sort_categories_total categories :
  total_files (sort_categories categories) = total_files categories.
Proof.
  unfold total_files, sort_categories.
  rewrite map_fold_fmap, !map_fold_foldr.
  induction (map_to_list categories) as [|[category entry] l IH]; [reflexivity|].
  cbn. rewrite IH. unfold category_total. cbn.
  rewrite <- (Permutation_length (sort_strings_perm (subcategories entry))).
  rewrite <- (Permutation_length (sort_strings_perm (files entry))). reflexivity.
Qed.

End TotalFacts.

(** X11: the total that [extract_data] reports for the hierarchical
    catalog never exceeds the number of files that the filters let
    through (it is smaller when two files share category and
    subcategory, which are recorded once). *)
Theorem total_files_bounded_by_unfiltered_files
    (read_csv : string -> option DataFrame) (csv_paths : list string)
    (filter_ignored : bool) (ignore_list : gset string)
    (filter_empty filter_config : bool) (configured_csvs : gset string)
    (categories : gmap string Category) :
  (get_cleaned_csv_names read_csv csv_paths filter_ignored ignore_list true
     filter_empty filter_config configured_csvs).1 = Hierarchy categories ->
  total_files categories <=
  length (filter (fun file_path =>
                    filter_reason read_csv filter_ignored filter_empty filter_config
                      (if filter_ignored then ignore_list else ∅)
                      (if filter_config then configured_csvs else ∅) file_path = None)
                 csv_paths).
Proof.
  rewrite get_cleaned_csv_names_catalog. unfold build_catalog.
  set (reason := filter_reason read_csv filter_ignored filter_empty filter_config
                   (if filter_ignored then ignore_list else ∅)
                   (if filter_config then configured_csvs else ∅)).
  pose proof (hierarchical_loop_total reason csv_paths ∅) as Hloop.
  destruct (hierarchical_loop reason ∅ csv_paths) as [built msgs].
  cbn [fst] in *. intros [= <-]. rewrite sort_categories_total.
  unfold total_files in Hloop at 2. rewrite map_fold_empty in Hloop. exact Hloop.
Qed.

(** X11 at a dump with two heart-rate exports of different dates: two
    files pass, one subcategory is counted. *)
Lemma total_files_bounded_by_unfiltered_files_witness :
  total_files ({[ ".tracker" := mkCategory ["heart_rate"] [] ]} : gmap string Category) <=
  length
    (filter (fun file_path =>
               filter_reason (fun _ => None) false false false ∅ ∅ file_path = None)
            ["dump/com.samsung.shealth.tracker.heart_rate.20230101.csv";
             "dump/com.samsung.shealth.tracker.heart_rate.20230202.csv"]).
Proof.
  apply (total_files_bounded_by_unfiltered_files
           (fun _ => None)
           ["dump/com.samsung.shealth.tracker.heart_rate.20230101.csv";
            "dump/com.samsung.shealth.tracker.heart_rate.20230202.csv"]
           false ∅ false false ∅).
  vm_compute. reflexivity.
Defined.

(* ===================================================================== *)
(** ** Further properties: the loop over the sources *)
(* ===================================================================== *)

Section SourceLoopFacts.

Variable read_csv : string -> option DataFrame.
Variable parse_timestamp : string -> option Z.
Variable outer_join : DataFrame -> DataFrame -> string -> option DataFrame.

(** The log plays no part in what a source does to the merged table and
    the key. *)
Lemma process_source_ignores_log csv_paths st st' source :
  st_combined_df st = st_combined_df st' ->
  st_merge_key st = st_merge_key st' ->
  (process_source read_csv parse_timestamp outer_join csv_paths st source).1 =
  (process_source read_csv parse_timestamp outer_join csv_paths st' source).1 /\
  st_combined_df
    (process_source read_csv parse_timestamp outer_join csv_paths st source).2 =
  st_combined_df
    (process_source read_csv parse_timestamp outer_join csv_paths st' source).2 /\
  st_merge_key
    (process_source read_csv parse_timestamp outer_join csv_paths st source).2 =
  st_merge_key
    (process_source read_csv parse_timestamp outer_join csv_paths st' source).2.
Proof.
  destruct st as [combined key log], st' as [combined' key' log'].
  cbn [st_combined_df st_merge_key]. intros <- <-.
  unfold process_source.
  destruct (find_csv_file csv_paths (csv_name source)) as [file_path|].
  - destruct (read_csv file_path) as [df|].
    + unfold process_loaded, add_log. cbn [st_combined_df st_merge_key st_log].
      destruct (prepare_source parse_timestamp source _ df) as [prepared msgs| |].
      * unfold combine, set_combined_df, source_failed, add_log.
        cbn [st_combined_df st_merge_key st_log].
        destruct combined as [table|]; [|auto].
        destruct (normalize_key parse_timestamp _ _ table) as [table' msgs'].
        destruct (outer_join table' prepared _); cbn; auto.
      * destruct (required source); cbn; auto.
      * unfold source_failed. destruct (required source); cbn; auto.
    + unfold source_failed. destruct (required source); cbn; auto.
  - destruct (required source); cbn; auto.
Qed.

Lemma process_sources_ignores_log csv_paths srcs :
  forall st st',
    st_combined_df st = st_combined_df st' ->
    st_merge_key st = st_merge_key st' ->
    st_combined_df (process_sources read_csv parse_timestamp outer_join csv_paths st srcs) =
    st_combined_df (process_sources read_csv parse_timestamp outer_join csv_paths st' srcs) /\
    st_merge_key (process_sources read_csv parse_timestamp outer_join csv_paths st srcs) =
    st_merge_key (process_sources read_csv parse_timestamp outer_join csv_paths st' srcs).
Proof.
  induction srcs as [|source rest IH]; intros st st' Hdf Hkey; [auto|].
  cbn [process_sources].
  destruct (process_source_ignores_log csv_paths st st' source Hdf Hkey)
    as (Hout & Hdf' & Hkey').
  destruct (process_source _ _ _ csv_paths st source) as [o r].
  destruct (process_source _ _ _ csv_paths st' source) as [o' r'].
  cbn [fst snd] in *. subst o'. destruct o; [apply IH|]; auto.
Qed.

(** An optional source without a usable file changes the log only, and
    the loop goes on. *)
Lemma process_source_optional_unavailable csv_paths st source :
  required source = false ->
  match find_csv_file csv_paths (csv_name source) with
  | Some file_path => read_csv file_path = None
  | None => True
  end ->
  exists msgs,
    process_source read_csv parse_timestamp outer_join csv_paths st source =
    (Continue, add_log st msgs).
Proof.
  intros Hopt Hun. unfold process_source.
  destruct (find_csv_file csv_paths (csv_name source)) as [file_path|].
  - rewrite Hun. unfold source_failed. rewrite Hopt, add_log_add_log. eauto.
  - rewrite Hopt. eauto.
Qed.

(** A source never changes a key that is set. *)
Lemma process_source_keeps_key csv_paths st source key :
  st_merge_key st = Some key ->
  st_merge_key
    (process_source read_csv parse_timestamp outer_join csv_paths st source).2 = Some key.
Proof.
  intros Hkey. unfold process_source.
  destruct (find_csv_file csv_paths (csv_name source)) as [file_path|].
  - destruct (read_csv file_path) as [df|].
    + unfold process_loaded, add_log. cbn [st_merge_key st_combined_df st_log].
      rewrite Hkey. cbn [default]. unfold id.
      destruct (prepare_source parse_timestamp source key df) as [prepared msgs| |].
      * rewrite combine_merge_key. reflexivity.
      * reflexivity.
      * reflexivity.
    + exact Hkey.
  - destruct (required source); exact Hkey.
Qed.

Lemma process_sources_keeps_key csv_paths srcs :
  forall st key,
    st_merge_key st = Some key ->
    st_merge_key (process_sources read_csv parse_timestamp outer_join csv_paths st srcs) =
    Some key.
Proof.
  induction srcs as [|source rest IH]; intros st key Hkey; [exact Hkey|].
  cbn [process_sources].
  pose proof (process_source_keeps_key csv_paths st source key Hkey) as Hstep.
  destruct (process_source _ _ _ csv_paths st source) as [[|] st']; cbn [snd] in Hstep.
  - apply IH, Hstep.
  - exact Hstep.
Qed.

(** After a source, either nothing but the log has changed, or the key
    is set: to the key met if there was one, to the source's own
    [merge_key_rename] otherwise. *)
Lemma process_source_sets_key csv_paths st source :
  (st_combined_df
     (process_source read_csv parse_timestamp outer_join csv_paths st source).2 =
   st_combined_df st /\
   st_merge_key
     (process_source read_csv parse_timestamp outer_join csv_paths st source).2 =
   st_merge_key st) \/
  st_merge_key
    (process_source read_csv parse_timestamp outer_join csv_paths st source).2 =
  Some (default (source_merge_key_rename source) (st_merge_key st)).
Proof.
  unfold process_source.
  destruct (find_csv_file csv_paths (csv_name source)) as [file_path|].
  - destruct (read_csv file_path) as [df|].
    + right. unfold process_loaded.
      destruct (prepare_source parse_timestamp source _ df) as [prepared msgs| |].
      * rewrite combine_merge_key. reflexivity.
      * reflexivity.
      * reflexivity.
    + left. split; reflexivity.
  - left. destruct (required source); split; reflexivity.
Qed.

(** The loop's invariant: a merged table comes with a key, and a key is
    the [merge_key_rename] of one of the sources. *)
Lemma process_sources_key_invariant csv_paths (all : list SourceSpec) srcs :
  (forall source, source ∈ srcs -> source ∈ all) ->
  forall st,
    (st_combined_df st <> None -> st_merge_key st <> None) ->
    (forall key, st_merge_key st = Some key ->
                 exists source, source ∈ all /\ key = source_merge_key_rename source) ->
    (st_combined_df
       (process_sources read_csv parse_timestamp outer_join csv_paths st srcs) <> None ->
     st_merge_key
       (process_sources read_csv parse_timestamp outer_join csv_paths st srcs) <> None) /\
    (forall key,
       st_merge_key
         (process_sources read_csv parse_timestamp outer_join csv_paths st srcs) = Some key ->
       exists source, source ∈ all /\ key = source_merge_key_rename source).
Proof.
  induction srcs as [|source rest IH]; intros Hall st Htable Hkey; [auto|].
  cbn [process_sources].
  assert (Hstep :
            (st_combined_df
               (process_source read_csv parse_timestamp outer_join csv_paths st source).2
             <> None ->
             st_merge_key
               (process_source read_csv parse_timestamp outer_join csv_paths st source).2
             <> None) /\
            (forall key,
               st_merge_key
                 (process_source read_csv parse_timestamp outer_join csv_paths st source).2
               = Some key ->
               exists src, src ∈ all /\ key = source_merge_key_rename src)).
  { destruct (process_source_sets_key csv_paths st source) as [[Hdf Hk] | Hk].
    - rewrite Hdf, Hk. auto.
    - rewrite Hk. split; [discriminate|]. intros key [= <-].
      destruct (st_merge_key st) as [k|] eqn:Hst; cbn [default].
      + apply Hkey. reflexivity.
      + exists source. split; [apply Hall; left | reflexivity]. }
  destruct (process_source _ _ _ csv_paths st source) as [[|] st']; cbn [snd] in Hstep.
  - apply IH; [intros src Hsrc; apply Hall; right; exact Hsrc | apply Hstep | apply Hstep].
  - exact Hstep.
Qed.

End SourceLoopFacts.

(** X12: an optional source that has no file, or whose file cannot be
    read, is skipped: the merged table and the merge key with which the
    loop over the sources ends are those it ends with when the source is
    not listed at all. *)
Theorem optional_source_without_file_is_skipped
    (read_csv : string -> option DataFrame) (parse_timestamp : string -> option Z)
    (outer_join : DataFrame -> DataFrame -> string -> option DataFrame)
    (csv_paths : list string) (st : EngineState) (before after : list SourceSpec)
    (source : SourceSpec) :
  required source = false ->
  match find_csv_file csv_paths (csv_name source) with
  | Some file_path => read_csv file_path = None
  | None => True
  end ->
  st_combined_df
    (process_sources read_csv parse_timestamp outer_join csv_paths st
       (before ++ source :: after)) =
  st_combined_df
    (process_sources read_csv parse_timestamp outer_join csv_paths st (before ++ after)) /\
  st_merge_key
    (process_sources read_csv parse_timestamp outer_join csv_paths st
       (before ++ source :: after)) =
  st_merge_key
    (process_sources read_csv parse_timestamp outer_join csv_paths st (before ++ after)).
Proof.
  intros Hopt Hun. revert st.
  induction before as [|x before IH]; intros st.
  - cbn [app process_sources].
    destruct (process_source_optional_unavailable read_csv parse_timestamp outer_join
                csv_paths st source Hopt Hun) as [msgs ->].
    apply process_sources_ignores_log; reflexivity.
  - cbn [app process_sources].
    destruct (process_source _ _ _ csv_paths st x) as [[|] st']; [apply IH | auto].
Qed.

(** X12 at the sleep export followed by an optional exercise export
    that is not in the dump. *)
Lemma optional_source_without_file_is_skipped_witness :
  st_combined_df
    (process_sources Sample.read_csv Sample.parse_timestamp Sample.outer_join
       Sample.csv_paths (mkState None None [])
       [Sample.sleep_source; Cases.optional_exercise]) =
  st_combined_df
    (process_sources Sample.read_csv Sample.parse_timestamp Sample.outer_join
       Sample.csv_paths (mkState None None []) [Sample.sleep_source]) /\
  st_merge_key
    (process_sources Sample.read_csv Sample.parse_timestamp Sample.outer_join
       Sample.csv_paths (mkState None None [])
       [Sample.sleep_source; Cases.optional_exercise]) =
  st_merge_key
    (process_sources Sample.read_csv Sample.parse_timestamp Sample.outer_join
       Sample.csv_paths (mkState None None []) [Sample.sleep_source]).
Proof.
  apply (optional_source_without_file_is_skipped
           Sample.read_csv Sample.parse_timestamp Sample.outer_join Sample.csv_paths
           (mkState None None []) [Sample.sleep_source] [] Cases.optional_exercise).
  - reflexivity.
  - vm_compute. exact I.
Defined.

(** X13: once the merge key of a combination is set, no later source
    changes it, whatever the source's own [merge_key_rename]. *)
Theorem merge_key_is_fixed_once_set
    (read_csv : string -> option DataFrame) (parse_timestamp : string -> option Z)
    (outer_join : DataFrame -> DataFrame -> string -> option DataFrame)
    (csv_paths : list string) (st : EngineState) (srcs : list SourceSpec) (key : string) :
  st_merge_key st = Some key ->
  st_merge_key (process_sources read_csv parse_timestamp outer_join csv_paths st srcs) =
  Some key.
Proof. apply process_sources_keeps_key. Qed.

(** X13 at a state whose key is "datetime" and a source that asks for
    "date". *)
Lemma merge_key_is_fixed_once_set_witness :
  st_merge_key
    (process_sources Sample.read_csv Sample.parse_timestamp Sample.outer_join
       Sample.csv_paths (mkState None (Some "datetime") []) [Cases.standardized_source]) =
  Some "datetime".
Proof.
  apply (merge_key_is_fixed_once_set
           Sample.read_csv Sample.parse_timestamp Sample.outer_join Sample.csv_paths
           (mkState None (Some "datetime") []) [Cases.standardized_source] "datetime").
  reflexivity.
Defined.

(** X14: when the loop over the sources of a combination ends with a
    merged table, the merge key is set, and it is the [merge_key_rename]
    (by default the [merge_key], by default "day_time") of one of the
    combination's sources. *)
Theorem merged_table_has_a_source_key
    (read_csv : string -> option DataFrame) (parse_timestamp : string -> option Z)
    (outer_join : DataFrame -> DataFrame -> string -> option DataFrame)
    (csv_paths : list string) (combo_config : ComboConfig) :
  match st_combined_df
          (merge_sources read_csv parse_timestamp outer_join csv_paths combo_config) with
  | Some _ =>
      exists source,
        source ∈ sources combo_config /\
        st_merge_key
          (merge_sources read_csv parse_timestamp outer_join csv_paths combo_config) =
        Some (source_merge_key_rename source)
  | None => True
  end.
Proof.
  unfold merge_sources.
  destruct (process_sources_key_invariant read_csv parse_timestamp outer_join csv_paths
              (sources combo_config) (sort_by_priority (sources combo_config)))
    with (st := mkState None None []) as [Htable Hkey].
  - intros source Hin. rewrite (sort_by_priority_perm (sources combo_config)). exact Hin.
  - cbn. congruence.
  - cbn. discriminate.
  - destruct (st_combined_df (process_sources _ _ _ csv_paths _ _)) as [table|]; [|exact I].
    destruct (st_merge_key (process_sources _ _ _ csv_paths _ _)) as [key|] eqn:Hk.
    + destruct (Hkey key eq_refl) as (source & Hin & ->). eauto.
    + exfalso. apply Htable; [discriminate | reflexivity].
Qed.

(* ===================================================================== *)
(** ** Further properties: the run over the combinations *)
(* ===================================================================== *)

Section RunFacts.

Variable read_csv : string -> option DataFrame.
Variable parse_timestamp : string -> option Z.
Variable outer_join : DataFrame -> DataFrame -> string -> option DataFrame.
Variable output_pipeline : OutputSpec -> option string -> DataFrame -> option DataFrame.

Lemma run_app (first second : CombinationConfig) csv_paths :
  process_data_combinations read_csv parse_timestamp outer_join output_pipeline
    (first ++ second)%list csv_paths =
  mkRun
    (config (process_data_combinations read_csv parse_timestamp outer_join
               output_pipeline first csv_paths) ++
     config (process_data_combinations read_csv parse_timestamp outer_join
               output_pipeline second csv_paths))%list
    (written (process_data_combinations read_csv parse_timestamp outer_join
                output_pipeline first csv_paths) ++
     written (process_data_combinations read_csv parse_timestamp outer_join
                output_pipeline second csv_paths))%list
    (events (process_data_combinations read_csv parse_timestamp outer_join
               output_pipeline first csv_paths) ++
     events (process_data_combinations read_csv parse_timestamp outer_join
               output_pipeline second csv_paths))%list.
Proof.
  induction first as [|[combo_name combo_config] first IH].
  - cbn. destruct (process_data_combinations _ _ _ _ second csv_paths). reflexivity.
  - cbn [app process_data_combinations]. rewrite IH.
    destruct (process_combination _ _ _ _ csv_paths combo_name combo_config)
      as [[c w] l].
    cbn [config written events]. rewrite !app_assoc. reflexivity.
Qed.

(** What one combination writes, when it writes. *)
Lemma process_combination_written_inv csv_paths combo_name combo_config file table :
  (file, table) ∈
    (process_combination read_csv parse_timestamp outer_join output_pipeline
       csv_paths combo_name combo_config).1.2 ->
  (process_combination read_csv parse_timestamp outer_join output_pipeline
     csv_paths combo_name combo_config).1.2 = [(file, table)] /\
  file = default "unknown.csv" (output_file combo_config) /\
  exists merged,
    st_combined_df
      (merge_sources read_csv parse_timestamp outer_join csv_paths combo_config) =
    Some merged /\
    0 < Frame.height merged /\
    output_pipeline (output_structure combo_config)
      (st_merge_key
         (merge_sources read_csv parse_timestamp outer_join csv_paths combo_config))
      merged = Some table.
Proof.
  rewrite process_combination_written.
  destruct (sources combo_config); [intros H; inversion H|].
  unfold output_step.
  destruct (st_combined_df (merge_sources _ _ _ csv_paths combo_config)) as [merged|];
    [|intros H; inversion H].
  unfold Frame.is_empty.
  destruct (Frame.height merged) as [|n] eqn:Hheight; [intros H; inversion H|].
  cbn [Nat.eqb negb].
  destruct (output_pipeline _ _ merged) as [out|] eqn:Hout; [|intros H; inversion H].
  cbn [fst]. intros Hin. apply list_elem_of_singleton in Hin. injection Hin as -> ->.
  split; [reflexivity|]. split; [reflexivity|].
  exists merged. split; [reflexivity|]. split; [lia | exact Hout].
Qed.

Lemma process_combination_written_length csv_paths combo_name combo_config :
  length (process_combination read_csv parse_timestamp outer_join output_pipeline
            csv_paths combo_name combo_config).1.2 <= 1.
Proof.
  rewrite process_combination_written.
  destruct (sources combo_config); [cbn; lia|].
  unfold output_step.
  destruct (st_combined_df _); [|cbn; lia].
  destruct (negb _); [|cbn; lia].
  destruct (output_pipeline _ _ _); cbn; lia.
Qed.

End RunFacts.

(** X15: the combinations are processed independently of each other:
    what a run over a configuration leaves behind (the configuration,
    the files written, the log) is what the runs over its first part and
    over the rest leave behind, one after the other. *)
Theorem run_processes_combinations_independently
    (read_csv : string -> option DataFrame) (parse_timestamp : string -> option Z)
    (outer_join : DataFrame -> DataFrame -> string -> option DataFrame)
    (output_pipeline : OutputSpec -> option string -> DataFrame -> option DataFrame)
    (first second : CombinationConfig) (csv_paths : list string) :
  process_data_combinations read_csv parse_timestamp outer_join output_pipeline
    (first ++ second)%list csv_paths =
  mkRun
    (config (process_data_combinations read_csv parse_timestamp outer_join
               output_pipeline first csv_paths) ++
     config (process_data_combinations read_csv parse_timestamp outer_join
               output_pipeline second csv_paths))%list
    (written (process_data_combinations read_csv parse_timestamp outer_join
                output_pipeline first csv_paths) ++
     written (process_data_combinations read_csv parse_timestamp outer_join
                output_pipeline second csv_paths))%list
    (events (process_data_combinations read_csv parse_timestamp outer_join
               output_pipeline first csv_paths) ++
     events (process_data_combinations read_csv parse_timestamp outer_join
               output_pipeline second csv_paths))%list.
Proof. apply run_app. Qed.

(** X16: a run writes at most one file for each combination, and every
    file written is the output file of a combination of the
    configuration ("unknown.csv" when none is given) whose merged table
    exists and has a row; its content is what the output steps make of
    that table with the combination's merge key. *)
Theorem run_writes_one_file_per_merged_table
    (read_csv : string -> option DataFrame) (parse_timestamp : string -> option Z)
    (outer_join : DataFrame -> DataFrame -> string -> option DataFrame)
    (output_pipeline : OutputSpec -> option string -> DataFrame -> option DataFrame)
    (combination_config : CombinationConfig) (csv_paths : list string) :
  length (written (process_data_combinations read_csv parse_timestamp outer_join
                     output_pipeline combination_config csv_paths)) <=
  length combination_config /\
  forall file table,
    (file, table) ∈
      written (process_data_combinations read_csv parse_timestamp outer_join
                 output_pipeline combination_config csv_paths) ->
    exists combo_name combo_config merged,
      (combo_name, combo_config) ∈ combination_config /\
      file = default "unknown.csv" (output_file combo_config) /\
      st_combined_df
        (merge_sources read_csv parse_timestamp outer_join csv_paths combo_config) =
      Some merged /\
      0 < Frame.height merged /\
      output_pipeline (output_structure combo_config)
        (st_merge_key
           (merge_sources read_csv parse_timestamp outer_join csv_paths combo_config))
        merged = Some table.
Proof.
  induction combination_config as [|[combo_name combo_config] rest [IHlen IHin]].
  - split; [cbn; lia|]. intros file table H. inversion H.
  - rewrite run_written. split.
    + rewrite length_app. cbn [length].
      pose proof (process_combination_written_length read_csv parse_timestamp outer_join
                    output_pipeline csv_paths combo_name combo_config).
      lia.
    + intros file table [Hin | Hin]%elem_of_app.
      * apply process_combination_written_inv in Hin
          as (_ & Hfile & merged & Hmerged & Hrows & Hout).
        exists combo_name, combo_config, merged. split; [left|]. auto.
      * destruct (IHin file table Hin) as (n & c & merged & Hc & Hrest).
        exists n, c, merged. split; [right; exact Hc | exact Hrest].
Qed.

(** X17: a second run finds the sources as the first run left them and
    leaves them so: the configuration after two runs is the
    configuration after one. *)
Theorem second_run_leaves_configuration_as_found
    (read_csv : string -> option DataFrame) (parse_timestamp : string -> option Z)
    (outer_join : DataFrame -> DataFrame -> string -> option DataFrame)
    (output_pipeline : OutputSpec -> option string -> DataFrame -> option DataFrame)
    (combination_config : CombinationConfig) (csv_paths csv_paths' : list string) :
  config (process_data_combinations read_csv parse_timestamp outer_join output_pipeline
            (config (process_data_combinations read_csv parse_timestamp outer_join
                       output_pipeline combination_config csv_paths))
            csv_paths') =
  config (process_data_combinations read_csv parse_timestamp outer_join output_pipeline
            combination_config csv_paths).
Proof.
  rewrite !run_config. rewrite map_map. apply map_ext.
  intros [combo_name combo_config]. cbn [fst snd sources output_file output_structure].
  rewrite (sort_by_priority_sorted_id (sort_by_priority (sources combo_config)))
    by apply sort_by_priority_sorted.
  reflexivity.
Qed.

(* ===================================================================== *)
(** ** Further properties: the selection of columns *)
(* ===================================================================== *)

Section SelectFacts.

Lemma get_column_not_in name df :
  name ∉ Frame.columns df -> Frame.get_column name df = None.
Proof.
  induction df as [|[n s] df IH]; cbn; [reflexivity|].
  intros Hnot. destruct (String.eqb n name) eqn:Hn.
  - apply String.eqb_eq in Hn. subst n. exfalso. apply Hnot. left.
  - apply IH. intros Hin. apply Hnot. right. exact Hin.
Qed.

Lemma has_column_get name df :
  Frame.has_column name df = true <-> is_Some (Frame.get_column name df).
Proof.
  unfold Frame.has_column. rewrite bool_decide_eq_true. split.
  - intros Hin. destruct (Frame.get_column name df) as [s|] eqn:Hget; [eauto|].
    exfalso. clear -Hin Hget.
    induction df as [|[n s] df IH]; [inversion Hin|].
    cbn in *. destruct (String.eqb n name) eqn:Hn; [discriminate|].
    apply elem_of_cons in Hin as [-> | Hin]; [|auto].
    rewrite String.eqb_refl in Hn. discriminate.
  - intros [s Hs]. eapply get_column_Some_in, Hs.
Qed.

(** [select] yields the named columns, each as it is in the table. *)
Lemma select_columns_of names df df' :
  Frame.select names df = Some df' ->
  Frame.columns df' = names /\
  forall name, name ∈ names -> Frame.get_column name df' = Frame.get_column name df.
Proof.
  unfold Frame.select. case_bool_decide as Hnodup; [|discriminate].
  intros Hmap. apply mapM_Some in Hmap.
  induction Hmap as [|n [n' s] names df' Hhead Hrest IH].
  - split; [reflexivity|]. intros name H. inversion H.
  - apply NoDup_cons in Hnodup as [Hfresh Hnodup].
    destruct (IH Hnodup) as [Hcols Hget].
    destruct (Frame.get_column n df) as [s0|] eqn:Hn; [|discriminate].
    cbn in Hhead. injection Hhead as <- <-.
    split; [unfold Frame.columns in *; cbn [map fst]; rewrite Hcols; reflexivity|].
    intros name [-> | Hin]%elem_of_cons; cbn.
    + rewrite String.eqb_refl, Hn. reflexivity.
    + destruct (String.eqb n name) eqn:Heq; [|apply Hget, Hin].
      apply String.eqb_eq in Heq. subst name. contradiction.
Qed.

Lemma elem_of_list_filter_bool {A} (f : A -> bool) l x :
  x ∈ List.filter f l <-> x ∈ l /\ f x = true.
Proof. rewrite !list_elem_of_In. apply filter_In. Qed.

End SelectFacts.

(** X18: the selection only projects: a column of the selected table is
    a column of the table read, with the same values; the merge-key
    column of the table read is always among them; and so is every
    column asked for that the table has. *)
Theorem select_columns_projects_and_keeps_key
    (source : SourceSpec) (df df' : DataFrame) :
  select_columns source df = Selected df' ->
  (forall name s, Frame.get_column name df' = Some s -> Frame.get_column name df = Some s) /\
  (forall s,
     Frame.get_column (source_merge_key source) df = Some s ->
     Frame.get_column (source_merge_key source) df' = Some s) /\
  (forall name s,
     name ∈ columns_to_include source -> Frame.get_column name df = Some s ->
     Frame.get_column name df' = Some s).
Proof.
  unfold select_columns.
  destruct (columns_to_include_with_key source df) as [|w wanted] eqn:Hwanted.
  { intros [= <-]. auto. }
  destruct (List.filter _ (w :: wanted)) as [|a available] eqn:Havailable; [discriminate|].
  destruct (Frame.select (a :: available) df) as [selected|] eqn:Hselect; [|discriminate].
  intros [= <-]. apply select_columns_of in Hselect as [Hcols Hget].
  assert (Hin : forall name s,
             name ∈ w :: wanted -> Frame.get_column name df = Some s ->
             Frame.get_column name selected = Some s).
  { intros name s Hname Hs. rewrite Hget; [exact Hs|].
    rewrite <- Havailable. apply elem_of_list_filter_bool. split; [exact Hname|].
    apply has_column_get. eauto. }
  split; [|split].
  - intros name s Hs. rewrite <- Hget; [exact Hs|].
    rewrite <- Hcols. eapply get_column_Some_in, Hs.
  - intros s Hs. apply Hin; [|exact Hs]. rewrite <- Hwanted.
    unfold columns_to_include_with_key.
    destruct (decide (source_merge_key source ∈ columns_to_include source)) as [Hk | Hk].
    + rewrite bool_decide_eq_true_2 by exact Hk. exact Hk.
    + rewrite bool_decide_eq_false_2 by exact Hk. cbn [negb andb].
      assert (Hhas : Frame.has_column (source_merge_key source) df = true)
        by (apply has_column_get; eauto).
      rewrite Hhas. apply elem_of_app. right. left.
  - intros name s Hname Hs. apply Hin; [|exact Hs]. rewrite <- Hwanted.
    unfold columns_to_include_with_key.
    destruct (_ && _); [apply elem_of_app; left|]; exact Hname.
Qed.

(** X18 at the standardised sleep source, which asks for
    [sleep_score]. *)
Lemma select_columns_projects_and_keeps_key_witness :
  Frame.get_column "day_time"
    [("sleep_score", mkSeries Int64 [Some (VNum 81); Some (VNum 74)]);
     ("day_time",
      mkSeries Int64 [Some (VNum 1672561800000); Some (VNum 1672648200000)])] =
  Some (mkSeries Int64 [Some (VNum 1672561800000); Some (VNum 1672648200000)]).
Proof.
  destruct (select_columns_projects_and_keeps_key Cases.standardized_source
              Sample.sleep_table
              [("sleep_score", mkSeries Int64 [Some (VNum 81); Some (VNum 74)]);
               ("day_time",
                mkSeries Int64 [Some (VNum 1672561800000); Some (VNum 1672648200000)])])
    as (_ & Hkey & _).
  - vm_compute. reflexivity.
  - apply Hkey. reflexivity.
Defined.

(** X19: a source that lists no [columns_to_include] does not keep the
    whole table when the table has the merge-key column: the selection
    keeps that column alone.  The whole table is kept only when the
    merge-key column is missing. *)
Theorem empty_columns_to_include_keeps_key_only (source : SourceSpec) (df : DataFrame) :
  columns_to_include source = [] ->
  select_columns source df =
  Selected
    match Frame.get_column (source_merge_key source) df with
    | Some s => [(source_merge_key source, s)]
    | None => df
    end.
Proof.
  intros Hnone. unfold select_columns, columns_to_include_with_key. rewrite Hnone.
  rewrite bool_decide_eq_false_2 by (intros H; inversion H). cbn [negb andb app].
  destruct (Frame.has_column (source_merge_key source) df) eqn:Hhas.
  - cbn [List.filter]. rewrite Hhas.
    apply has_column_get in Hhas as [s Hs]. rewrite Hs.
    unfold Frame.select. rewrite bool_decide_eq_true_2 by apply NoDup_singleton.
    cbn. rewrite Hs. reflexivity.
  - destruct (Frame.get_column (source_merge_key source) df) as [s|] eqn:Hs;
      [|reflexivity].
    assert (Frame.has_column (source_merge_key source) df = true)
      by (apply has_column_get; eauto).
    congruence.
Qed.

(** X19 at the sleep export, whose score column is dropped. *)
Lemma empty_columns_to_include_keeps_key_only_witness :
  select_columns Sample.sleep_source Sample.sleep_table =
  Selected
    [("day_time",
      mkSeries Int64 [Some (VNum 1672561800000); Some (VNum 1672648200000)])].
Proof.
  apply (empty_columns_to_include_keeps_key_only Sample.sleep_source Sample.sleep_table).
  reflexivity.
Defined.

(* ===================================================================== *)
(** ** Further properties: the renames and the key conversion *)
(* ===================================================================== *)

Section RenameFacts.

(** A successful [rename] moves a column that is a key of the mapping
    to its new name. *)
Lemma rename_moves_column mapping name name' s df df' :
  Frame.rename mapping df = Some df' ->
  mapping !! name = Some name' ->
  Frame.get_column name df = Some s ->
  Frame.get_column name' df' = Some s.
Proof.
  unfold Frame.rename. intros Hren Hname Hget.
  case_bool_decide; [|discriminate].
  case_bool_decide as Hnodup; [|discriminate].
  injection Hren as <-.
  pose proof (get_column_renamed (fun n => default n (mapping !! n)) name s df
                Hnodup Hget) as Hcol.
  cbn beta in Hcol. rewrite Hname in Hcol. exact Hcol.
Qed.

(** Two columns that end up with one name make [rename] raise. *)
Lemma rename_collision mapping df name other :
  name ∈ Frame.columns df -> other ∈ Frame.columns df -> name <> other ->
  default name (mapping !! name) = default other (mapping !! other) ->
  Frame.rename mapping df = None.
Proof.
  intros Hname Hother Hne Hsame. unfold Frame.rename.
  case_bool_decide; [|reflexivity].
  rewrite bool_decide_eq_false_2; [reflexivity|].
  intros Hnodup. apply Hne. clear -Hname Hother Hsame Hnodup.
  induction df as [|[n s] df IH]; [inversion Hname|].
  cbn in Hnodup. apply NoDup_cons in Hnodup as [Hfresh Hnodup].
  assert (Himage : forall x, x ∈ Frame.columns df ->
                             default x (mapping !! x) ∈
                             Frame.columns
                               (map (fun '(n, s) => (default n (mapping !! n), s)) df)).
  { clear. intros x Hx. induction df as [|[k c] df IH]; [inversion Hx|].
    cbn in *. apply elem_of_cons in Hx as [-> | Hx]; [left | right; apply IH, Hx]. }
  cbn in Hname, Hother.
  apply elem_of_cons in Hname as [-> | Hname], Hother as [-> | Hother].
  - reflexivity.
  - exfalso. apply Hfresh. rewrite Hsame. apply Himage, Hother.
  - exfalso. apply Hfresh. rewrite <- Hsame. apply Himage, Hname.
  - apply IH; assumption.
Qed.

Lemma with_column_columns name s s0 df :
  Frame.get_column name df = Some s0 ->
  Frame.columns (Frame.with_column name s df) = Frame.columns df.
Proof.
  induction df as [|[n c] df IH]; cbn; [discriminate|].
  destruct (String.eqb n name); [reflexivity|].
  intros H. cbn. f_equal. apply IH, H.
Qed.

Lemma with_column_height name s s0 df :
  Frame.get_column name df = Some s0 ->
  length (cells s) = length (cells s0) ->
  Frame.height (Frame.with_column name s df) = Frame.height df.
Proof.
  destruct df as [|[n c] df]; cbn; [discriminate|].
  destruct (String.eqb n name); [|reflexivity].
  intros [= <-] Hlen. exact Hlen.
Qed.

Variable parse_timestamp : string -> option Z.

Lemma str_to_datetime_length s s' :
  str_to_datetime parse_timestamp s = Some s' -> length (cells s') = length (cells s).
Proof.
  unfold str_to_datetime. destruct (dtype s); try discriminate.
  destruct (mapM _ (cells s)) as [converted|] eqn:Hmap; [|discriminate].
  cbn. intros [= <-]. cbn. symmetry. eapply length_mapM, Hmap.
Qed.

Lemma dt_date_length s s' :
  Frame.dt_date s = Some s' -> length (cells s') = length (cells s).
Proof.
  unfold Frame.dt_date. destruct (dtype s); try discriminate.
  intros [= <-]. cbn. apply length_map.
Qed.

Lemma to_temporal_length use_datetime s s' :
  to_temporal parse_timestamp use_datetime s = Some s' ->
  length (cells s') = length (cells s).
Proof.
  unfold to_temporal.
  destruct (Frame.is_numeric (dtype s)), use_datetime.
  - intros [= <-]. cbn. apply length_map.
  - intros H. apply dt_date_length in H. rewrite H. cbn. apply length_map.
  - apply str_to_datetime_length.
  - destruct (str_to_datetime parse_timestamp s) as [d|] eqn:Hd; cbn; [|discriminate].
    intros H. apply dt_date_length in H. rewrite H.
    eapply str_to_datetime_length, Hd.
Qed.

(** A converted column is not converted again ... *)
Lemma to_temporal_converted use_datetime use_datetime' s s' :
  to_temporal parse_timestamp use_datetime s = Some s' ->
  to_temporal parse_timestamp use_datetime' s' = None.
Proof.
  intros H. apply to_temporal_dtype in H.
  unfold to_temporal, str_to_datetime.
  destruct use_datetime.
  - destruct H as [u ->]. destruct use_datetime'; reflexivity.
  - rewrite H. destruct use_datetime'; reflexivity.
Qed.

(** ... and a column whose conversion fails at one granularity fails
    at the other. *)
Lemma to_temporal_failure use_datetime use_datetime' s :
  to_temporal parse_timestamp use_datetime s = None ->
  to_temporal parse_timestamp use_datetime' s = None.
Proof.
  unfold to_temporal.
  destruct (Frame.is_numeric (dtype s)).
  - destruct use_datetime; cbn; discriminate.
  - destruct (str_to_datetime parse_timestamp s) as [d|] eqn:Hd.
    + apply str_to_datetime_dtype in Hd.
      destruct use_datetime; [discriminate|].
      cbn. unfold Frame.dt_date. rewrite Hd. discriminate.
    + intros _. destruct use_datetime'; reflexivity.
Qed.

End RenameFacts.

(** X20: when a source's [merge_key_rename] differs from its
    [merge_key] and neither name is touched by [rename_columns], the
    table that comes out of the renames holds the key column, with the
    values read, under the standardised name. *)
Theorem merge_key_is_found_under_standard_name
    (source : SourceSpec) (df df' : DataFrame) (s : Series) :
  rename_columns source !! source_merge_key source = None ->
  rename_columns source !! source_merge_key_rename source = None ->
  source_merge_key_rename source <> source_merge_key source ->
  Frame.get_column (source_merge_key source) df = Some s ->
  rename_stage source df = Some df' ->
  Frame.get_column (source_merge_key_rename source) df' = Some s.
Proof.
  intros Hkey Hstd Hne Hget. unfold rename_stage, duplicate_merge_key.
  rewrite Hkey. cbn. unfold rename_merge_key.
  assert (Hhas : Frame.has_column (source_merge_key source) df = true)
    by (apply has_column_get; eauto).
  rewrite Hhas. apply String.eqb_neq in Hne. rewrite Hne. cbn [negb andb].
  destruct (Frame.rename _ df) as [renamed|] eqn:Hrename; [|discriminate].
  cbn. intros Hother.
  assert (Hmoved : Frame.get_column (source_merge_key_rename source) renamed = Some s).
  { eapply rename_moves_column; [exact Hrename | apply lookup_singleton_eq | exact Hget]. }
  unfold rename_other_columns in Hother. case_bool_decide.
  - injection Hother as <-. exact Hmoved.
  - eapply rename_keeps_column; [exact Hother | | exact Hmoved].
    rewrite lookup_delete_ne; [exact Hstd|].
    apply String.eqb_neq in Hne. congruence.
Qed.

(** X20 at the sleep export with [merge_key_rename = "date"]. *)
Lemma merge_key_is_found_under_standard_name_witness :
  Frame.get_column "date"
    [("date", mkSeries Int64 [Some (VNum 1672561800000); Some (VNum 1672648200000)]);
     ("sleep_score", mkSeries Int64 [Some (VNum 81); Some (VNum 74)])] =
  Some (mkSeries Int64 [Some (VNum 1672561800000); Some (VNum 1672648200000)]).
Proof.
  apply (merge_key_is_found_under_standard_name Cases.standardized_source
           Sample.sleep_table).
  - vm_compute. reflexivity.
  - vm_compute. reflexivity.
  - discriminate.
  - reflexivity.
  - vm_compute. reflexivity.
Defined.

(** X21: when the table already has a column under the standardised
    name, renaming the merge key to it makes two columns of one name:
    the rename raises and the source fails. *)
Theorem standard_name_already_taken_fails
    (source : SourceSpec) (df : DataFrame) :
  rename_columns source !! source_merge_key source = None ->
  source_merge_key_rename source <> source_merge_key source ->
  source_merge_key source ∈ Frame.columns df ->
  source_merge_key_rename source ∈ Frame.columns df ->
  rename_stage source df = None.
Proof.
  intros Hkey Hne Hin Hin'. unfold rename_stage, duplicate_merge_key.
  rewrite Hkey. cbn. unfold rename_merge_key.
  unfold Frame.has_column. rewrite bool_decide_eq_true_2 by exact Hin.
  pose proof Hne as Hneb. apply String.eqb_neq in Hneb. rewrite Hneb. cbn [negb andb].
  rewrite (rename_collision _ df (source_merge_key source)
             (source_merge_key_rename source)); [reflexivity | exact Hin | exact Hin' | |].
  - congruence.
  - rewrite lookup_singleton_eq, lookup_singleton_ne by congruence. reflexivity.
Qed.

(** X21 at a table that has both [day_time] and [date]. *)
Lemma standard_name_already_taken_fails_witness :
  rename_stage Cases.standardized_source
    [("day_time", mkSeries Int64 [Some (VNum 1672561800000)]);
     ("date", mkSeries Utf8 [Some (VStr "2023-01-01")])] = None.
Proof.
  apply (standard_name_already_taken_fails Cases.standardized_source).
  - vm_compute. reflexivity.
  - discriminate.
  - left.
  - right. left.
Defined.

(** X22: the conversion of the key changes the key column only: the
    names and the order of the columns, the number of rows and every
    other column are as before. *)
Theorem normalize_key_keeps_shape
    (parse_timestamp : string -> option Z) (key : string) (use_datetime : bool)
    (df : DataFrame) :
  Frame.columns (normalize_key parse_timestamp key use_datetime df).1 = Frame.columns df /\
  Frame.height (normalize_key parse_timestamp key use_datetime df).1 = Frame.height df /\
  forall name,
    name <> key ->
    Frame.get_column name (normalize_key parse_timestamp key use_datetime df).1 =
    Frame.get_column name df.
Proof.
  split; [|split].
  - unfold normalize_key.
    destruct (Frame.get_column key df) as [s|] eqn:Hget; [|reflexivity].
    destruct (to_temporal parse_timestamp use_datetime s); [|reflexivity].
    cbn [fst]. eapply with_column_columns, Hget.
  - unfold normalize_key.
    destruct (Frame.get_column key df) as [s|] eqn:Hget; [|reflexivity].
    destruct (to_temporal parse_timestamp use_datetime s) as [s'|] eqn:Hconv;
      [|reflexivity].
    cbn [fst]. eapply with_column_height; [exact Hget|].
    eapply to_temporal_length, Hconv.
  - intros name Hne. apply normalize_key_other_column, Hne.
Qed.

(** X23: converting the key of a table a second time, at either
    granularity, leaves the table as the first conversion left it; this
    is what happens to the merged table before each join. *)
Theorem normalize_key_twice_changes_nothing
    (parse_timestamp : string -> option Z) (key : string)
    (use_datetime use_datetime' : bool) (df : DataFrame) :
  (normalize_key parse_timestamp key use_datetime'
     (normalize_key parse_timestamp key use_datetime df).1).1 =
  (normalize_key parse_timestamp key use_datetime df).1.
Proof.
  destruct (normalize_key parse_timestamp key use_datetime df) as [converted msgs]
    eqn:Hfirst.
  cbn [fst]. unfold normalize_key in *.
  destruct (Frame.get_column key df) as [s|] eqn:Hget.
  - destruct (to_temporal parse_timestamp use_datetime s) as [s'|] eqn:Hconv;
      injection Hfirst as <- <-.
    + rewrite get_column_with_column_eq.
      rewrite (to_temporal_converted parse_timestamp use_datetime use_datetime' s s' Hconv).
      reflexivity.
    + rewrite Hget.
      rewrite (to_temporal_failure parse_timestamp use_datetime use_datetime' s Hconv).
      reflexivity.
  - injection Hfirst as <- <-. rewrite Hget. reflexivity.
Qed.

(* ===================================================================== *)
(** ** Further properties: reedit.py's renames and key conversion *)
(* ===================================================================== *)

(** X24: in reedit.py a [rename_columns] that maps the merge key to
    another name renames the key column away: when nothing is renamed to
    the merge key's name, the table that comes out of the renames has no
    column under that name, so the source has no key to be joined on. *)
Theorem reedit_rename_columns_removes_merge_key
    (source : SourceSpec) (df : DataFrame) (target_name : string) :
  rename_columns source !! source_merge_key source = Some target_name ->
  target_name <> source_merge_key source ->
  source_merge_key_rename source = source_merge_key source ->
  (forall name name',
     rename_columns source !! name = Some name' -> name' <> source_merge_key source) ->
  Frame.has_column (source_merge_key source) (Reedit.rename_stage source df) = false.
Proof.
  intros Hmap Hne Hkeep Hnone. unfold Reedit.rename_stage.
  rewrite Hkeep, String.eqb_refl, andb_false_r.
  rewrite bool_decide_eq_false_2
    by (intros Hempty; rewrite Hempty, lookup_empty in Hmap; discriminate).
  unfold Frame.has_column. apply bool_decide_eq_false_2.
  unfold Frame.pandas_rename. induction df as [|[n s] df IH]; cbn.
  - intros H. inversion H.
  - intros [Hhead | Htail]%elem_of_cons; [|apply IH, Htail].
    destruct (rename_columns source !! n) as [n'|] eqn:Hn; cbn in Hhead.
    + apply (Hnone n n' Hn). congruence.
    + subst n. congruence.
Qed.

(** X24 at the sleep export and the specification's
    [{"day_time": "timestamp"}]. *)
Lemma reedit_rename_columns_removes_merge_key_witness :
  Frame.has_column "day_time"
    (Reedit.rename_stage Sample.keep_timestamp_source Sample.sleep_table) = false.
Proof.
  apply (reedit_rename_columns_removes_merge_key
           Sample.keep_timestamp_source Sample.sleep_table "timestamp").
  - vm_compute. reflexivity.
  - discriminate.
  - reflexivity.
  - intros name name' H.
    assert (Hcases : name' = "timestamp").
    { change (rename_columns Sample.keep_timestamp_source)
        with ({[ "day_time" := "timestamp" ]} : gmap string string) in H.
      apply lookup_singleton_Some in H as [_ <-]. reflexivity. }
    subst name'. discriminate.
Defined.



(* ===================================================================== *)
(** ** Further properties: the output steps *)
(* ===================================================================== *)

Section OutputFacts.

Lemma select_succeeds names df :
  NoDup names ->
  (forall name, name ∈ names -> is_Some (Frame.get_column name df)) ->
  exists df', Frame.select names df = Some df'.
Proof.
  intros Hnodup Hall. unfold Frame.select.
  rewrite bool_decide_eq_true_2 by exact Hnodup.
  apply mapM_is_Some_2. apply Forall_forall. intros name Hname.
  destruct (Hall name Hname) as [s Hs]. cbn. rewrite Hs. cbn. eauto.
Qed.

Lemma filter_bool_nil {A} (f : A -> bool) l :
  List.filter f l = [] -> forall x, x ∈ l -> f x = false.
Proof.
  intros Hnil x Hx. destruct (f x) eqn:Hfx; [|reflexivity].
  assert (Hin : x ∈ List.filter f l) by (apply elem_of_list_filter_bool; auto).
  rewrite Hnil in Hin. inversion Hin.
Qed.

Lemma NoDup_filter_bool {A} (f : A -> bool) l : NoDup l -> NoDup (List.filter f l).
Proof.
  induction 1 as [|x l Hfresh Hnodup IH]; cbn; [constructor|].
  destruct (f x); [|exact IH].
  constructor; [|exact IH].
  intros Hin. apply elem_of_list_filter_bool in Hin as [Hin _]. contradiction.
Qed.

End OutputFacts.

(** X26: after the flattening of [sexual_activity] the column holds the
    literal 1 exactly where it held a value and a null elsewhere; the
    column names, and every other column, are unchanged; a table without
    the column is left as it is. *)
Theorem flatten_sexual_activity_marks_presence (combined_df : DataFrame) :
  Frame.columns (flatten_sexual_activity combined_df) = Frame.columns combined_df /\
  (forall name,
     name <> "sexual_activity" ->
     Frame.get_column name (flatten_sexual_activity combined_df) =
     Frame.get_column name combined_df) /\
  match Frame.get_column "sexual_activity" combined_df with
  | Some s =>
      exists s',
        Frame.get_column "sexual_activity" (flatten_sexual_activity combined_df) =
        Some s' /\
        length (cells s') = length (cells s) /\
        forall i,
          match cells s !! i with
          | Some (Some _) => cells s' !! i = Some (Some (VNum 1))
          | Some None => cells s' !! i = Some None
          | None => cells s' !! i = None
          end
  | None => flatten_sexual_activity combined_df = combined_df
  end.
Proof.
  unfold flatten_sexual_activity.
  destruct (Frame.get_column "sexual_activity" combined_df) as [s|] eqn:Hget.
  - split; [eapply with_column_columns, Hget|].
    split; [intros name Hne; apply get_column_with_column_ne, Hne|].
    eexists. rewrite get_column_with_column_eq. split; [reflexivity|].
    cbn [cells]. split; [apply length_map|].
    intros i. rewrite lookup_map. destruct (cells s !! i) as [[v|]|]; reflexivity.
  - auto.
Qed.

(** X27: with final columns listed without repetition the selection
    cannot fail; it keeps, in the order listed, the final columns that
    the table has, each with its values, and keeps the whole table when
    it has none of them (or when none is listed). *)
Theorem select_final_columns_keeps_existing
    (final_columns : list string) (combined_df : DataFrame) :
  NoDup final_columns ->
  exists df',
    select_final_columns final_columns combined_df = Some df' /\
    (forall name s,
       Frame.get_column name df' = Some s -> Frame.get_column name combined_df = Some s) /\
    match List.filter (fun col => Frame.has_column col combined_df) final_columns with
    | [] => df' = combined_df
    | available =>
        Frame.columns df' = available /\
        forall name s,
          name ∈ final_columns -> Frame.get_column name combined_df = Some s ->
          Frame.get_column name df' = Some s
    end.
Proof.
  intros Hnodup. unfold select_final_columns.
  destruct final_columns as [|f final_columns]; [exists combined_df; cbn; auto|].
  destruct (List.filter _ (f :: final_columns)) as [|a available] eqn:Havailable;
    [exists combined_df; auto|].
  destruct (select_succeeds (a :: available) combined_df) as [df' Hselect].
  - rewrite <- Havailable. apply NoDup_filter_bool, Hnodup.
  - intros name Hname. rewrite <- Havailable in Hname.
    apply elem_of_list_filter_bool in Hname as [_ Hhas]. apply has_column_get, Hhas.
  - exists df'. split; [exact Hselect|].
    apply select_columns_of in Hselect as [Hcols Hget]. split; [|split].
    + intros name s Hs. rewrite <- Hget; [exact Hs|].
      rewrite <- Hcols. eapply get_column_Some_in, Hs.
    + exact Hcols.
    + intros name s Hname Hs. rewrite Hget; [exact Hs|].
      rewrite <- Havailable. apply elem_of_list_filter_bool. split; [exact Hname|].
      apply has_column_get. eauto.
Qed.

(** X27 at a table with [day_time] and [sleep_score], asked for
    [sleep_score] and a column it does not have. *)
Lemma select_final_columns_keeps_existing_witness :
  exists df',
    select_final_columns ["sleep_score"; "steps"] Sample.sleep_table = Some df' /\
    (forall name s,
       Frame.get_column name df' = Some s ->
       Frame.get_column name Sample.sleep_table = Some s) /\
    Frame.columns df' = ["sleep_score"] /\
    forall name s,
      name ∈ ["sleep_score"; "steps"] ->
      Frame.get_column name Sample.sleep_table = Some s ->
      Frame.get_column name df' = Some s.
Proof.
  apply (select_final_columns_keeps_existing ["sleep_score"; "steps"] Sample.sleep_table).
  apply (bool_decide_unpack (NoDup ["sleep_score"; "steps"])). vm_compute. exact I.
Defined.



(* ===================================================================== *)
(** ** Further properties: empty rows and [csv_has_data] *)
(* ===================================================================== *)

Section RowFacts.

(** The rows kept by a mask: which row of the input a kept row is. *)
Lemma masked_lookup (keep : list bool) :
  forall j,
    j < length (filter (fun b => b = true) keep) ->
    exists i,
      keep !! i = Some true /\
      forall (A : Type) (l : list A),
        length l = length keep ->
        map fst (filter (fun cb : A * bool => snd cb = true) (zip l keep)) !! j = l !! i.
Proof.
  induction keep as [|b keep IH]; intros j Hj; [cbn in Hj; lia|].
  rewrite filter_cons in Hj. destruct b.
  - rewrite decide_True in Hj by reflexivity. destruct j as [|j].
    + exists 0. split; [reflexivity|]. intros A [|a l] Hlen; [discriminate|].
      cbn [zip zip_with]. rewrite filter_cons, decide_True by reflexivity. reflexivity.
    + cbn [length] in Hj. destruct (IH j) as (i & Hi & Hl); [lia|].
      exists (S i). split; [exact Hi|]. intros A [|a l] Hlen; [discriminate|].
      cbn [zip zip_with]. rewrite filter_cons, decide_True by reflexivity.
      cbn. apply Hl. cbn in Hlen. lia.
  - rewrite decide_False in Hj by discriminate.
    destruct (IH j Hj) as (i & Hi & Hl).
    exists (S i). split; [exact Hi|]. intros A [|a l] Hlen; [discriminate|].
    cbn [zip zip_with]. rewrite filter_cons, decide_False by (cbn; discriminate).
    cbn. apply Hl. cbn in Hlen. lia.
Qed.

Lemma masked_length (keep : list bool) :
  forall (A : Type) (l : list A),
    length l = length keep ->
    length (map fst (filter (fun cb : A * bool => snd cb = true) (zip l keep))) =
    length (filter (fun b => b = true) keep).
Proof.
  induction keep as [|b keep IH]; intros A [|a l] Hlen; try discriminate; [reflexivity|].
  cbn [zip zip_with]. rewrite !filter_cons. cbn in Hlen. destruct b.
  - rewrite !decide_True by reflexivity. cbn. f_equal. apply IH. lia.
  - rewrite !decide_False by (cbn; discriminate). apply IH. lia.
Qed.

Lemma masked_length_le {A} (l : list A) (keep : list bool) :
  length (map fst (filter (fun cb : A * bool => snd cb = true) (zip l keep))) <=
  length keep.
Proof.
  rewrite length_map.
  etransitivity; [apply length_filter|]. rewrite length_zip. lia.
Qed.

Lemma drop_null_rows_columns df :
  Frame.columns (Frame.drop_null_rows df) = Frame.columns df.
Proof.
  unfold Frame.drop_null_rows, Frame.columns. rewrite map_map.
  apply map_ext. intros [n s]. reflexivity.
Qed.

Lemma drop_null_rows_height_le df :
  Frame.height (Frame.drop_null_rows df) <= Frame.height df.
Proof.
  unfold Frame.drop_null_rows. destruct df as [|[n s] df]; [cbn; lia|].
  cbn [map Frame.height cells].
  etransitivity; [apply masked_length_le|].
  rewrite length_map, length_seq. reflexivity.
Qed.

(** In a table whose columns have the length of the first one, the
    rows left are as many as the rows that hold a value. *)
Lemma drop_null_rows_height df :
  (forall n s, (n, s) ∈ df -> length (cells s) = Frame.height df) ->
  Frame.height (Frame.drop_null_rows df) =
  length (filter (fun b => b = true)
            (map (fun i => negb (Frame.row_all_null df i)) (seq 0 (Frame.height df)))).
Proof.
  intros Hrect. unfold Frame.drop_null_rows.
  destruct df as [|[n s] df]; [reflexivity|].
  cbn [map Frame.height cells]. apply masked_length.
  rewrite length_map, length_seq. reflexivity.
Qed.

Lemma row_all_null_map (f : string * Series -> string * Series) df i j :
  (forall c, c ∈ df -> cells (f c).2 !! j = cells c.2 !! i) ->
  Frame.row_all_null (map f df) j = Frame.row_all_null df i.
Proof.
  unfold Frame.row_all_null. induction df as [|c df IH]; intros Hall; [reflexivity|].
  cbn [map forallb]. rewrite IH by (intros c' Hc'; apply Hall; right; exact Hc').
  f_equal. specialize (Hall c (list_elem_of_here _ _)).
  destruct (f c) as [n' s'], c as [n s]. cbn [snd] in Hall. rewrite Hall. reflexivity.
Qed.

Lemma drop_null_rows_cells_length df :
  (forall n s, (n, s) ∈ df -> length (cells s) = Frame.height df) ->
  forall n s,
    (n, s) ∈ Frame.drop_null_rows df ->
    length (cells s) = Frame.height (Frame.drop_null_rows df).
Proof.
  intros Hrect n s Hin. rewrite (drop_null_rows_height df Hrect).
  unfold Frame.drop_null_rows in Hin.
  apply list_elem_of_In, in_map_iff in Hin as ([n0 s0] & Heq & Hin0).
  injection Heq as <- <-. cbn [cells]. apply masked_length.
  rewrite length_map, length_seq. apply (Hrect n0 s0), list_elem_of_In, Hin0.
Qed.

Lemma drop_null_rows_row df j :
  (forall n s, (n, s) ∈ df -> length (cells s) = Frame.height df) ->
  j < Frame.height (Frame.drop_null_rows df) ->
  Frame.row_all_null (Frame.drop_null_rows df) j = false.
Proof.
  intros Hrect Hj. rewrite (drop_null_rows_height df Hrect) in Hj.
  set (keep := map (fun i => negb (Frame.row_all_null df i)) (seq 0 (Frame.height df)))
    in *.
  assert (Hkeep : length keep = Frame.height df)
    by (unfold keep; rewrite length_map, length_seq; reflexivity).
  destruct (masked_lookup keep j Hj) as (i & Hi & Hrow).
  unfold Frame.drop_null_rows. fold keep.
  rewrite (row_all_null_map _ df i j).
  - unfold keep in Hi. rewrite lookup_map in Hi.
    destruct (seq 0 (Frame.height df) !! i) as [i'|] eqn:Hseq; [|discriminate].
    apply lookup_seq in Hseq as [-> _]. cbn in Hi.
    injection Hi as Hi. apply negb_true_iff in Hi. exact Hi.
  - intros [n s] Hc. cbn [snd cells]. apply Hrow.
    rewrite Hkeep. apply (Hrect n s Hc).
Qed.

Lemma count_kept_rows (f : nat -> bool) (l : list nat) :
  length (filter (fun b => b = true) (map (fun i => negb (f i)) l)) =
  length (filter (fun i => f i = false) l).
Proof.
  induction l as [|i l IH]; [reflexivity|].
  cbn [map]. rewrite !filter_cons.
  destruct (f i) eqn:Hi; cbn [negb].
  - rewrite decide_False by discriminate. rewrite decide_False by discriminate.
    exact IH.
  - rewrite !decide_True by reflexivity. cbn. f_equal. exact IH.
Qed.

End RowFacts.

(** X29: removing the rows that hold only nulls, from a table whose
    columns all have the length of the first one, keeps the columns and
    their names, leaves columns of one length, leaves as many rows as
    held a value, and leaves no row that holds only nulls. *)
Theorem drop_null_rows_leaves_no_empty_row (df : DataFrame) :
  (forall n s, (n, s) ∈ df -> length (cells s) = Frame.height df) ->
  Frame.columns (Frame.drop_null_rows df) = Frame.columns df /\
  (forall n s,
     (n, s) ∈ Frame.drop_null_rows df ->
     length (cells s) = Frame.height (Frame.drop_null_rows df)) /\
  Frame.height (Frame.drop_null_rows df) =
  length (filter (fun i => Frame.row_all_null df i = false) (seq 0 (Frame.height df))) /\
  forall j,
    j < Frame.height (Frame.drop_null_rows df) ->
    Frame.row_all_null (Frame.drop_null_rows df) j = false.
Proof.
  intros Hrect.
  split; [apply drop_null_rows_columns|]. split; [|split].
  - apply drop_null_rows_cells_length, Hrect.
  - rewrite (drop_null_rows_height df Hrect). apply count_kept_rows.
  - intros j Hj. apply drop_null_rows_row; assumption.
Qed.

(** X29 at a table of three rows, the second of which is empty. *)
Lemma drop_null_rows_leaves_no_empty_row_witness :
  Frame.columns (Frame.drop_null_rows Cases.sparse_table) =
  Frame.columns Cases.sparse_table /\
  (forall n s,
     (n, s) ∈ Frame.drop_null_rows Cases.sparse_table ->
     length (cells s) = Frame.height (Frame.drop_null_rows Cases.sparse_table)) /\
  Frame.height (Frame.drop_null_rows Cases.sparse_table) =
  length (filter (fun i => Frame.row_all_null Cases.sparse_table i = false)
            (seq 0 (Frame.height Cases.sparse_table))) /\
  forall j,
    j < Frame.height (Frame.drop_null_rows Cases.sparse_table) ->
    Frame.row_all_null (Frame.drop_null_rows Cases.sparse_table) j = false.
Proof.
  apply (drop_null_rows_leaves_no_empty_row Cases.sparse_table).
  intros n s Hin.
  apply elem_of_cons in Hin as [[= -> ->] | Hin]; [reflexivity|].
  apply elem_of_cons in Hin as [[= -> ->] | Hin]; [reflexivity|].
  inversion Hin.
Defined.

Section DataTestFacts.

Lemma null_count_le s : Frame.null_count s <= length (cells s).
Proof. unfold Frame.null_count. apply length_filter. Qed.

Lemma null_count_full (l : list (option Value)) :
  length (filter (fun c => c = None) l) = length l ->
  forall i v, l !! i <> Some (Some v).
Proof.
  induction l as [|c l IH]; intros Hfull i v Hi; [discriminate|].
  rewrite filter_cons in Hfull. destruct c as [w|].
  - rewrite decide_False in Hfull by discriminate.
    pose proof (length_filter (fun c => c = None) l) as Hle. cbn in Hfull. lia.
  - rewrite decide_True in Hfull by reflexivity. cbn in Hfull.
    destruct i as [|i]; [discriminate|].
    apply (IH ltac:(lia) i v). exact Hi.
Qed.

Lemma null_count_lt s i v :
  cells s !! i = Some (Some v) -> Frame.null_count s < length (cells s).
Proof.
  intros Hi. pose proof (null_count_le s) as Hle.
  destruct (decide (Frame.null_count s = length (cells s))) as [Hfull|]; [|lia].
  exfalso. apply (null_count_full (cells s) Hfull i v Hi).
Qed.

Lemma null_count_sum_le (df : DataFrame) h :
  (forall n s, (n, s) ∈ df -> Frame.null_count s <= h) ->
  list_sum (map (fun '(_, s) => Frame.null_count s) df) <= h * length df.
Proof.
  unfold list_sum. induction df as [|[n s] df IH]; intros Hle; [cbn; lia|].
  cbn [map fold_right length]. rewrite Nat.mul_succ_r.
  pose proof (Hle n s (list_elem_of_here _ _)).
  specialize (IH (fun n' s' Hin => Hle n' s' (list_elem_of_further _ _ _ Hin))). lia.
Qed.

Lemma null_count_sum_full (df : DataFrame) h :
  (forall n s, (n, s) ∈ df -> Frame.null_count s <= h) ->
  list_sum (map (fun '(_, s) => Frame.null_count s) df) = h * length df ->
  forall n s, (n, s) ∈ df -> Frame.null_count s = h.
Proof.
  induction df as [|[n0 s0] df IH]; intros Hle Hsum n s Hin; [inversion Hin|].
  change (Frame.null_count s0 + list_sum (map (fun '(_, s) => Frame.null_count s) df) =
          h * S (length df)) in Hsum.
  rewrite Nat.mul_succ_r in Hsum.
  pose proof (Hle n0 s0 (list_elem_of_here _ _)) as Hhead.
  pose proof (null_count_sum_le df h
                (fun n' s' Hin' => Hle n' s' (list_elem_of_further _ _ _ Hin'))) as Htail.
  apply elem_of_cons in Hin as [[= -> ->] | Hin]; [lia|].
  apply (IH (fun n' s' Hin' => Hle n' s' (list_elem_of_further _ _ _ Hin'))
            ltac:(lia) n s Hin).
Qed.

Lemma row_with_value df i :
  Frame.row_all_null df i = false ->
  exists n s v, (n, s) ∈ df /\ cells s !! i = Some (Some v).
Proof.
  unfold Frame.row_all_null. induction df as [|[n s] df IH]; intros Hrow; [discriminate|].
  cbn [forallb] in Hrow. apply andb_false_iff in Hrow as [Hhere | Hlater].
  - destruct (cells s !! i) as [[v|]|] eqn:Hi; try discriminate.
    exists n, s, v. split; [left | exact Hi].
  - destruct (IH Hlater) as (n' & s' & v & Hin & Hi).
    exists n', s', v. split; [right; exact Hin | exact Hi].
Qed.

Lemma row_without_value df i :
  (forall n s v, (n, s) ∈ df -> cells s !! i <> Some (Some v)) ->
  Frame.row_all_null df i = true.
Proof.
  intros Hnone. unfold Frame.row_all_null. apply forallb_forall.
  intros [n s] Hin. apply list_elem_of_In in Hin.
  destruct (cells s !! i) as [[v|]|] eqn:Hi; try reflexivity.
  exfalso. apply (Hnone n s v Hin Hi).
Qed.

Lemma filter_none {A} (P : A -> Prop) `{forall x, Decision (P x)} (l : list A) :
  (forall x, ~ P x) -> filter P l = [].
Proof.
  intros Hnone. induction l as [|x l IH]; [reflexivity|].
  rewrite filter_cons, decide_False by apply Hnone. exact IH.
Qed.

End DataTestFacts.

(** X30: for a file that is read as a table whose columns all have
    the length of the first one, [csv_has_data] answers [True] exactly
    when more than [min_rows] rows hold a value; the tests for a table
    of nulls and for a column with a value decide nothing more. *)
Theorem csv_has_data_counts_rows_with_a_value
    (read_csv : string -> option DataFrame) (file_path : string)
    (df : DataFrame) (min_rows : nat) :
  read_csv file_path = Some df ->
  (forall n s, (n, s) ∈ df -> length (cells s) = Frame.height df) ->
  csv_has_data read_csv file_path min_rows = true <->
  min_rows < Frame.height (Frame.drop_null_rows df).
Proof.
  intros Hread Hrect. unfold csv_has_data. rewrite Hread.
  pose proof (drop_null_rows_height_le df) as Hle.
  split.
  - intros Htrue.
    destruct (Frame.is_empty df); [discriminate|].
    destruct (Nat.eqb _ _); [discriminate|]. cbn zeta in Htrue.
    destruct (Frame.is_empty (Frame.drop_null_rows df)); [discriminate|].
    destruct (Frame.height (Frame.drop_null_rows df) <=? min_rows)%nat eqn:Hrows;
      [discriminate|].
    apply Nat.leb_gt in Hrows. exact Hrows.
  - intros Hrows.
    unfold Frame.is_empty.
    destruct (Nat.eqb_spec (Frame.height df) 0) as [Hzero|_]; [lia|].
    destruct (Nat.eqb_spec
                (list_sum (map (fun '(_, s) => Frame.null_count s) df))
                (Frame.height df * Frame.width df)) as [Hsum|_].
    + exfalso.
      assert (Hfull : forall n s, (n, s) ∈ df -> Frame.null_count s = Frame.height df).
      { apply null_count_sum_full; [|exact Hsum].
        intros n s Hin. rewrite <- (Hrect n s Hin). apply null_count_le. }
      rewrite (drop_null_rows_height df Hrect), count_kept_rows in Hrows.
      rewrite filter_none in Hrows; [cbn in Hrows; lia|].
      intros i Hi. rewrite row_without_value in Hi; [discriminate|].
      intros n s v Hin. apply null_count_full.
      rewrite <- (Hrect n s Hin) in Hfull. apply (Hfull n s Hin).
    + cbn zeta.
      destruct (Nat.eqb_spec (Frame.height (Frame.drop_null_rows df)) 0) as [Hzero|_];
        [lia|].
      destruct (Nat.leb_spec (Frame.height (Frame.drop_null_rows df)) min_rows) as [Hbad|_];
        [lia|].
      destruct (row_with_value (Frame.drop_null_rows df) 0) as (n & s & v & Hin & Hcell).
      { apply drop_null_rows_row; [exact Hrect | lia]. }
      apply existsb_exists. exists (n, s). split; [apply list_elem_of_In, Hin|].
      apply Nat.ltb_lt.
      rewrite <- (drop_null_rows_cells_length df Hrect n s Hin).
      apply (null_count_lt s 0 v Hcell).
Qed.

(** X30 at a table of three rows of which two hold a value. *)
Lemma csv_has_data_counts_rows_with_a_value_witness :
  csv_has_data (fun _ => Some Cases.sparse_table) "com.samsung.health.sleep.csv" 1 = true <->
  1 < Frame.height (Frame.drop_null_rows Cases.sparse_table).
Proof.
  apply (csv_has_data_counts_rows_with_a_value
           (fun _ => Some Cases.sparse_table) "com.samsung.health.sleep.csv"
           Cases.sparse_table 1).
  - reflexivity.
  - intros n s Hin.
    apply elem_of_cons in Hin as [[= -> ->] | Hin]; [reflexivity|].
    apply elem_of_cons in Hin as [[= -> ->] | Hin]; [reflexivity|].
    inversion Hin.
Defined.
